(** * AQI reconciliation engine: freshness, normalisation, agreement, derived AQI

    A shallow embedding of [src/lib/aqi-utils.ts] (india-air-insights) and the
    properties its specification states about it.

    Numbers.  Every adapter of the repository produces integer AQI values
    ([Math.round], [parseInt], integer tables), and the data model fixes
    [aqi] as an integer or [null]; an AQI value is therefore a [Z].  The
    quantities the code derives from them by division or by the decimal weight
    constants (mean, variance, weights, ratios) are exact rationals [Q], and
    the square root is read in the reals [R].

    [calculateDerivedAQI] is embedded a second time, in [Binary64], with
    every number an IEEE-754 binary64 value and every operation correctly
    rounded, as JavaScript evaluates it.  The two embeddings differ where
    an exact quantity is a tie of [Math.round]: on a confidence ratio of
    57.5 the exact embedding returns 58 and the binary64 one, whose
    quotient falls below the tie, 57.  The bounds on a result are proved
    of the exact embedding; where the two embeddings differ, the property
    is stated of the binary64 one.

    Clock.  [calculateFreshness] reads the wall clock and parses a date
    string; both are parameters of its embedding.

    Around the engine.  The file also embeds the code that feeds the engine
    and shows its results: [timeSince], the three source adapters with
    [calculateAQIFromPM25], the trend generator and its chart, the AQI
    categories, the IoT section, the warning banner and the page's list of
    readings.  What these read from outside (the network call, the clock,
    [Math.random], [parseInt], [toUpperCase]) is a parameter of the
    embedding; an [async] adapter is modelled by the reading its promise
    resolves to. *)

From Stdlib Require Import ZArith QArith Qround Qabs Qreals Reals SpecFloat.
From Stdlib Require Import Lra Lqa Lia DecimalString String Bool List Permutation.
From Stdlib Require Import FMapPositive.
Import ListNotations.

(** Linear and non-linear arithmetic over [Q] and over [R]. *)
Ltac lraQ := Lqa.lra.
Ltac nraQ := Lqa.nra.
Ltac lraR := Lra.lra.
Ltac nraR := Lra.nra.

Local Open Scope Z_scope.

(* ================================================================== *)
(** ** Data model ([src/types/aqi.ts]) *)

Inductive DataSource : Set :=
  | GOVERNMENT | INTERNATIONAL | HISTORICAL | IOT_SENSOR.

Inductive FreshnessStatus : Set :=
  | fresh | aging | stale | unavailable.

(** The union ['high' | 'medium' | 'low' | 'uncalibrated'] of
    [AQIReading.confidence]. *)
Module Confidence.
Inductive t : Set := high | medium | low | uncalibrated.
End Confidence.

(** The union of [AgreementAnalysis.level]. *)
Module Level.
Inductive t : Set := high | partial | outlier | insufficient.
End Level.

Module Pollutant.
Record t : Set := mk
  { name : string;
    value : option Q;
    unit : string }.
End Pollutant.

Module AQIReading.
Record t : Set := mk
  { source : DataSource;
    aqi : option Z;
    pollutants : list Pollutant.t;
    timestamp : option string;
    freshness : FreshnessStatus;
    confidence : Confidence.t;
    notes : option string }.
End AQIReading.

Module AgreementAnalysis.
Record t : Set := mk
  { level : Level.t;
    spread : option Z;
    explanation : string }.
End AgreementAnalysis.

(** [DerivedAQI.methodology] is a fixed sentence around the number of sources
    and the per-source weights; the embedding keeps those values and leaves
    the two-decimal formatting of [toFixed] out. *)
Inductive Methodology : Set :=
  | NoValidData
  | WeightedAverage (count : nat) (weights : list (DataSource * Q)).

Module DerivedAQI.
Record t : Set := mk
  { value : option Z;
    confidence : Z;
    sources : list DataSource;
    methodology : Methodology }.
End DerivedAQI.

(* ================================================================== *)
(** ** JavaScript primitives used by the module *)

(** [Math.round]: nearest integer, halves towards plus infinity. *)
Definition Math_round (x : Q) : Z := Qfloor (x + (1 # 2))%Q.

(** [a < b] on numbers. *)
Definition Qltb (a b : Q) : bool := negb (Qle_bool b a).

(** [Math.sqrt(v) <= c] for a bound [c >= 0], decided on the squares; the
    square root of a negative number is NaN, which compares false. *)
Definition sqrt_leb (v c : Q) : bool :=
  Qle_bool 0 v && Qle_bool v (c * c)%Q.

(** [Math.max(...l)] and [Math.min(...l)] on a non-empty argument list (the
    empty one, plus or minus infinity in JavaScript, is never asked for). *)
Definition Math_max (l : list Z) : Z :=
  match l with
  | [] => 0
  | x :: xs => fold_left Z.max xs x
  end.

Definition Math_min (l : list Z) : Z :=
  match l with
  | [] => 0
  | x :: xs => fold_left Z.min xs x
  end.

(** Template-literal interpolation of an integer and of a [DataSource]. *)
Definition string_of_Z (z : Z) : string :=
  NilZero.string_of_int (Z.to_int z).

Definition string_of_source (s : DataSource) : string :=
  match s with
  | GOVERNMENT => "GOVERNMENT"
  | INTERNATIONAL => "INTERNATIONAL"
  | HISTORICAL => "HISTORICAL"
  | IOT_SENSOR => "IOT_SENSOR"
  end.

(* ================================================================== *)
(** ** calculateFreshness *)

Section Clock.

(** [new Date(s).getTime()]: milliseconds since the epoch, [None] for the
    NaN of an invalid date. *)
Variable Date_getTime : string -> option Z.

(** [new Date().getTime()]. *)
Variable now : Z.

(** [hoursDiff] of a parsed instant. *)
Definition hoursDiff (dataTime : Z) : Q :=
  (inject_Z (now - dataTime) / inject_Z (1000 * 60 * 60))%Q.

Definition calculateFreshness (timestamp : option string) : FreshnessStatus :=
  match timestamp with
  | None => unavailable
  | Some EmptyString => unavailable
  | Some ts =>
      match Date_getTime ts with
      | None => stale
      | Some dataTime =>
          if Qltb (hoursDiff dataTime) 1%Q then fresh
          else if Qltb (hoursDiff dataTime) 6%Q then aging
          else stale
      end
  end.

End Clock.

(* ================================================================== *)
(** ** normalizeAQI *)

Definition normalizeAQI (value : Q) (sourceType : DataSource) : Q :=
  match sourceType with
  | INTERNATIONAL => inject_Z (Math_round (value * 0.95)%Q)
  | GOVERNMENT => value
  | HISTORICAL => value
  | IOT_SENSOR => value
  end.

(* ================================================================== *)
(** ** analyzeAgreement *)

(** The filter predicate [r.aqi !== null && r.freshness !== 'unavailable']. *)
Definition usable (r : AQIReading.t) : bool :=
  match AQIReading.aqi r with
  | None => false
  | Some _ =>
      match AQIReading.freshness r with
      | unavailable => false
      | _ => true
      end
  end.

(** [r.aqi as number]; a [null] would enter arithmetic as 0. *)
Definition aqi_as_number (r : AQIReading.t) : Z :=
  match AQIReading.aqi r with
  | Some a => a
  | None => 0
  end.

Definition mean (aqiValues : list Z) : Q :=
  (inject_Z (fold_left Z.add aqiValues 0%Z)
   / inject_Z (Z.of_nat (length aqiValues)))%Q.

Definition variance (aqiValues : list Z) : Q :=
  (fold_left (fun sum val => sum + (inject_Z val - mean aqiValues) ^ 2)
             aqiValues 0
   / inject_Z (Z.of_nat (length aqiValues)))%Q.

Definition analyzeAgreement (readings : list AQIReading.t)
  : AgreementAnalysis.t :=
  let validReadings := filter usable readings in
  match validReadings with
  | [] =>
      AgreementAnalysis.mk Level.insufficient None
        "No valid data available from any source."
  | [r] =>
      AgreementAnalysis.mk Level.insufficient None
        ("Only " ++ string_of_source (AQIReading.source r)
           ++ " data available. Cannot cross-validate.")%string
  | _ =>
      let aqiValues := map aqi_as_number validReadings in
      let max := Math_max aqiValues in
      let min := Math_min aqiValues in
      let spread := max - min in
      if (spread <=? 20) && sqrt_leb (variance aqiValues) 10%Q then
        AgreementAnalysis.mk Level.high (Some spread)
          ("Sources agree within " ++ string_of_Z spread
             ++ " AQI points. High confidence in data.")%string
      else if (spread <=? 50) && sqrt_leb (variance aqiValues) 25%Q then
        AgreementAnalysis.mk Level.partial (Some spread)
          ("Sources differ by " ++ string_of_Z spread
             ++ " AQI points. Possible local variations or measurement timing differences.")%string
      else
        AgreementAnalysis.mk Level.outlier (Some spread)
          ("Significant disagreement (spread: " ++ string_of_Z spread
             ++ "). Possible sensor calibration issues, local hotspots, or data staleness.")%string
  end.

(* ================================================================== *)
(** ** calculateDerivedAQI *)

(** The body of the [map] callback that assigns a weight to a reading. *)
Definition reading_weight (r : AQIReading.t) : Q :=
  let weight := 1%Q in
  let weight :=
    match AQIReading.source r with
    | GOVERNMENT => (weight * 1.2)%Q
    | INTERNATIONAL => (weight * 1.0)%Q
    | HISTORICAL => (weight * 0.6)%Q
    | IOT_SENSOR => (weight * 0.3)%Q
    end in
  let weight :=
    match AQIReading.freshness r with
    | fresh => (weight * 1.0)%Q
    | aging => (weight * 0.7)%Q
    | stale => (weight * 0.4)%Q
    | unavailable => weight
    end in
  let weight :=
    match AQIReading.confidence r with
    | Confidence.high => (weight * 1.0)%Q
    | Confidence.medium => (weight * 0.8)%Q
    | Confidence.low => (weight * 0.5)%Q
    | Confidence.uncalibrated => (weight * 0.3)%Q
    end in
  weight.

Definition weightedReadings (validReadings : list AQIReading.t)
  : list (AQIReading.t * Q) :=
  map (fun r => (r, reading_weight r)) validReadings.

Definition totalWeight (wrs : list (AQIReading.t * Q)) : Q :=
  fold_left (fun sum wr => sum + snd wr)%Q wrs 0%Q.

Definition weightedSum (wrs : list (AQIReading.t * Q)) : Q :=
  fold_left (fun sum wr => sum + inject_Z (aqi_as_number (fst wr)) * snd wr)%Q
            wrs 0%Q.

Definition maxPossibleWeight (validReadings : list AQIReading.t) : Q :=
  (inject_Z (Z.of_nat (length validReadings)) * 1.2 * 1.0 * 1.0)%Q.

Definition calculateDerivedAQI (readings : list AQIReading.t) : DerivedAQI.t :=
  let validReadings := filter usable readings in
  match validReadings with
  | [] => DerivedAQI.mk None 0 [] NoValidData
  | _ =>
      let wrs := weightedReadings validReadings in
      let derivedValue := Math_round (weightedSum wrs / totalWeight wrs)%Q in
      let confidence :=
        Z.min 100
          (Math_round (totalWeight wrs / maxPossibleWeight validReadings * 100)%Q) in
      let sourceList := map AQIReading.source validReadings in
      let weightExplanations :=
        map (fun wr => (AQIReading.source (fst wr), snd wr)) wrs in
      DerivedAQI.mk (Some derivedValue) confidence sourceList
        (WeightedAverage (length validReadings) weightExplanations)
  end.

(* ================================================================== *)
(** ** calculateDerivedAQI in binary64

    The same function with every number an IEEE-754 binary64 value and
    every operation the correctly rounded one ([SpecFloat]), as JavaScript
    evaluates it.  A decimal literal such as [1.2] is the double nearest
    to it, which is the correctly rounded quotient of 12 by 10. *)

Module Binary64.

Definition prec : Z := 53.
Definition emax : Z := 1024.

Definition number : Set := spec_float.

Definition of_Z (z : Z) : number := binary_normalize prec emax z 0 false.
Definition add (x y : number) : number := SFadd prec emax x y.
Definition mul (x y : number) : number := SFmul prec emax x y.
Definition div (x y : number) : number := SFdiv prec emax x y.

(** The literal whose decimal value is [n / d], [d] a power of ten. *)
Definition decimal (n d : Z) : number := div (of_Z n) (of_Z d).

(** The exact value of a finite number. *)
Definition to_Q (x : number) : option Q :=
  match x with
  | S754_zero _ => Some 0%Q
  | S754_finite s m e => Some (inject_Z (cond_Zopp s (Zpos m)) * 2 ^ e)%Q
  | _ => None
  end.

(** [Math.round]: the integer [floor (x + 1/2)] of the exact value of a
    finite [x]; NaN and the infinities are returned as they are. *)
Definition Math_round (x : number) : number :=
  match to_Q x with
  | Some q => of_Z (Qfloor (q + (1 # 2))%Q)
  | None => x
  end.

(** [Math.min(a, b)]: NaN when either is NaN. *)
Definition Math_min (a b : number) : number :=
  match SFcompare a b with
  | Some Gt => b
  | Some _ => a
  | None => S754_nan
  end.

Definition reading_weight (r : AQIReading.t) : number :=
  let weight := of_Z 1 in
  let weight :=
    match AQIReading.source r with
    | GOVERNMENT => mul weight (decimal 12 10)
    | INTERNATIONAL => mul weight (decimal 10 10)
    | HISTORICAL => mul weight (decimal 6 10)
    | IOT_SENSOR => mul weight (decimal 3 10)
    end in
  let weight :=
    match AQIReading.freshness r with
    | fresh => mul weight (decimal 10 10)
    | aging => mul weight (decimal 7 10)
    | stale => mul weight (decimal 4 10)
    | unavailable => weight
    end in
  let weight :=
    match AQIReading.confidence r with
    | Confidence.high => mul weight (decimal 10 10)
    | Confidence.medium => mul weight (decimal 8 10)
    | Confidence.low => mul weight (decimal 5 10)
    | Confidence.uncalibrated => mul weight (decimal 3 10)
    end in
  weight.

Definition weightedReadings (validReadings : list AQIReading.t)
  : list (AQIReading.t * number) :=
  map (fun r => (r, reading_weight r)) validReadings.

Definition totalWeight (wrs : list (AQIReading.t * number)) : number :=
  fold_left (fun sum wr => add sum (snd wr)) wrs (of_Z 0).

Definition weightedSum (wrs : list (AQIReading.t * number)) : number :=
  fold_left (fun sum wr => add sum (mul (of_Z (aqi_as_number (fst wr))) (snd wr)))
            wrs (of_Z 0).

Definition maxPossibleWeight (validReadings : list AQIReading.t) : number :=
  mul (mul (mul (of_Z (Z.of_nat (length validReadings))) (decimal 12 10))
           (decimal 10 10))
      (decimal 10 10).

(** The result; [weights] are the pairs the methodology text lists (there
    each weight is printed with [toFixed(2)]), none for the text of no
    valid data. *)
Record result : Set := mk
  { value : option number;
    confidence : number;
    sources : list DataSource;
    weights : list (DataSource * number) }.

Definition calculateDerivedAQI (readings : list AQIReading.t) : result :=
  let validReadings := filter usable readings in
  match validReadings with
  | [] => mk None (of_Z 0) [] []
  | _ =>
      let wrs := weightedReadings validReadings in
      let derivedValue := Math_round (div (weightedSum wrs) (totalWeight wrs)) in
      let confidence :=
        Math_min (of_Z 100)
          (Math_round
             (mul (div (totalWeight wrs) (maxPossibleWeight validReadings))
                  (of_Z 100))) in
      mk (Some derivedValue) confidence
         (map AQIReading.source validReadings)
         (map (fun wr => (AQIReading.source (fst wr), snd wr)) wrs)
  end.

End Binary64.

(* ================================================================== *)
(** ** Specification-side definitions *)

(** The three factor tables of the derived-AQI weight, as the specification
    lists them.  A reading whose freshness is [unavailable] is filtered out
    before any weight is computed and has no freshness factor. *)
Definition reliability_factor (s : DataSource) : Q :=
  match s with
  | GOVERNMENT => 1.2
  | INTERNATIONAL => 1.0
  | HISTORICAL => 0.6
  | IOT_SENSOR => 0.3
  end%Q.

Definition freshness_factor (f : FreshnessStatus) : option Q :=
  match f with
  | fresh => Some 1.0
  | aging => Some 0.7
  | stale => Some 0.4
  | unavailable => None
  end%Q.

Definition confidence_factor (c : Confidence.t) : Q :=
  match c with
  | Confidence.high => 1.0
  | Confidence.medium => 0.8
  | Confidence.low => 0.5
  | Confidence.uncalibrated => 0.3
  end%Q.

(** Sum of a list of rationals, and of a list of reals. *)
Fixpoint sumQ (l : list Q) : Q :=
  match l with
  | [] => 0
  | x :: xs => x + sumQ xs
  end%Q.

Fixpoint sumR (l : list R) : R :=
  match l with
  | [] => 0
  | x :: xs => x + sumR xs
  end%R.

(** Population mean and population standard deviation of a list of integers,
    over the reals. *)
Definition population_mean (xs : list Z) : R :=
  (sumR (map IZR xs) / INR (length xs))%R.

Definition population_variance (xs : list Z) : R :=
  (sumR (map (fun x => (IZR x - population_mean xs) ^ 2) xs)
   / INR (length xs))%R.

Definition population_stdDev (xs : list Z) : R :=
  sqrt (population_variance xs).

(** The usable readings of an input and their AQI values. *)
Definition usable_readings (readings : list AQIReading.t) : list AQIReading.t :=
  filter usable readings.

Definition usable_aqi (readings : list AQIReading.t) : list Z :=
  map aqi_as_number (usable_readings readings).

(** A reading of the best case: government, fresh, high confidence. *)
Definition best_case (r : AQIReading.t) : Prop :=
  AQIReading.source r = GOVERNMENT /\
  AQIReading.freshness r = fresh /\
  AQIReading.confidence r = Confidence.high.

(** Sample readings for the scenarios of the specification. *)
Definition reading (s : DataSource) (a : option Z) (f : FreshnessStatus)
    (c : Confidence.t) : AQIReading.t :=
  AQIReading.mk s a [] (Some "2025-01-01T09:00:00Z"%string) f c None.

(* ================================================================== *)
(** ** Specification-side definitions for the binary64 embedding *)

(** The double nearest to a decimal constant of the specification. *)
Definition literal (q : Q) : Binary64.number :=
  Binary64.decimal (Qnum q) (Zpos (Qden q)).

(** The weight the specification gives a reading, the product of its three
    factors: in exact arithmetic, and in binary64 from left to right. *)
Definition product_of_factors (r : AQIReading.t) : option Q :=
  match freshness_factor (AQIReading.freshness r) with
  | Some f =>
      Some (reliability_factor (AQIReading.source r) * f
            * confidence_factor (AQIReading.confidence r))%Q
  | None => None
  end.

Definition product_of_factors64 (r : AQIReading.t) : option Binary64.number :=
  match freshness_factor (AQIReading.freshness r) with
  | Some f =>
      Some (Binary64.mul
              (Binary64.mul (literal (reliability_factor (AQIReading.source r)))
                            (literal f))
              (literal (confidence_factor (AQIReading.confidence r))))
  | None => None
  end.

(** The ratio of the confidence formula,
    [100 * (sum of the weights) / (N * 1.2)], in exact arithmetic. *)
Definition confidence_formula (validReadings : list AQIReading.t) : Q :=
  (100 * sumQ (map reading_weight validReadings)
   / (inject_Z (Z.of_nat (length validReadings)) * 1.2))%Q.


(** [c] is the integer the formula gives for the ratio [q], or the integer
    below it when [q] is exactly the tie [c + 1/2]; and lies in [0, 100]. *)
Definition confidence_within (q : Q) (c : Z) : Prop :=
  0 <= c <= 100 /\
  (c = Z.min 100 (Math_round q) \/
   (c = Z.min 100 (Math_round q) - 1 /\ (q == inject_Z c + (1 # 2))%Q)).

(** *** Exhaustive evaluation over the sums a list can reach

    The confidence of a list is decided by the sum of its weights, as the
    binary64 embedding accumulates it and exactly.  The weight of a reading
    depends on its source, freshness and confidence only, so the sums the
    lists of a given length reach are finitely many; they are collected
    without repetition and the confidence is examined on each. *)

Definition number_eqb (x y : Binary64.number) : bool :=
  match x, y with
  | S754_zero a, S754_zero b => Bool.eqb a b
  | S754_infinity a, S754_infinity b => Bool.eqb a b
  | S754_nan, S754_nan => true
  | S754_finite a m e, S754_finite b m' e' =>
      Bool.eqb a b && Pos.eqb m m' && Z.eqb e e'
  | _, _ => false
  end.

(** The confidence computed from the sum [s] of the weights and the
    largest possible weight [m]. *)
Definition confidence_of_sum (m s : Binary64.number) : Binary64.number :=
  Binary64.Math_min (Binary64.of_Z 100)
    (Binary64.Math_round
       (Binary64.mul (Binary64.div s m) (Binary64.of_Z 100))).

(** [confidence_within], decided on the binary64 sum [s] and the exact sum
    [q] of the weights. *)
Definition check_confidence (m : Binary64.number) (mq : Q)
    (s : Binary64.number) (q : Q) : bool :=
  let ratio := (q / mq * 100)%Q in
  let F := Z.min 100 (Math_round ratio) in
  let c := confidence_of_sum m s in
  (0 <=? F) &&
  (number_eqb c (Binary64.of_Z F) ||
   ((1 <=? F) && number_eqb c (Binary64.of_Z (F - 1)) &&
    Qeq_bool ratio (inject_Z (F - 1) + (1 # 2)))).

(** A pair of sums: in binary64, and exactly in thousandths. *)
Definition sums : Set := (Binary64.number * Z)%type.

Definition sums_eqb (a b : sums) : bool :=
  number_eqb (fst a) (fst b) && (snd a =? snd b).

(** The weight of a reading in both embeddings; every exact weight is a
    whole number of thousandths. *)
Definition weights_of (r : AQIReading.t) : sums :=
  (Binary64.reading_weight r, Qfloor (reading_weight r * 1000)).

Definition add_weights (st w : sums) : sums :=
  (Binary64.add (fst st) (fst w), snd st + snd w).

Definition no_weight : sums := (Binary64.of_Z 0, 0).

(** The forty-eight shapes of a usable reading. *)
Definition all_weights : list sums :=
  flat_map
    (fun s =>
       flat_map
         (fun f =>
            map (fun c => weights_of (reading s (Some 0) f c))
                [Confidence.high; Confidence.medium; Confidence.low;
                 Confidence.uncalibrated])
         [fresh; aging; stale])
    [GOVERNMENT; INTERNATIONAL; HISTORICAL; IOT_SENSOR].

(** A finite set of sums, kept by exact sum. *)
Definition sums_set : Type := PositiveMap.t (list sums).

Definition sums_key (st : sums) : positive := Z.to_pos (snd st + 1).

Definition sums_mem (st : sums) (m : sums_set) : bool :=
  match PositiveMap.find (sums_key st) m with
  | Some b => existsb (sums_eqb st) b
  | None => false
  end.

Definition sums_insert (st : sums) (m : sums_set) : sums_set :=
  match PositiveMap.find (sums_key st) m with
  | Some b =>
      if existsb (sums_eqb st) b then m
      else PositiveMap.add (sums_key st) (st :: b) m
  | None => PositiveMap.add (sums_key st) [st] m
  end.

Definition sums_elements (m : sums_set) : list sums :=
  flat_map snd (PositiveMap.elements m).

(** The sums reached by adding one more weight. *)
Definition sums_next (m : sums_set) : sums_set :=
  fold_left
    (fun acc st =>
       fold_left (fun acc' w => sums_insert (add_weights st w) acc')
                 all_weights acc)
    (sums_elements m) (PositiveMap.empty (list sums)).

(** The sums reached by the lists of [n] usable readings. *)
Fixpoint sums_reached (n : nat) : sums_set :=
  match n with
  | O => sums_insert no_weight (PositiveMap.empty (list sums))
  | S n' => sums_next (sums_reached n')
  end.

(** The confidence of every list of [n] usable readings is as
    [confidence_within] says. *)
Definition check_sums (n : nat) (m : sums_set) : bool :=
  let l := repeat (reading GOVERNMENT (Some 0) fresh Confidence.high) n in
  let m64 := Binary64.maxPossibleWeight l in
  let mq := maxPossibleWeight l in
  forallb (fun st => check_confidence m64 mq (fst st) (snd st # 1000))
          (sums_elements m).

(** [check_sums] on the lengths [k + 1] to [k + n], from the sums [m]
    reached at length [k]; each level is computed once. *)
Fixpoint check_levels (n k : nat) (m : sums_set) : bool :=
  match n with
  | O => true
  | S n' =>
      let m' := sums_next m in
      check_sums (S k) m' && check_levels n' (S k) m'
  end.

(* ================================================================== *)
(** ** timeSince *)

Section ClockDisplay.

Variable Date_getTime : string -> option Z.
Variable now : Z.

(** [Math.floor] of a quotient of integers is [Z.div]; an invalid date makes
    every comparison false and is printed as [NaN]. *)
Definition timeSince (timestamp : option string) : string :=
  match timestamp with
  | None => "Unknown"
  | Some EmptyString => "Unknown"
  | Some ts =>
      match Date_getTime ts with
      | None => "NaNd ago"
      | Some dataTime =>
          let diffMs := now - dataTime in
          let minutes := diffMs / (1000 * 60) in
          let hours := diffMs / (1000 * 60 * 60) in
          let days := diffMs / (1000 * 60 * 60 * 24) in
          if minutes <? 1 then "Just now"
          else if minutes <? 60 then (string_of_Z minutes ++ "m ago")%string
          else if hours <? 24 then (string_of_Z hours ++ "h ago")%string
          else (string_of_Z days ++ "d ago")%string
      end
  end.

End ClockDisplay.

(* ================================================================== *)
(** ** Cities ([src/lib/cities.ts]) *)

Inductive CityType : Set := metro | tier2 | industrial.

Module City.
Record t : Set := mk
  { id : string;
    name : string;
    state : string;
    type : CityType;
    openAqName : option string }.
End City.

Definition INDIAN_CITIES : list City.t :=
  [ City.mk "delhi" "Delhi" "Delhi" metro (Some "Delhi");
    City.mk "mumbai" "Mumbai" "Maharashtra" metro (Some "Mumbai");
    City.mk "bangalore" "Bengaluru" "Karnataka" metro (Some "Bengaluru");
    City.mk "kolkata" "Kolkata" "West Bengal" metro (Some "Kolkata");
    City.mk "jaipur" "Jaipur" "Rajasthan" tier2 (Some "Jaipur");
    City.mk "lucknow" "Lucknow" "Uttar Pradesh" tier2 (Some "Lucknow");
    City.mk "patna" "Patna" "Bihar" tier2 (Some "Patna");
    City.mk "kanpur" "Kanpur" "Uttar Pradesh" industrial (Some "Kanpur");
    City.mk "ghaziabad" "Ghaziabad" "Uttar Pradesh" industrial (Some "Ghaziabad");
    City.mk "faridabad" "Faridabad" "Haryana" industrial (Some "Faridabad") ]%string.

Definition getCityById (id : string) : option City.t :=
  find (fun city => String.eqb (City.id city) id) INDIAN_CITIES.

(* ================================================================== *)
(** ** Cached data ([src/lib/data-sources.ts]) *)

Module HistoricalRow.
Record t : Set := mk
  { aqi : Z; pm25 : Q; pm10 : Q; timestamp : string }.
End HistoricalRow.

Module GovernmentRow.
Record t : Set := mk
  { aqi : Z; pm25 : Q; pm10 : Q; no2 : Q; timestamp : string }.
End GovernmentRow.

Definition HISTORICAL_DATA : list (string * HistoricalRow.t) :=
  [ ("delhi", HistoricalRow.mk 285 142 198 "2025-01-01T08:00:00Z");
    ("mumbai", HistoricalRow.mk 125 58 89 "2025-01-01T07:30:00Z");
    ("bangalore", HistoricalRow.mk 98 42 67 "2025-01-01T09:00:00Z");
    ("kolkata", HistoricalRow.mk 168 82 124 "2025-01-01T08:15:00Z");
    ("jaipur", HistoricalRow.mk 195 95 145 "2025-01-01T07:45:00Z");
    ("lucknow", HistoricalRow.mk 242 118 178 "2025-01-01T08:30:00Z");
    ("patna", HistoricalRow.mk 278 136 195 "2025-01-01T09:15:00Z");
    ("kanpur", HistoricalRow.mk 312 158 228 "2025-01-01T07:00:00Z");
    ("ghaziabad", HistoricalRow.mk 298 148 212 "2025-01-01T08:45:00Z");
    ("faridabad", HistoricalRow.mk 275 134 192 "2025-01-01T09:30:00Z") ]%string.

Definition GOVERNMENT_DATA : list (string * GovernmentRow.t) :=
  [ ("delhi", GovernmentRow.mk 278 138 192 45 "2025-01-01T09:00:00Z");
    ("mumbai", GovernmentRow.mk 118 52 82 28 "2025-01-01T09:00:00Z");
    ("bangalore", GovernmentRow.mk 92 38 62 22 "2025-01-01T09:00:00Z");
    ("kolkata", GovernmentRow.mk 162 78 118 38 "2025-01-01T09:00:00Z");
    ("jaipur", GovernmentRow.mk 188 92 138 35 "2025-01-01T09:00:00Z");
    ("lucknow", GovernmentRow.mk 235 112 172 42 "2025-01-01T09:00:00Z");
    ("patna", GovernmentRow.mk 268 132 188 48 "2025-01-01T09:00:00Z");
    ("kanpur", GovernmentRow.mk 305 152 218 52 "2025-01-01T09:00:00Z");
    ("ghaziabad", GovernmentRow.mk 292 142 205 48 "2025-01-01T09:00:00Z");
    ("faridabad", GovernmentRow.mk 268 128 185 44 "2025-01-01T09:00:00Z") ]%string.

(** [TABLE[key]] on one of the two object literals above: the row stored
    under the key, [None] for [undefined].  Keys inherited from
    [Object.prototype] are not city identifiers and are not modelled. *)
Fixpoint record_lookup {A : Type} (key : string) (table : list (string * A))
  : option A :=
  match table with
  | [] => None
  | (k, v) :: rest => if String.eqb k key then Some v else record_lookup key rest
  end.

(* ================================================================== *)
(** ** calculateAQIFromPM25 *)

Module Breakpoint.
Record t : Set := mk { cLow : Q; cHigh : Q; iLow : Q; iHigh : Q }.
End Breakpoint.

Definition breakpoints : list Breakpoint.t :=
  [ Breakpoint.mk 0 12 0 50;
    Breakpoint.mk 12.1 35.4 51 100;
    Breakpoint.mk 35.5 55.4 101 150;
    Breakpoint.mk 55.5 150.4 151 200;
    Breakpoint.mk 150.5 250.4 201 300;
    Breakpoint.mk 250.5 350.4 301 400;
    Breakpoint.mk 350.5 500.4 401 500 ]%Q.

(** The [for ... of] loop over the breakpoints, with the fall-through
    [return 500]. *)
Fixpoint calculateAQIFromPM25_loop (bps : list Breakpoint.t) (pm25 : Q) : Z :=
  match bps with
  | [] => 500
  | bp :: rest =>
      if Qle_bool (Breakpoint.cLow bp) pm25 && Qle_bool pm25 (Breakpoint.cHigh bp)
      then Math_round
             ((Breakpoint.iHigh bp - Breakpoint.iLow bp)
              / (Breakpoint.cHigh bp - Breakpoint.cLow bp)
              * (pm25 - Breakpoint.cLow bp) + Breakpoint.iLow bp)%Q
      else calculateAQIFromPM25_loop rest pm25
  end.

Definition calculateAQIFromPM25 (pm25 : Q) : Z :=
  calculateAQIFromPM25_loop breakpoints pm25.

(** A row covers a concentration that lies within its two bounds, and
    [interpolate] is the index the loop returns for a covered one. *)
Definition covered_by (bp : Breakpoint.t) (pm25 : Q) : Prop :=
  (Breakpoint.cLow bp <= pm25 /\ pm25 <= Breakpoint.cHigh bp)%Q.

Definition interpolate (bp : Breakpoint.t) (pm25 : Q) : Z :=
  Math_round
    ((Breakpoint.iHigh bp - Breakpoint.iLow bp)
     / (Breakpoint.cHigh bp - Breakpoint.cLow bp)
     * (pm25 - Breakpoint.cLow bp) + Breakpoint.iLow bp)%Q.

(* ================================================================== *)
(** ** Source adapters ([src/lib/data-sources.ts])

    Each adapter is an [async] function; its embedding is the reading the
    promise resolves to, as a function of the clock and of what the network
    call produced. *)

Module Measurement.
Record t : Set := mk
  { parameter : string;
    value : Q;
    unit : string;
    lastUpdated : option string }.
End Measurement.

Module OpenAQResult.
Record t : Set := mk { measurements : option (list Measurement.t) }.
End OpenAQResult.

(** What [supabase.functions.invoke] does inside the [try] block: it throws
    (an [Error] with a message, or another value), it resolves with an
    [error] (whose message may be missing), or it resolves with data whose
    [results] may be missing. *)
Inductive InvokeOutcome : Set :=
  | Rejected (message : option string)
  | Failed (message : option string)
  | Resolved (results : option (list OpenAQResult.t)).

(** [s || d] on strings that may be undefined. *)
Definition string_or (s : option string) (d : string) : string :=
  match s with
  | None => d
  | Some EmptyString => d
  | Some x => x
  end.

(** [s || null] on a string that may be undefined. *)
Definition string_or_null (s : option string) : option string :=
  match s with
  | Some (String c x) => Some (String c x)
  | _ => None
  end.

Section Adapters.

Variable Date_getTime : string -> option Z.
Variable now : Z.

(** [String.prototype.toUpperCase]. *)
Variable toUpperCase : string -> string.

Definition openAQ_failure (message : string) : AQIReading.t :=
  AQIReading.mk INTERNATIONAL None [] None unavailable Confidence.low
    (Some ("Failed to fetch OpenAQ data: " ++ message)%string).

Definition fetchOpenAQData (city : City.t) (outcome : InvokeOutcome)
  : AQIReading.t :=
  match outcome with
  | Rejected (Some message) => openAQ_failure message
  | Rejected None => openAQ_failure "Unknown error"
  | Failed message => openAQ_failure (string_or message "Edge function error")
  | Resolved None | Resolved (Some []) =>
      AQIReading.mk INTERNATIONAL None [] None unavailable Confidence.low
        (Some ("No OpenAQ data available for " ++ City.name city
               ++ ". City may not have monitoring stations in OpenAQ network.")%string)
  | Resolved (Some (result :: _)) =>
      let measurements :=
        match OpenAQResult.measurements result with
        | Some ms => ms
        | None => []
        end in
      let pollutants :=
        map (fun m => Pollutant.mk (toUpperCase (Measurement.parameter m))
                        (Some (Measurement.value m)) (Measurement.unit m))
            measurements in
      let pm25 :=
        find (fun m => String.eqb (Measurement.parameter m) "pm25")
             measurements in
      let aqi :=
        match pm25 with
        | Some m =>
            Some (Qfloor (normalizeAQI
                            (inject_Z (calculateAQIFromPM25 (Measurement.value m)))
                            INTERNATIONAL))
        | None => None
        end in
      let timestamp :=
        match measurements with
        | m :: _ => string_or_null (Measurement.lastUpdated m)
        | [] => None
        end in
      AQIReading.mk INTERNATIONAL aqi pollutants timestamp
        (calculateFreshness Date_getTime now timestamp)
        (match aqi with Some _ => Confidence.high | None => Confidence.low end)
        (Some "Data from OpenAQ network. AQI calculated from PM2.5 concentration."%string)
  end.

Definition fetchGovernmentData (city : City.t) : AQIReading.t :=
  match record_lookup (City.id city) GOVERNMENT_DATA with
  | None =>
      AQIReading.mk GOVERNMENT None [] None unavailable Confidence.low
        (Some ("No CPCB data available for " ++ City.name city ++ ".")%string)
  | Some data =>
      AQIReading.mk GOVERNMENT (Some (GovernmentRow.aqi data))
        [ Pollutant.mk "PM2.5" (Some (GovernmentRow.pm25 data)) "µg/m³";
          Pollutant.mk "PM10" (Some (GovernmentRow.pm10 data)) "µg/m³";
          Pollutant.mk "NO₂" (Some (GovernmentRow.no2 data)) "ppb" ]
        (Some (GovernmentRow.timestamp data))
        (calculateFreshness Date_getTime now (Some (GovernmentRow.timestamp data)))
        Confidence.high
        (Some "Data from CPCB monitoring network. Considered authoritative for regulatory purposes."%string)
  end.

Definition fetchHistoricalData (city : City.t) : AQIReading.t :=
  match record_lookup (City.id city) HISTORICAL_DATA with
  | None =>
      AQIReading.mk HISTORICAL None [] None unavailable Confidence.low
        (Some ("No historical data available for " ++ City.name city ++ ".")%string)
  | Some data =>
      AQIReading.mk HISTORICAL (Some (HistoricalRow.aqi data))
        [ Pollutant.mk "PM2.5" (Some (HistoricalRow.pm25 data)) "µg/m³";
          Pollutant.mk "PM10" (Some (HistoricalRow.pm10 data)) "µg/m³" ]
        (Some (HistoricalRow.timestamp data))
        stale
        Confidence.medium
        (Some "Historical dataset (Kaggle-sourced). Useful for trend analysis but may not reflect current conditions."%string)
  end.

End Adapters.

(** Whether the network call delivered at least one result. *)
Definition delivers_data (outcome : InvokeOutcome) : bool :=
  match outcome with
  | Resolved (Some (_ :: _)) => true
  | _ => false
  end.

(** The measurements of the first result of a response. *)
Definition first_measurements (outcome : InvokeOutcome) : list Measurement.t :=
  match outcome with
  | Resolved (Some (result :: _)) =>
      match OpenAQResult.measurements result with
      | Some ms => ms
      | None => []
      end
  | _ => []
  end.

(* ================================================================== *)
(** ** Trend data and its chart *)

Module TrendDataPoint.
Record t : Set := mk { time : string; aqi : Z }.
End TrendDataPoint.

Section Trend.

(** [random k] is the value of the [k]-th call of [Math.random], and
    [isoHoursAgo i] the ISO string of the current time moved back by [i]
    hours. *)
Variable random : nat -> Q.
Variable isoHoursAgo : Z -> string.

(** [HISTORICAL_DATA[cityId]?.aqi || 150]. *)
Definition trend_baseAQI (cityId : string) : Z :=
  match record_lookup cityId HISTORICAL_DATA with
  | Some row => if HistoricalRow.aqi row =? 0 then 150 else HistoricalRow.aqi row
  | None => 150
  end.

(** [hours] is an integer; the loop runs for [i = hours, ..., 0]. *)
Definition generateTrendData (cityId : string) (hours : Z)
  : list TrendDataPoint.t :=
  let baseAQI := trend_baseAQI cityId in
  map (fun k =>
         let i := hours - Z.of_nat k in
         let variation := ((random k - 0.5) * 0.3 * inject_Z baseAQI)%Q in
         let aqi :=
           Z.max 0 (Z.min 500 (Math_round (inject_Z baseAQI + variation)%Q)) in
         TrendDataPoint.mk (isoHoursAgo i) aqi)
      (seq 0 (Z.to_nat (hours + 1))).

End Trend.

(** The [useMemo] of [TrendChart]: the range, with its [|| 1] guard, and the
    height of each bar in percent. *)
Definition chart_range (data : list TrendDataPoint.t) : Z :=
  let values := map TrendDataPoint.aqi data in
  let range := Math_max values - Math_min values in
  if range =? 0 then 1 else range.

Definition bar_height (data : list TrendDataPoint.t) (d : TrendDataPoint.t) : Q :=
  (inject_Z (TrendDataPoint.aqi d - Math_min (map TrendDataPoint.aqi data))
   / inject_Z (chart_range data) * 100)%Q.

Definition normalized (data : list TrendDataPoint.t)
  : list (TrendDataPoint.t * Q) :=
  map (fun d => (d, bar_height data d)) data.

(** [normalized.filter((_, i) => i % 2 === 0 || normalized.length <= 12)]. *)
Definition displayData (data : list TrendDataPoint.t)
  : list (TrendDataPoint.t * Q) :=
  map snd
    (filter (fun ip => Nat.even (fst ip) || (length data <=? 12)%nat)
            (combine (seq 0 (length data)) (normalized data))).

(** The CSS height of a bar: [Math.max(point.height, 5)]. *)
Definition displayed_height (height : Q) : Q :=
  if Qle_bool 5 height then height else 5%Q.

Definition getBarColor (aqi : Q) : string :=
  if Qle_bool aqi 50 then "bg-aqi-good"
  else if Qle_bool aqi 100 then "bg-aqi-satisfactory"
  else if Qle_bool aqi 200 then "bg-aqi-moderate"
  else if Qle_bool aqi 300 then "bg-aqi-poor"
  else if Qle_bool aqi 400 then "bg-aqi-verypoor"
  else "bg-aqi-severe".

(* ================================================================== *)
(** ** AQI categories ([src/types/aqi.ts]) *)

Module AQICategory.
Record t : Set := mk
  { range : Q * Q;
    label : string;
    color : string;
    healthImplication : string }.
End AQICategory.

Definition AQI_CATEGORIES : list AQICategory.t :=
  [ AQICategory.mk (0, 50)%Q "Good" "aqi-good" "Minimal impact";
    AQICategory.mk (51, 100)%Q "Satisfactory" "aqi-satisfactory"
      "Minor breathing discomfort to sensitive people";
    AQICategory.mk (101, 200)%Q "Moderate" "aqi-moderate"
      "Breathing discomfort to people with lung/heart disease";
    AQICategory.mk (201, 300)%Q "Poor" "aqi-poor"
      "Breathing discomfort on prolonged exposure";
    AQICategory.mk (301, 400)%Q "Very Poor" "aqi-verypoor"
      "Respiratory illness on prolonged exposure";
    AQICategory.mk (401, 500)%Q "Severe" "aqi-severe"
      "Affects healthy people, serious impact on those with existing diseases" ]%string.

(** [AQI_CATEGORIES.find(...) || AQI_CATEGORIES[5]]; the table has an entry
    at index 5, so the default of [nth] is never returned. *)
Definition getAQICategory (aqi : Q) : AQICategory.t :=
  match find (fun cat => Qle_bool (fst (AQICategory.range cat)) aqi
                         && Qle_bool aqi (snd (AQICategory.range cat)))
             AQI_CATEGORIES with
  | Some cat => cat
  | None => nth 5 AQI_CATEGORIES (AQICategory.mk (0, 0)%Q "" "" "")
  end.

(* ================================================================== *)
(** ** The IoT section ([src/components/IoTSection.tsx]) *)

Module Comparison.
Inductive level : Set := info | success | warning | error.
End Comparison.

(** [cityType.toUpperCase()] on the three city types. *)
Definition CityType_upper (c : CityType) : string :=
  match c with
  | metro => "METRO"
  | tier2 => "TIER2"
  | industrial => "INDUSTRIAL"
  end.

(** [r.aqi !== null]. *)
Definition has_aqi (r : AQIReading.t) : bool :=
  match AQIReading.aqi r with
  | Some _ => true
  | None => false
  end.

Definition is_IOT (r : AQIReading.t) : bool :=
  match AQIReading.source r with
  | IOT_SENSOR => true
  | _ => false
  end.

(** The average [reduce((sum, r) => sum + (r.aqi || 0), 0) / length]. *)
Definition avgOther (others : list AQIReading.t) : Q :=
  let total := fold_left (fun sum r => sum + aqi_as_number r) others 0 in
  (inject_Z total / inject_Z (Z.of_nat (length others)))%Q.

Section IoT.

(** [parseInt(s, 10)], [None] for NaN, and [new Date().toISOString()]. *)
Variable parseInt : string -> option Z.
Variable nowISO : string.

(** The reading handed to [onIoTReading]; [None] when the handler returns
    before creating one. *)
Definition handleSubmit (cityType : CityType) (manualAQI : string)
  : option AQIReading.t :=
  match parseInt manualAQI with
  | None => None
  | Some aqiValue =>
      if (aqiValue <? 0) || (aqiValue >? 500) then None
      else
        Some (AQIReading.mk IOT_SENSOR (Some aqiValue) [] (Some nowISO) fresh
                Confidence.uncalibrated
                (Some ("Manual IoT sensor input. City type: "
                       ++ CityType_upper cityType
                       ++ ". Value is uncalibrated and should be treated with caution.")%string))
  end.

(** The reading handed to [onIoTReading] and the new text of the input
    field, for the value [rnd] returned by [Math.random]. *)
Definition handleSimulate (cityType : CityType) (rnd : Q)
  : AQIReading.t * string :=
  let baseAQI :=
    match cityType with
    | metro => (150 + rnd * 100)%Q
    | tier2 => (100 + rnd * 80)%Q
    | industrial => (200 + rnd * 150)%Q
    end in
  let aqi := Math_round baseAQI in
  (AQIReading.mk IOT_SENSOR (Some aqi) [] (Some nowISO) fresh
     Confidence.uncalibrated
     (Some ("Simulated IoT sensor reading. City type: "
            ++ CityType_upper cityType
            ++ ". Value is for demonstration purposes.")%string),
   string_of_Z aqi).

Definition iotComparison (isSubmitted : bool) (manualAQI : string)
    (otherReadings : list AQIReading.t) : option (string * Comparison.level) :=
  if negb isSubmitted || String.eqb manualAQI "" then None
  else
    let validOthers := filter has_aqi otherReadings in
    match validOthers with
    | [] => Some ("No other sources available for comparison."%string,
                  Comparison.info)
    | _ =>
        match parseInt manualAQI with
        | None =>
            Some ("Significant deviation (NaN AQI). Possible local hotspot, sensor drift, or calibration needed."%string,
                  Comparison.error)
        | Some aqiValue =>
            let diff := (inject_Z aqiValue - avgOther validOthers)%Q in
            let absDiff := Qabs diff in
            if Qle_bool absDiff 20 then
              Some (("IoT reading aligns with other sources (within ±"
                     ++ string_of_Z (Math_round absDiff) ++ " AQI).")%string,
                    Comparison.success)
            else if Qle_bool absDiff 50 then
              Some (("IoT reading "
                     ++ (if Qltb 0 diff then "higher" else "lower")
                     ++ " than average by "
                     ++ string_of_Z (Math_round absDiff)
                     ++ " AQI. Possible local variation.")%string,
                    Comparison.warning)
            else
              Some (("Significant deviation ("
                     ++ (if Qltb 0 diff then "+" else "")
                     ++ string_of_Z (Math_round diff)
                     ++ " AQI). Possible local hotspot, sensor drift, or calibration needed.")%string,
                    Comparison.error)
        end
    end.

End IoT.

(* ================================================================== *)
(** ** The warning banner ([src/components/WarningBanner.tsx]) *)

Definition is_unavailable (r : AQIReading.t) : bool :=
  match AQIReading.freshness r with
  | unavailable => true
  | _ => false
  end.

Definition is_stale (r : AQIReading.t) : bool :=
  match AQIReading.freshness r with
  | stale => true
  | _ => false
  end.

(** [l.map(r => r.source).join(', ')]. *)
Definition join_sources (l : list AQIReading.t) : string :=
  String.concat ", " (map (fun r => string_of_source (AQIReading.source r)) l).

Definition missing_warning (l : list AQIReading.t) : string :=
  ("Missing data from: " ++ join_sources l ++ ". Cross-validation limited.")%string.

Definition stale_warning (l : list AQIReading.t) : string :=
  ("Stale data from: " ++ join_sources l
   ++ ". Values may not reflect current conditions.")%string.

Definition single_source_warning (r : AQIReading.t) : string :=
  ("Only " ++ string_of_source (AQIReading.source r)
   ++ " data available. Cannot cross-validate with other sources.")%string.

Definition disagreement_warning (spread : Z) : string :=
  ("Significant disagreement between sources (spread: " ++ string_of_Z spread
   ++ " AQI points). Possible local variations, sensor issues, or timing differences.")%string.

Definition iot_warning (iotDiff : Q) : string :=
  ("IoT sensor reading differs significantly from other sources (±"
   ++ string_of_Z (Math_round iotDiff)
   ++ " AQI). Possible local hotspot, sensor drift, or calibration issue.")%string.

(** The five checks of the banner, each the list of warnings it pushes. *)
Definition missing_check (readings : list AQIReading.t) : list string :=
  match filter is_unavailable readings with
  | [] => []
  | l => [missing_warning l]
  end.

Definition stale_check (readings : list AQIReading.t) : list string :=
  match filter is_stale readings with
  | [] => []
  | l => [stale_warning l]
  end.

Definition single_source_check (readings : list AQIReading.t) : list string :=
  match filter usable readings with
  | [r] => [single_source_warning r]
  | _ => []
  end.

Definition disagreement_check (agreement : AgreementAnalysis.t) : list string :=
  match AgreementAnalysis.level agreement, AgreementAnalysis.spread agreement with
  | Level.outlier, Some spread => [disagreement_warning spread]
  | _, _ => []
  end.

Definition iot_check (readings : list AQIReading.t) : list string :=
  match find is_IOT readings with
  | Some iotReading =>
      match AQIReading.aqi iotReading with
      | Some iotAqi =>
          let otherReadings :=
            filter (fun r => negb (is_IOT r) && has_aqi r) readings in
          match otherReadings with
          | [] => []
          | _ =>
              let iotDiff := Qabs (inject_Z iotAqi - avgOther otherReadings) in
              if Qltb 50 iotDiff then [iot_warning iotDiff] else []
          end
      | None => []
      end
  | None => []
  end.

(** The warnings the banner renders, in order; the component returns [null]
    when the list is empty. *)
Definition WarningBanner (readings : list AQIReading.t)
    (agreement : AgreementAnalysis.t) : list string :=
  missing_check readings ++ stale_check readings
  ++ single_source_check readings ++ disagreement_check agreement
  ++ iot_check readings.

(* ================================================================== *)
(** ** The page ([src/pages/Index.tsx]) *)

(** The readings the page collects from its four state slots. *)
Definition allReadings
    (governmentData internationalData historicalData iotData : option AQIReading.t)
  : list AQIReading.t :=
  flat_map (fun r => match r with Some x => [x] | None => [] end)
           [governmentData; internationalData; historicalData; iotData].

(** The [otherReadings] the page passes to the IoT section. *)
Definition page_otherReadings (readings : list AQIReading.t) : list AQIReading.t :=
  filter (fun r => negb (is_IOT r)) readings.

(* ================================================================== *)
(** ** Basic facts *)

Lemma usable_spec (r : AQIReading.t) :
  usable r = true <->
  AQIReading.aqi r <> None /\ AQIReading.freshness r <> unavailable.
Proof.
  unfold usable.
  destruct (AQIReading.aqi r), (AQIReading.freshness r);
    split; intros H; try discriminate; try (split; discriminate);
    destruct H as [H1 H2]; congruence.
Qed.

Lemma Qltb_lt (a b : Q) : Qltb a b = true <-> (a < b)%Q.
Proof.
  unfold Qltb. rewrite negb_true_iff.
  split; intros H.
  - apply Qnot_le_lt. intros Hle.
    apply Qle_bool_iff in Hle. congruence.
  - destruct (Qle_bool b a) eqn:E; [|reflexivity].
    apply Qle_bool_iff in E. exfalso. exact (Qlt_not_le _ _ H E).
Qed.

Lemma Qltb_ge (a b : Q) : Qltb a b = false <-> (b <= a)%Q.
Proof.
  unfold Qltb. rewrite negb_false_iff. apply Qle_bool_iff.
Qed.

(** [Math_round] returns the nearest integer, the upper one at a half. *)
Lemma Math_round_nearest (x : Q) :
  (inject_Z (Math_round x) - (1 # 2) <= x
   /\ x < inject_Z (Math_round x) + (1 # 2))%Q.
Proof.
  unfold Math_round. split.
  - pose proof (Qfloor_le (x + (1 # 2))) as H. lraQ.
  - pose proof (Qlt_floor (x + (1 # 2))) as H.
    rewrite inject_Z_plus in H. change (inject_Z 1) with 1%Q in H. lraQ.
Qed.

Lemma Math_round_comp (x y : Q) : (x == y)%Q -> Math_round x = Math_round y.
Proof.
  intros H. unfold Math_round. apply Qfloor_comp. rewrite H. reflexivity.
Qed.

(** Rounding keeps a value between two integer bounds. *)
Lemma Math_round_between (lo hi : Z) (x : Q) :
  (inject_Z lo <= x)%Q -> (x <= inject_Z hi)%Q ->
  lo <= Math_round x <= hi.
Proof.
  intros Hlo Hhi. unfold Math_round. split.
  - rewrite <- (Qfloor_Z lo). apply Qfloor_resp_le. lraQ.
  - assert (H : (inject_Z (Qfloor (x + (1 # 2))) < inject_Z (hi + 1))%Q).
    { rewrite inject_Z_plus. change (inject_Z 1) with 1%Q.
      pose proof (Qfloor_le (x + (1 # 2))). lraQ. }
    rewrite <- Zlt_Qlt in H. lia.
Qed.

(* ================================================================== *)
(** ** calculateFreshness *)

(** C4. [calculateFreshness] (a total function of the clock, the date parser
    and the timestamp) returns [unavailable] for an absent timestamp; for a
    timestamp that denotes the instant [t] (milliseconds), with
    [h = (now - t) / 3600000] the age in hours, it returns [fresh] when
    [h < 1], [aging] when [1 <= h < 6] and [stale] when [6 <= h]. *)
Theorem calculateFreshness_spec :
  forall (getTime : string -> option Z) (now : Z),
    calculateFreshness getTime now None = unavailable /\
    forall (ts : string) (t : Z),
      ts <> ""%string -> getTime ts = Some t ->
      let h := (inject_Z (now - t) / inject_Z 3600000)%Q in
      ((h < 1)%Q -> calculateFreshness getTime now (Some ts) = fresh) /\
      ((1 <= h)%Q /\ (h < 6)%Q ->
         calculateFreshness getTime now (Some ts) = aging) /\
      ((6 <= h)%Q -> calculateFreshness getTime now (Some ts) = stale).
Proof.
  intros getTime now. split; [reflexivity|].
  intros ts t Hne Hts h.
  assert (E : calculateFreshness getTime now (Some ts) =
              if Qltb h 1 then fresh
              else if Qltb h 6 then aging else stale).
  { destruct ts as [|c ts']; [congruence|].
    unfold calculateFreshness. rewrite Hts. reflexivity. }
  rewrite E. clear E.
  repeat split.
  - intros H. apply Qltb_lt in H. rewrite H. reflexivity.
  - intros [H1 H6]. apply Qltb_ge in H1. apply Qltb_lt in H6.
    rewrite H1, H6. reflexivity.
  - intros H.
    assert (H1 : (1 <= h)%Q) by lraQ.
    apply Qltb_ge in H1. apply Qltb_ge in H. rewrite H1, H. reflexivity.
Qed.

(** The two boundaries, for a reading stamped 2025-01-01T09:00:00Z
    (1735722000000 ms): exactly one hour later it is [aging], exactly six
    hours later it is [stale]; one millisecond before the first boundary it
    is still [fresh]. *)
Lemma calculateFreshness_spec_witness :
  let t := 1735722000000 in
  let getTime := fun _ : string => Some t in
  let ts := "2025-01-01T09:00:00Z"%string in
  (inject_Z ((t + 3600000) - t) / inject_Z 3600000 == 1)%Q /\
  calculateFreshness getTime (t + 3600000) (Some ts) = aging /\
  (inject_Z ((t + 21600000) - t) / inject_Z 3600000 == 6)%Q /\
  calculateFreshness getTime (t + 21600000) (Some ts) = stale /\
  calculateFreshness getTime (t + 3599999) (Some ts) = fresh.
Proof.
  intros t getTime ts.
  assert (Hne : ts <> ""%string) by discriminate.
  split; [reflexivity|]. split.
  - destruct (calculateFreshness_spec getTime (t + 3600000)) as [_ H].
    destruct (H ts t Hne eq_refl) as [_ [Ha _]].
    apply Ha. split; [discriminate | reflexivity].
  - split; [reflexivity|]. split.
    + destruct (calculateFreshness_spec getTime (t + 21600000)) as [_ H].
      destruct (H ts t Hne eq_refl) as [_ [_ Hs]].
      apply Hs. discriminate.
    + destruct (calculateFreshness_spec getTime (t + 3599999)) as [_ H].
      destruct (H ts t Hne eq_refl) as [Hf _].
      apply Hf. reflexivity.
Defined.

(* ================================================================== *)
(** ** normalizeAQI *)

(** C9. [normalizeAQI] is total; on [INTERNATIONAL] it returns
    [round (v * 0.95)], the integer nearest to [v * 0.95], and on the three
    other sources it returns [v] unchanged. *)
Theorem normalizeAQI_spec :
  forall v : Q,
    normalizeAQI v INTERNATIONAL = inject_Z (Math_round (v * 0.95)) /\
    (normalizeAQI v INTERNATIONAL - (1 # 2) <= v * 0.95
     /\ v * 0.95 < normalizeAQI v INTERNATIONAL + (1 # 2))%Q /\
    normalizeAQI v GOVERNMENT = v /\
    normalizeAQI v HISTORICAL = v /\
    normalizeAQI v IOT_SENSOR = v.
Proof.
  intros v. split; [reflexivity|]. split.
  - exact (Math_round_nearest (v * 0.95)).
  - repeat split.
Qed.

(* ================================================================== *)
(** ** analyzeAgreement on fewer than two usable readings *)

(** No reading is usable exactly when every reading lacks an AQI value or is
    [unavailable]. *)
Lemma no_usable_iff (readings : list AQIReading.t) :
  usable_readings readings = [] <->
  forall r, In r readings ->
    AQIReading.aqi r = None \/ AQIReading.freshness r = unavailable.
Proof.
  unfold usable_readings. induction readings as [|r rs IH]; simpl.
  - split; [intros _ r [] | reflexivity].
  - destruct (usable r) eqn:E.
    + split; [discriminate|]. intros H. exfalso.
      apply usable_spec in E. destruct E as [Ha Hf].
      destruct (H r (or_introl eq_refl)); contradiction.
    + rewrite IH. split.
      * intros H r' [<-|Hin]; [|auto].
        unfold usable in E.
        destruct (AQIReading.aqi r); [|now left].
        destruct (AQIReading.freshness r); try discriminate. now right.
      * intros H r' Hin. apply H. now right.
Qed.

(** C6. With fewer than two usable readings [analyzeAgreement] returns the
    level [insufficient] and the spread [null]; it is a total function and
    has no other outcome. *)
Theorem analyzeAgreement_insufficient :
  forall readings : list AQIReading.t,
    (length (usable_readings readings) < 2)%nat ->
    AgreementAnalysis.level (analyzeAgreement readings) = Level.insufficient /\
    AgreementAnalysis.spread (analyzeAgreement readings) = None.
Proof.
  intros readings H. unfold analyzeAgreement.
  unfold usable_readings in H.
  destruct (filter usable readings) as [|r1 [|r2 rest]]; simpl in *.
  - split; reflexivity.
  - split; reflexivity.
  - lia.
Qed.

(** A single usable reading next to two unusable ones. *)
Lemma analyzeAgreement_insufficient_witness :
  let readings :=
    [ reading GOVERNMENT (Some 278) fresh Confidence.high;
      reading INTERNATIONAL None unavailable Confidence.low;
      reading HISTORICAL (Some 285) unavailable Confidence.medium ] in
  (length (usable_readings readings) < 2)%nat /\
  AgreementAnalysis.level (analyzeAgreement readings) = Level.insufficient /\
  AgreementAnalysis.spread (analyzeAgreement readings) = None.
Proof.
  intros readings.
  assert (H : (length (usable_readings readings) < 2)%nat) by (simpl; lia).
  split; [exact H|].
  exact (analyzeAgreement_insufficient readings H).
Defined.

(* ================================================================== *)
(** ** calculateDerivedAQI on no usable reading *)

Lemma calculateDerivedAQI_empty (readings : list AQIReading.t) :
  length (usable_readings readings) = 0%nat ->
  calculateDerivedAQI readings = DerivedAQI.mk None 0 [] NoValidData.
Proof.
  unfold calculateDerivedAQI, usable_readings.
  destruct (filter usable readings); [reflexivity | discriminate].
Qed.

(** C7. With no usable reading, in particular when every reading lacks an
    AQI value or is [unavailable], [calculateDerivedAQI] returns the value
    [null], the confidence 0 and no sources; it is a total function and has
    no other outcome. *)
Theorem calculateDerivedAQI_no_data :
  forall readings : list AQIReading.t,
    length (usable_readings readings) = 0%nat \/
    (forall r, In r readings ->
       AQIReading.aqi r = None \/ AQIReading.freshness r = unavailable) ->
    DerivedAQI.value (calculateDerivedAQI readings) = None /\
    DerivedAQI.confidence (calculateDerivedAQI readings) = 0 /\
    DerivedAQI.sources (calculateDerivedAQI readings) = [].
Proof.
  intros readings H.
  assert (H0 : length (usable_readings readings) = 0%nat).
  { destruct H as [H|H]; [exact H|].
    apply no_usable_iff in H. rewrite H. reflexivity. }
  rewrite (calculateDerivedAQI_empty readings H0).
  repeat split.
Qed.

(** Every source without a value or unavailable. *)
Lemma calculateDerivedAQI_no_data_witness :
  let readings :=
    [ reading GOVERNMENT None unavailable Confidence.low;
      reading INTERNATIONAL None fresh Confidence.low;
      reading HISTORICAL (Some 285) unavailable Confidence.medium ] in
  length (usable_readings readings) = 0%nat /\
  DerivedAQI.value (calculateDerivedAQI readings) = None /\
  DerivedAQI.confidence (calculateDerivedAQI readings) = 0 /\
  DerivedAQI.sources (calculateDerivedAQI readings) = [].
Proof.
  intros readings.
  split; [reflexivity|].
  apply (calculateDerivedAQI_no_data readings). left. reflexivity.
Defined.

(* ================================================================== *)
(** ** Sums computed by [reduce] *)

Lemma fold_left_sumQ {A : Type} (f : A -> Q) (l : list A) (a : Q) :
  (fold_left (fun sum x => sum + f x) l a == a + sumQ (map f l))%Q.
Proof.
  revert a. induction l as [|x l IH]; intros a; simpl.
  - ring.
  - rewrite IH. ring.
Qed.

Lemma totalWeight_sumQ (l : list AQIReading.t) :
  (totalWeight (weightedReadings l) == sumQ (map reading_weight l))%Q.
Proof.
  unfold totalWeight, weightedReadings.
  rewrite (fold_left_sumQ (fun wr => snd wr)), map_map, Qplus_0_l.
  reflexivity.
Qed.

Lemma weightedSum_sumQ (l : list AQIReading.t) :
  (weightedSum (weightedReadings l) ==
   sumQ (map (fun r => inject_Z (aqi_as_number r) * reading_weight r) l))%Q.
Proof.
  unfold weightedSum, weightedReadings.
  rewrite (fold_left_sumQ
             (fun wr => inject_Z (aqi_as_number (fst wr)) * snd wr)%Q),
    map_map, Qplus_0_l.
  reflexivity.
Qed.

(** Every weight lies between the least product 0.3 * 0.4 * 0.3 and the
    greatest one 1.2 * 1.0 * 1.0. *)
Lemma reading_weight_bounds (r : AQIReading.t) :
  (0.036 <= reading_weight r /\ reading_weight r <= 1.2)%Q.
Proof.
  unfold reading_weight.
  destruct (AQIReading.source r), (AQIReading.freshness r),
    (AQIReading.confidence r); split; vm_compute; discriminate.
Qed.

Lemma sumQ_weights_lower (l : list AQIReading.t) :
  (inject_Z (Z.of_nat (length l)) * 0.036 <= sumQ (map reading_weight l))%Q.
Proof.
  induction l as [|r l IH].
  - simpl. vm_compute. discriminate.
  - change (length (r :: l)) with (S (length l)).
    rewrite Nat2Z.inj_succ. unfold Z.succ. rewrite inject_Z_plus.
    change (inject_Z 1) with 1%Q. simpl sumQ.
    pose proof (reading_weight_bounds r) as [Hlo _]. lraQ.
Qed.

Lemma sumQ_weights_pos (l : list AQIReading.t) :
  l <> [] -> (0 < sumQ (map reading_weight l))%Q.
Proof.
  intros Hne. pose proof (sumQ_weights_lower l) as H.
  assert (Hn : (1 <= inject_Z (Z.of_nat (length l)))%Q).
  { change 1%Q with (inject_Z 1). rewrite <- Zle_Qle.
    destruct l; [congruence | simpl; lia]. }
  lraQ.
Qed.

(** A weighted sum lies between the bounds of its values times the weight. *)
Lemma weighted_sum_between (lo hi : Z) (l : list AQIReading.t) :
  (forall r, In r l -> lo <= aqi_as_number r <= hi) ->
  (inject_Z lo * sumQ (map reading_weight l)
   <= sumQ (map (fun r => inject_Z (aqi_as_number r) * reading_weight r) l)
   /\ sumQ (map (fun r => inject_Z (aqi_as_number r) * reading_weight r) l)
      <= inject_Z hi * sumQ (map reading_weight l))%Q.
Proof.
  induction l as [|r l IH]; intros H; simpl.
  - split; lraQ.
  - destruct IH as [IHlo IHhi]; [intros r' Hr'; apply H; now right|].
    destruct (H r (or_introl eq_refl)) as [Hlo Hhi].
    rewrite Zle_Qle in Hlo, Hhi.
    pose proof (reading_weight_bounds r) as [Hw _].
    assert (Hw0 : (0 <= reading_weight r)%Q) by lraQ.
    split; nraQ.
Qed.

(** The ratio of the total weight to the best case, in percent. *)
Lemma confidence_ratio (l : list AQIReading.t) :
  l <> [] ->
  (totalWeight (weightedReadings l) / maxPossibleWeight l * 100 ==
   100 * sumQ (map reading_weight l)
   / (inject_Z (Z.of_nat (length l)) * 1.2))%Q.
Proof.
  intros Hne. unfold maxPossibleWeight. rewrite totalWeight_sumQ.
  assert (Hn : ~ (inject_Z (Z.of_nat (length l)) == 0)%Q).
  { change 0%Q with (inject_Z 0). rewrite inject_Z_injective.
    destruct l; [congruence | simpl; lia]. }
  field. exact Hn.
Qed.

Lemma confidence_ratio_lower (l : list AQIReading.t) :
  l <> [] ->
  (3 <= 100 * sumQ (map reading_weight l)
        / (inject_Z (Z.of_nat (length l)) * 1.2))%Q.
Proof.
  intros Hne.
  assert (Hn : (1 <= inject_Z (Z.of_nat (length l)))%Q).
  { change 1%Q with (inject_Z 1). rewrite <- Zle_Qle.
    destruct l; [congruence | simpl; lia]. }
  apply Qle_shift_div_l; [lraQ|].
  pose proof (sumQ_weights_lower l). lraQ.
Qed.

(** [calculateDerivedAQI] on a non-empty usable list. *)
Lemma calculateDerivedAQI_some (readings : list AQIReading.t) :
  usable_readings readings <> [] ->
  calculateDerivedAQI readings =
  let validReadings := usable_readings readings in
  let wrs := weightedReadings validReadings in
  DerivedAQI.mk
    (Some (Math_round (weightedSum wrs / totalWeight wrs)))
    (Z.min 100
       (Math_round (totalWeight wrs / maxPossibleWeight validReadings * 100)))
    (map AQIReading.source validReadings)
    (WeightedAverage (length validReadings)
       (map (fun wr => (AQIReading.source (fst wr), snd wr)) wrs)).
Proof.
  unfold calculateDerivedAQI, usable_readings.
  destruct (filter usable readings); [congruence | reflexivity].
Qed.

Lemma length_pos_nonnil {A : Type} (l : list A) :
  (1 <= length l)%nat -> l <> [].
Proof. destruct l; simpl; [lia | discriminate]. Qed.

(* ================================================================== *)
(** ** The confidence in binary64 *)

Lemma number_eqb_eq (x y : Binary64.number) : number_eqb x y = true -> x = y.
Proof.
  destruct x as [a|a| |a m e], y as [b|b| |b m' e']; simpl;
    try discriminate.
  - intros H. apply Bool.eqb_prop in H. congruence.
  - intros H. apply Bool.eqb_prop in H. congruence.
  - reflexivity.
  - rewrite !andb_true_iff. intros [[H1 H2] H3].
    apply Bool.eqb_prop in H1. apply Pos.eqb_eq in H2. apply Z.eqb_eq in H3.
    congruence.
Qed.

Lemma number_eqb_refl (x : Binary64.number) : number_eqb x x = true.
Proof.
  destruct x as [a|a| |a m e]; simpl;
    rewrite ?Bool.eqb_reflx, ?Pos.eqb_refl, ?Z.eqb_refl; reflexivity.
Qed.

Lemma sums_eqb_eq (a b : sums) : sums_eqb a b = true -> a = b.
Proof.
  destruct a as [s k], b as [s' k']. unfold sums_eqb. cbn [fst snd].
  rewrite andb_true_iff. intros [H1 H2].
  apply number_eqb_eq in H1. apply Z.eqb_eq in H2. congruence.
Qed.

Lemma sums_eqb_refl (a : sums) : sums_eqb a a = true.
Proof.
  unfold sums_eqb. rewrite number_eqb_refl, Z.eqb_refl. reflexivity.
Qed.

Lemma confidence_within_comp (q q' : Q) (c : Z) :
  (q == q')%Q -> confidence_within q c -> confidence_within q' c.
Proof.
  intros E [Hr H]. unfold confidence_within.
  rewrite <- (Math_round_comp _ _ E). split; [exact Hr|].
  destruct H as [H | [H Ht]]; [left; exact H | right].
  split; [exact H | rewrite <- E; exact Ht].
Qed.

Lemma check_confidence_sound (m : Binary64.number) (mq : Q)
    (s : Binary64.number) (q : Q) :
  check_confidence m mq s q = true ->
  exists c : Z,
    confidence_of_sum m s = Binary64.of_Z c /\
    confidence_within (q / mq * 100) c.
Proof.
  unfold check_confidence. cbv zeta.
  set (ratio := (q / mq * 100)%Q).
  set (F := Z.min 100 (Math_round ratio)).
  assert (HF : F <= 100) by (subst F; lia).
  rewrite andb_true_iff, orb_true_iff, !andb_true_iff.
  intros [H0 [H | [[H1 H] Hq]]].
  - exists F. split; [apply number_eqb_eq; exact H|].
    apply Z.leb_le in H0. split; [lia | left; reflexivity].
  - exists (F - 1). split; [apply number_eqb_eq; exact H|].
    apply Z.leb_le in H1. apply Qeq_bool_eq in Hq.
    split; [lia | right; split; [reflexivity | exact Hq]].
Qed.

(** *** The set of sums *)

Lemma sums_mem_insert_same (st : sums) (m : sums_set) :
  sums_mem st (sums_insert st m) = true.
Proof.
  unfold sums_insert.
  destruct (PositiveMap.find (sums_key st) m) as [b|] eqn:Ef.
  - destruct (existsb (sums_eqb st) b) eqn:Ee.
    + unfold sums_mem. rewrite Ef. exact Ee.
    + unfold sums_mem. rewrite PositiveMap.gss. cbn [existsb].
      rewrite sums_eqb_refl. reflexivity.
  - unfold sums_mem. rewrite PositiveMap.gss. cbn [existsb].
    rewrite sums_eqb_refl. reflexivity.
Qed.

Lemma sums_mem_insert_other (st st' : sums) (m : sums_set) :
  sums_mem st m = true -> sums_mem st (sums_insert st' m) = true.
Proof.
  intros H. unfold sums_insert.
  destruct (PositiveMap.find (sums_key st') m) as [b|] eqn:Ef.
  - destruct (existsb (sums_eqb st') b) eqn:Ee; [exact H|].
    unfold sums_mem in *.
    destruct (Pos.eq_dec (sums_key st) (sums_key st')) as [E|E].
    + rewrite E, PositiveMap.gss. rewrite E, Ef in H. cbn [existsb].
      rewrite H. apply orb_true_r.
    + rewrite PositiveMap.gso by exact E. exact H.
  - unfold sums_mem in *.
    destruct (Pos.eq_dec (sums_key st) (sums_key st')) as [E|E].
    + rewrite E, Ef in H. discriminate H.
    + rewrite PositiveMap.gso by exact E. exact H.
Qed.

Lemma sums_mem_elements (st : sums) (m : sums_set) :
  sums_mem st m = true -> In st (sums_elements m).
Proof.
  unfold sums_mem, sums_elements.
  destruct (PositiveMap.find (sums_key st) m) as [b|] eqn:Ef;
    [|discriminate].
  intros H. apply existsb_exists in H. destruct H as [x [Hx Hxe]].
  apply sums_eqb_eq in Hxe. subst x.
  apply in_flat_map. exists (sums_key st, b).
  split; [apply PositiveMap.elements_correct; exact Ef | exact Hx].
Qed.

Lemma sums_insert_all (st : sums) (ws : list sums) :
  forall acc : sums_set,
    let acc' :=
      fold_left (fun a w => sums_insert (add_weights st w) a) ws acc in
    (forall x, sums_mem x acc = true -> sums_mem x acc' = true) /\
    (forall w, In w ws -> sums_mem (add_weights st w) acc' = true).
Proof.
  induction ws as [|w0 ws IH]; intros acc; cbn [fold_left].
  - split; [auto | intros w []].
  - destruct (IH (sums_insert (add_weights st w0) acc)) as [Hkeep Hnew].
    split.
    + intros x Hx. apply Hkeep, sums_mem_insert_other, Hx.
    + intros w [<-|Hw]; [apply Hkeep, sums_mem_insert_same | apply Hnew, Hw].
Qed.

Lemma sums_next_fold (sts : list sums) :
  forall acc : sums_set,
    let acc' :=
      fold_left
        (fun a st =>
           fold_left (fun a' w => sums_insert (add_weights st w) a')
                     all_weights a)
        sts acc in
    (forall x, sums_mem x acc = true -> sums_mem x acc' = true) /\
    (forall st w, In st sts -> In w all_weights ->
                  sums_mem (add_weights st w) acc' = true).
Proof.
  induction sts as [|st0 sts IH]; intros acc; cbn [fold_left].
  - split; [auto | intros st w []].
  - destruct (sums_insert_all st0 all_weights acc) as [Hk0 Hn0].
    destruct (IH (fold_left
                    (fun a' w => sums_insert (add_weights st0 w) a')
                    all_weights acc)) as [Hkeep Hnew].
    split.
    + intros x Hx. apply Hkeep, Hk0, Hx.
    + intros st w [<-|Hst] Hw; [apply Hkeep, Hn0, Hw | apply Hnew; assumption].
Qed.

Lemma sums_next_complete (m : sums_set) (st w : sums) :
  sums_mem st m = true -> In w all_weights ->
  sums_mem (add_weights st w) (sums_next m) = true.
Proof.
  intros Hst Hw. unfold sums_next.
  apply (sums_next_fold (sums_elements m)); [|exact Hw].
  apply sums_mem_elements, Hst.
Qed.

(** Every list of weights is summed to a member of [sums_reached]. *)
Lemma sums_reached_complete (ws : list sums) :
  Forall (fun w => In w all_weights) ws ->
  sums_mem (fold_left add_weights ws no_weight)
           (sums_reached (length ws)) = true.
Proof.
  induction ws as [|w ws IH] using rev_ind; intros Hall.
  - apply sums_mem_insert_same.
  - apply Forall_app in Hall. destruct Hall as [Hws Hw].
    inversion Hw; subst.
    rewrite fold_left_app, length_app, Nat.add_comm. cbn [fold_left length].
    cbn [Nat.add sums_reached].
    apply sums_next_complete; [apply IH; exact Hws | assumption].
Qed.

Lemma check_levels_sound (n : nat) :
  forall k : nat,
    check_levels n k (sums_reached k) = true ->
    forall j : nat, (k < j <= k + n)%nat ->
                    check_sums j (sums_reached j) = true.
Proof.
  induction n as [|n IH]; intros k H j Hj; [lia|].
  cbn [check_levels] in H. cbv zeta in H.
  apply andb_true_iff in H. destruct H as [H1 H2].
  change (sums_next (sums_reached k)) with (sums_reached (S k)) in H1, H2.
  destruct (Nat.eq_dec j (S k)) as [->|Hne]; [exact H1|].
  apply (IH (S k) H2). lia.
Qed.

Lemma check_levels_4 : check_levels 4 0 (sums_reached 0) = true.
Proof. vm_cast_no_check (eq_refl true). Qed.

(** *** From the readings to the sums *)

Lemma weights_of_all (r : AQIReading.t) :
  usable r = true -> In (weights_of r) all_weights.
Proof.
  intros Hu. apply usable_spec in Hu. destruct Hu as [_ Hf].
  destruct r as [s a p t f c n]. cbn [AQIReading.freshness] in Hf.
  change (weights_of (AQIReading.mk s a p t f c n))
    with (weights_of (reading s (Some 0) f c)).
  unfold all_weights. apply in_flat_map. exists s. split.
  - destruct s; cbn [In]; auto.
  - apply in_flat_map. exists f. split.
    + destruct f; cbn [In]; auto.
    + apply (in_map (fun c' => weights_of (reading s (Some 0) f c'))).
      destruct c; cbn [In]; auto.
Qed.

Lemma usable_readings_Forall (readings : list AQIReading.t) :
  Forall (fun r => usable r = true) (usable_readings readings).
Proof.
  apply Forall_forall. intros r Hin. unfold usable_readings in Hin.
  apply filter_In in Hin. tauto.
Qed.

Lemma thousandths_exact (r : AQIReading.t) :
  (inject_Z (snd (weights_of r)) == reading_weight r * 1000)%Q.
Proof.
  unfold weights_of, reading_weight. cbn [snd].
  destruct (AQIReading.source r), (AQIReading.freshness r),
    (AQIReading.confidence r); reflexivity.
Qed.

Lemma fold_add_weights (l : list AQIReading.t) :
  forall st : sums,
    fst (fold_left add_weights (map weights_of l) st) =
      fold_left (fun sum wr => Binary64.add sum (snd wr))
                (Binary64.weightedReadings l) (fst st) /\
    (inject_Z (snd (fold_left add_weights (map weights_of l) st)) ==
     inject_Z (snd st) + sumQ (map reading_weight l) * 1000)%Q.
Proof.
  induction l as [|r l IH]; intros st.
  - cbn [map fold_left Binary64.weightedReadings sumQ].
    split; [reflexivity | ring].
  - cbn [map fold_left Binary64.weightedReadings sumQ].
    destruct (IH (add_weights st (weights_of r))) as [H1 H2].
    split; [exact H1|].
    rewrite H2. unfold add_weights at 1. cbn [snd].
    rewrite inject_Z_plus, (thousandths_exact r). cbn [snd]. ring.
Qed.


Lemma Binary64_calculateDerivedAQI_some (readings : list AQIReading.t) :
  usable_readings readings <> [] ->
  Binary64.calculateDerivedAQI readings =
  let validReadings := usable_readings readings in
  let wrs := Binary64.weightedReadings validReadings in
  Binary64.mk
    (Some (Binary64.Math_round
             (Binary64.div (Binary64.weightedSum wrs)
                           (Binary64.totalWeight wrs))))
    (confidence_of_sum (Binary64.maxPossibleWeight validReadings)
                       (Binary64.totalWeight wrs))
    (map AQIReading.source validReadings)
    (map (fun wr => (AQIReading.source (fst wr), snd wr)) wrs).
Proof.
  unfold Binary64.calculateDerivedAQI, usable_readings.
  destruct (filter usable readings); [congruence | reflexivity].
Qed.

(** The confidence of the binary64 embedding on one to four usable
    readings. *)
Lemma Binary64_confidence_checked (readings : list AQIReading.t) :
  (1 <= length (usable_readings readings) <= 4)%nat ->
  exists c : Z,
    Binary64.confidence (Binary64.calculateDerivedAQI readings) =
      Binary64.of_Z c /\
    confidence_within (confidence_formula (usable_readings readings)) c.
Proof.
  intros HN.
  assert (Hne : usable_readings readings <> [])
    by (apply length_pos_nonnil; lia).
  rewrite (Binary64_calculateDerivedAQI_some readings Hne).
  cbv zeta. cbn [Binary64.confidence].
  set (U := usable_readings readings) in *.
  assert (Hall : Forall (fun w => In w all_weights) (map weights_of U)).
  { apply Forall_map. subst U.
    eapply Forall_impl; [|apply usable_readings_Forall].
    intros r Hr. apply weights_of_all, Hr. }
  pose proof (sums_reached_complete _ Hall) as Hmem.
  rewrite length_map in Hmem.
  pose proof (check_levels_sound 4 0 check_levels_4 (length U)
                ltac:(lia)) as Hcheck.
  unfold check_sums in Hcheck. cbv zeta in Hcheck.
  rewrite forallb_forall in Hcheck.
  specialize (Hcheck _ (sums_mem_elements _ _ Hmem)).
  apply check_confidence_sound in Hcheck.
  destruct Hcheck as [c [Hc64 Hw]].
  destruct (fold_add_weights U no_weight) as [Hfst Hsnd].
  exists c. split.
  - unfold Binary64.totalWeight. unfold no_weight in Hfst at 2.
    cbn [fst] in Hfst. rewrite <- Hfst.
    unfold Binary64.maxPossibleWeight in *.
    rewrite repeat_length in Hc64. exact Hc64.
  - eapply confidence_within_comp; [|exact Hw].
    unfold confidence_formula, maxPossibleWeight.
    rewrite repeat_length, Qmake_Qdiv, Hsnd.
    unfold no_weight. cbn [snd].
    assert (Hn : ~ (inject_Z (Z.of_nat (length U)) == 0)%Q).
    { change 0%Q with (inject_Z 0). rewrite inject_Z_injective. lia. }
    change (inject_Z (Z.pos 1000)) with 1000%Q.
    change (inject_Z 0) with 0%Q.
    field. exact Hn.
Qed.

(* ================================================================== *)
(** ** The weights in the result *)

(** The weight the binary64 embedding gives a reading with a freshness
    factor is the product of the three doubles, taken from left to right:
    the leading [1 *] of the code changes nothing. *)
Lemma Binary64_reading_weight_product (r : AQIReading.t) :
  AQIReading.freshness r <> unavailable ->
  product_of_factors64 r = Some (Binary64.reading_weight r).
Proof.
  intros Hf. unfold product_of_factors64, Binary64.reading_weight.
  destruct (AQIReading.freshness r); [| | |congruence];
    destruct (AQIReading.source r), (AQIReading.confidence r);
    vm_compute; reflexivity.
Qed.

Lemma reading_weight_product_of_factors (r : AQIReading.t) :
  AQIReading.freshness r <> unavailable ->
  exists p : Q,
    product_of_factors r = Some p /\ (reading_weight r == p)%Q.
Proof.
  intros Hf. unfold product_of_factors, reading_weight.
  destruct (AQIReading.freshness r); [| | |congruence];
    eexists; (split; [reflexivity|]);
    destruct (AQIReading.source r), (AQIReading.confidence r);
    reflexivity.
Qed.

(** C2. With at least one usable reading, the result of
    [calculateDerivedAQI] reports one weight for every usable reading, in
    order and under the reading's source, and that weight is the product of
    the reading's reliability, freshness and confidence factors: up to
    equality of rationals in the exact embedding, and as the left-to-right
    product of the three doubles in the binary64 embedding.  For a fresh
    uncalibrated IOT_SENSOR reading it is 0.09 in both. *)
Theorem calculateDerivedAQI_weights :
  forall readings : list AQIReading.t,
    usable_readings readings <> [] ->
    (exists weights : list (DataSource * Q),
        DerivedAQI.methodology (calculateDerivedAQI readings) =
          WeightedAverage (length (usable_readings readings)) weights /\
        Forall2
          (fun r sw =>
             fst sw = AQIReading.source r /\
             (exists p : Q,
                 product_of_factors r = Some p /\ (snd sw == p)%Q) /\
             (AQIReading.source r = IOT_SENSOR ->
              AQIReading.freshness r = fresh ->
              AQIReading.confidence r = Confidence.uncalibrated ->
              (snd sw == 0.09)%Q))
          (usable_readings readings) weights) /\
    Forall2
      (fun r sw =>
         fst sw = AQIReading.source r /\
         product_of_factors64 r = Some (snd sw) /\
         (AQIReading.source r = IOT_SENSOR ->
          AQIReading.freshness r = fresh ->
          AQIReading.confidence r = Confidence.uncalibrated ->
          snd sw = literal 0.09))
      (usable_readings readings)
      (Binary64.weights (Binary64.calculateDerivedAQI readings)).
Proof.
  intros readings Hne.
  pose proof (usable_readings_Forall readings) as HU.
  rewrite (calculateDerivedAQI_some readings Hne),
    (Binary64_calculateDerivedAQI_some readings Hne).
  cbv zeta. cbn [DerivedAQI.methodology Binary64.weights].
  clear Hne. split.
  - eexists. split; [reflexivity|].
    unfold weightedReadings. rewrite map_map. cbn [fst snd].
    induction HU as [|r l Hr _ IH]; cbn [map]; constructor; [|exact IH].
    apply usable_spec in Hr. destruct Hr as [_ Hf]. cbn [fst snd].
    split; [reflexivity|]. split.
    + apply reading_weight_product_of_factors. exact Hf.
    + intros Hs Hfr Hc. unfold reading_weight. rewrite Hs, Hfr, Hc.
      reflexivity.
  - unfold Binary64.weightedReadings. rewrite map_map. cbn [fst snd].
    induction HU as [|r l Hr _ IH]; cbn [map]; constructor; [|exact IH].
    apply usable_spec in Hr. destruct Hr as [_ Hf]. cbn [fst snd].
    split; [reflexivity|]. split.
    + apply Binary64_reading_weight_product. exact Hf.
    + intros Hs Hfr Hc. unfold Binary64.reading_weight.
      rewrite Hs, Hfr, Hc. vm_compute. reflexivity.
Qed.

(** The IoT scenario of the specification: next to a fresh high-confidence
    government reading of weight 1.2, the fresh uncalibrated IoT reading is
    reported with the weight 0.3 * 1.0 * 0.3 = 0.09. *)
Lemma calculateDerivedAQI_weights_witness :
  let iot := reading IOT_SENSOR (Some 180) fresh Confidence.uncalibrated in
  let readings := [ reading GOVERNMENT (Some 278) fresh Confidence.high; iot ] in
  usable_readings readings <> [] /\
  (exists wg wi : Q,
      DerivedAQI.methodology (calculateDerivedAQI readings) =
        WeightedAverage 2 [(GOVERNMENT, wg); (IOT_SENSOR, wi)] /\
      (wg == 1.2)%Q /\ (wi == 0.3 * 1.0 * 0.3)%Q /\ (wi == 0.09)%Q) /\
  Binary64.weights (Binary64.calculateDerivedAQI readings) =
    [(GOVERNMENT, literal 1.2); (IOT_SENSOR, literal 0.09)].
Proof.
  intros iot readings.
  assert (Hne : usable_readings readings <> []) by discriminate.
  split; [exact Hne|].
  destruct (calculateDerivedAQI_weights readings Hne)
    as [[weights [Hm HQ]] H64].
  split.
  - change (usable_readings readings) with
      [reading GOVERNMENT (Some 278) fresh Confidence.high; iot] in HQ.
    inversion HQ as [|r1 [s1 w1] l1 l1' [Hs1 [[p1 [Hp1 Hw1]] _]] HQ1]; subst.
    inversion HQ1 as [|r2 [s2 w2] l2 l2' [Hs2 [[p2 [Hp2 Hw2]] Hiot]] HQ2];
      subst.
    inversion HQ2; subst.
    cbn [fst snd] in *. subst s1 s2.
    exists w1, w2. split; [exact Hm|].
    injection Hp1 as <-. injection Hp2 as <-.
    split; [rewrite Hw1; reflexivity|].
    split; [rewrite Hw2; reflexivity|].
    apply Hiot; reflexivity.
  - vm_compute. reflexivity.
Defined.

(* ================================================================== *)
(** ** The confidence of the derived AQI *)




(** C10. With at least one usable reading the confidence is at least 3, so
    the confidence is 0 exactly when no reading is usable. *)
Theorem calculateDerivedAQI_confidence_positive :
  forall readings : list AQIReading.t,
    ((1 <= length (usable_readings readings))%nat ->
     3 <= DerivedAQI.confidence (calculateDerivedAQI readings)) /\
    (DerivedAQI.confidence (calculateDerivedAQI readings) = 0 <->
     length (usable_readings readings) = 0%nat).
Proof.
  intros readings.
  assert (Hpos : (1 <= length (usable_readings readings))%nat ->
                 3 <= DerivedAQI.confidence (calculateDerivedAQI readings)).
  { intros HN. apply length_pos_nonnil in HN.
    rewrite (calculateDerivedAQI_some readings HN). simpl.
    rewrite (Math_round_comp _ _
               (confidence_ratio (usable_readings readings) HN)).
    pose proof (confidence_ratio_lower (usable_readings readings) HN) as H3.
    assert (3 <= Math_round
                   (100 * sumQ (map reading_weight (usable_readings readings))
                    / (inject_Z (Z.of_nat (length (usable_readings readings)))
                       * 1.2))%Q).
    { unfold Math_round. rewrite <- (Qfloor_Z 3). apply Qfloor_resp_le.
      change (inject_Z 3) with 3%Q. lraQ. }
    lia. }
  split; [exact Hpos|]. split.
  - intros H0.
    destruct (length (usable_readings readings)) as [|n] eqn:E;
      [reflexivity|].
    assert (H1 : (1 <= S n)%nat) by lia. specialize (Hpos H1). lia.
  - intros H0. rewrite (calculateDerivedAQI_empty readings H0). reflexivity.
Qed.

(** The least weight there is: a stale uncalibrated IoT reading alone gives
    exactly 3. *)
Lemma calculateDerivedAQI_confidence_positive_witness :
  let readings :=
    [ reading IOT_SENSOR (Some 180) stale Confidence.uncalibrated;
      reading GOVERNMENT None unavailable Confidence.low ] in
  (1 <= length (usable_readings readings))%nat /\
  3 <= DerivedAQI.confidence (calculateDerivedAQI readings) /\
  DerivedAQI.confidence (calculateDerivedAQI readings) = 3.
Proof.
  intros readings.
  assert (H : (1 <= length (usable_readings readings))%nat) by (simpl; lia).
  split; [exact H|].
  destruct (calculateDerivedAQI_confidence_positive readings) as [Hpos _].
  split; [exact (Hpos H) | reflexivity].
Defined.

(* ================================================================== *)
(** ** Maximum and minimum of the usable values *)

Lemma fold_left_max_spec (l : list Z) (a : Z) :
  a <= fold_left Z.max l a /\
  (forall y, In y l -> y <= fold_left Z.max l a) /\
  (fold_left Z.max l a = a \/ In (fold_left Z.max l a) l).
Proof.
  revert a. induction l as [|x l IH]; intros a; simpl.
  - split; [lia|]. split; [intros y []|now left].
  - destruct (IH (Z.max a x)) as [Hge [Hall Hmem]].
    split; [lia|]. split.
    + intros y [<-|Hy]; [lia | auto].
    + destruct Hmem as [E|Hin]; [|now right; right].
      rewrite E. destruct (Z.max_spec a x) as [[_ ->]|[_ ->]]; auto.
Qed.

Lemma fold_left_min_spec (l : list Z) (a : Z) :
  fold_left Z.min l a <= a /\
  (forall y, In y l -> fold_left Z.min l a <= y) /\
  (fold_left Z.min l a = a \/ In (fold_left Z.min l a) l).
Proof.
  revert a. induction l as [|x l IH]; intros a; simpl.
  - split; [lia|]. split; [intros y []|now left].
  - destruct (IH (Z.min a x)) as [Hge [Hall Hmem]].
    split; [lia|]. split.
    + intros y [<-|Hy]; [lia | auto].
    + destruct Hmem as [E|Hin]; [|now right; right].
      rewrite E. destruct (Z.min_spec a x) as [[_ ->]|[_ ->]]; auto.
Qed.

(** On a non-empty list [Math_max] is the greatest element and [Math_min]
    the least one. *)
Lemma Math_max_spec (l : list Z) :
  l <> [] -> In (Math_max l) l /\ forall y, In y l -> y <= Math_max l.
Proof.
  destruct l as [|x l]; [congruence|]. intros _. simpl.
  destruct (fold_left_max_spec l x) as [Hge [Hall Hmem]]. split.
  - destruct Hmem as [->|Hin]; auto.
  - intros y [<-|Hy]; auto.
Qed.

Lemma Math_min_spec (l : list Z) :
  l <> [] -> In (Math_min l) l /\ forall y, In y l -> Math_min l <= y.
Proof.
  destruct l as [|x l]; [congruence|]. intros _. simpl.
  destruct (fold_left_min_spec l x) as [Hge [Hall Hmem]]. split.
  - destruct Hmem as [->|Hin]; auto.
  - intros y [<-|Hy]; auto.
Qed.

(* ================================================================== *)
(** ** The derived value *)

(** The derived value lies between any two integer bounds of the usable
    AQI values. *)
Lemma derived_value_between (lo hi : Z) (l : list AQIReading.t) :
  l <> [] ->
  (forall r, In r l -> lo <= aqi_as_number r <= hi) ->
  lo <= Math_round (weightedSum (weightedReadings l)
                    / totalWeight (weightedReadings l))%Q <= hi.
Proof.
  intros Hne Hb.
  assert (E : (weightedSum (weightedReadings l)
               / totalWeight (weightedReadings l) ==
               sumQ (map (fun r => inject_Z (aqi_as_number r)
                                   * reading_weight r) l)
               / sumQ (map reading_weight l))%Q).
  { rewrite weightedSum_sumQ, totalWeight_sumQ. reflexivity. }
  rewrite (Math_round_comp _ _ E).
  destruct (weighted_sum_between lo hi l Hb) as [Hlo Hhi].
  pose proof (sumQ_weights_pos l Hne) as Hpos.
  apply Math_round_between.
  - apply Qle_shift_div_l; assumption.
  - apply Qle_shift_div_r; assumption.
Qed.

(** C5. With a non-empty usable set the derived value, the rounded weighted
    average, lies within [[min(usable aqi), max(usable aqi)]]. *)
Theorem calculateDerivedAQI_value_in_hull :
  forall readings : list AQIReading.t,
    (1 <= length (usable_readings readings))%nat ->
    exists v : Z,
      DerivedAQI.value (calculateDerivedAQI readings) = Some v /\
      Math_min (usable_aqi readings) <= v <= Math_max (usable_aqi readings).
Proof.
  intros readings HN. apply length_pos_nonnil in HN.
  rewrite (calculateDerivedAQI_some readings HN). simpl.
  eexists. split; [reflexivity|].
  assert (Hxs : usable_aqi readings <> []).
  { unfold usable_aqi. destruct (usable_readings readings);
      [congruence | discriminate]. }
  destruct (Math_max_spec _ Hxs) as [_ Hmax].
  destruct (Math_min_spec _ Hxs) as [_ Hmin].
  apply derived_value_between; [exact HN|].
  intros r Hr.
  assert (Hin : In (aqi_as_number r) (usable_aqi readings)).
  { unfold usable_aqi. apply in_map. exact Hr. }
  split; [apply Hmin | apply Hmax]; exact Hin.
Qed.

(** The three-source scenario of the specification: the weights are 1.2,
    0.7 and 0.192 and the weighted average of 278, 252 and 285 is rounded to
    270. *)
Lemma calculateDerivedAQI_value_in_hull_witness :
  let readings :=
    [ reading GOVERNMENT (Some 278) fresh Confidence.high;
      reading INTERNATIONAL (Some 252) aging Confidence.high;
      reading HISTORICAL (Some 285) stale Confidence.medium;
      reading IOT_SENSOR None unavailable Confidence.uncalibrated ] in
  (1 <= length (usable_readings readings))%nat /\
  DerivedAQI.value (calculateDerivedAQI readings) = Some 270 /\
  exists v : Z,
    DerivedAQI.value (calculateDerivedAQI readings) = Some v /\
    252 <= v <= 285.
Proof.
  intros readings.
  assert (H : (1 <= length (usable_readings readings))%nat) by (simpl; lia).
  split; [exact H|]. split; [reflexivity|].
  exact (calculateDerivedAQI_value_in_hull readings H).
Defined.

(* ================================================================== *)
(** ** Mean, variance and standard deviation over the reals *)

Lemma Q2R_inject_Z (z : Z) : Q2R (inject_Z z) = IZR z.
Proof. unfold Q2R, inject_Z. simpl. rewrite Rinv_1. ring. Qed.

Lemma Q2R_sumQ (l : list Q) : Q2R (sumQ l) = sumR (map Q2R l).
Proof.
  induction l as [|x l IH]; simpl.
  - apply RMicromega.Q2R_0.
  - rewrite Q2R_plus, IH. reflexivity.
Qed.

Lemma IZR_fold_left_add (l : list Z) (a : Z) :
  IZR (fold_left Z.add l a) = (IZR a + sumR (map IZR l))%R.
Proof.
  revert a. induction l as [|x l IH]; intros a; simpl.
  - ring.
  - rewrite IH, plus_IZR. ring.
Qed.

Lemma length_nonzero_Q {A : Type} (l : list A) :
  l <> [] -> ~ (inject_Z (Z.of_nat (length l)) == 0)%Q.
Proof.
  intros Hne. change 0%Q with (inject_Z 0). rewrite inject_Z_injective.
  destruct l; [congruence | simpl; lia].
Qed.

Lemma length_pos_R {A : Type} (l : list A) :
  l <> [] -> (0 < INR (length l))%R.
Proof.
  intros Hne. apply lt_0_INR. destruct l; [congruence | simpl; lia].
Qed.

(** The [mean] of the code is the population mean. *)
Lemma mean_population (xs : list Z) :
  xs <> [] -> Q2R (mean xs) = population_mean xs.
Proof.
  intros Hne. unfold mean, population_mean.
  rewrite Q2R_div by (apply length_nonzero_Q; exact Hne).
  rewrite !Q2R_inject_Z, IZR_fold_left_add, <- INR_IZR_INZ.
  f_equal. ring.
Qed.

(** The [variance] of the code is the population variance. *)
Lemma variance_population (xs : list Z) :
  xs <> [] -> Q2R (variance xs) = population_variance xs.
Proof.
  intros Hne. unfold variance, population_variance.
  rewrite Q2R_div by (apply length_nonzero_Q; exact Hne).
  rewrite Q2R_inject_Z, <- INR_IZR_INZ. f_equal.
  rewrite (Qeq_eqR _ _
             (fold_left_sumQ (fun val => (inject_Z val - mean xs) ^ 2)%Q xs 0)).
  rewrite Q2R_plus, RMicromega.Q2R_0, Rplus_0_l, Q2R_sumQ, map_map.
  f_equal. apply map_ext. intros a.
  change ((inject_Z a - mean xs) ^ 2)%Q
    with ((inject_Z a - mean xs) * (inject_Z a - mean xs))%Q.
  rewrite Q2R_mult, Q2R_minus, Q2R_inject_Z, (mean_population xs Hne).
  ring.
Qed.

Lemma sumR_squares_nonneg {A : Type} (f : A -> R) (l : list A) :
  (0 <= sumR (map (fun x => f x ^ 2) l))%R.
Proof.
  induction l as [|x l IH]; cbn [map sumR].
  - lraR.
  - pose proof (pow2_ge_0 (f x)) as H. lraR.
Qed.

Lemma population_variance_nonneg (xs : list Z) :
  xs <> [] -> (0 <= population_variance xs)%R.
Proof.
  intros Hne. unfold population_variance.
  apply Rmult_le_pos.
  - apply (sumR_squares_nonneg (fun x => IZR x - population_mean xs)%R).
  - apply Rlt_le, Rinv_0_lt_compat, length_pos_R, Hne.
Qed.

(** The test [Math.sqrt(variance) <= c] of the code, decided on the squares,
    is the comparison of the population standard deviation with [c]. *)
Lemma sqrt_leb_stdDev (xs : list Z) (c : Q) :
  xs <> [] -> (0 <= c)%Q ->
  (sqrt_leb (variance xs) c = true <-> (population_stdDev xs <= Q2R c)%R).
Proof.
  intros Hne Hc. unfold sqrt_leb, population_stdDev.
  pose proof (population_variance_nonneg xs Hne) as Hv.
  rewrite <- (variance_population xs Hne) in *.
  assert (Hc' : (0 <= Q2R c)%R).
  { rewrite <- RMicromega.Q2R_0. apply Qle_Rle. exact Hc. }
  assert (H0 : Qle_bool 0 (variance xs) = true).
  { apply Qle_bool_iff. apply Rle_Qle. rewrite RMicromega.Q2R_0. exact Hv. }
  rewrite H0. simpl. rewrite Qle_bool_iff. split.
  - intros H. apply Qle_Rle in H. rewrite Q2R_mult in H.
    rewrite <- (sqrt_square (Q2R c) Hc'). apply sqrt_le_1_alt. exact H.
  - intros H. apply Rle_Qle. rewrite Q2R_mult.
    rewrite <- (sqrt_sqrt (Q2R (variance xs)) Hv).
    pose proof (sqrt_pos (Q2R (variance xs))) as Hs.
    apply Rmult_le_compat; assumption.
Qed.

(* ================================================================== *)
(** ** analyzeAgreement on two or more usable readings *)

(** The result of [analyzeAgreement] once the two guards are passed. *)
Lemma analyzeAgreement_many (readings : list AQIReading.t) :
  (2 <= length (usable_readings readings))%nat ->
  analyzeAgreement readings =
  let aqiValues := usable_aqi readings in
  let spread := Math_max aqiValues - Math_min aqiValues in
  if (spread <=? 20) && sqrt_leb (variance aqiValues) 10%Q then
    AgreementAnalysis.mk Level.high (Some spread)
      ("Sources agree within " ++ string_of_Z spread
         ++ " AQI points. High confidence in data.")%string
  else if (spread <=? 50) && sqrt_leb (variance aqiValues) 25%Q then
    AgreementAnalysis.mk Level.partial (Some spread)
      ("Sources differ by " ++ string_of_Z spread
         ++ " AQI points. Possible local variations or measurement timing differences.")%string
  else
    AgreementAnalysis.mk Level.outlier (Some spread)
      ("Significant disagreement (spread: " ++ string_of_Z spread
         ++ "). Possible sensor calibration issues, local hotspots, or data staleness.")%string.
Proof.
  unfold analyzeAgreement, usable_aqi, usable_readings.
  destruct (filter usable readings) as [|r1 [|r2 rest]]; simpl length;
    intros H; try lia.
  reflexivity.
Qed.

(** C1. With at least two usable readings [analyzeAgreement] returns the
    spread [max(aqi) - min(aqi)] of the usable values, [max] the greatest and
    [min] the least of them, and classifies it with
    their population standard deviation: [high] when [spread <= 20] and
    [stdDev <= 10], [partial] when not [high] but [spread <= 50] and
    [stdDev <= 25], [outlier] otherwise; all bounds are inclusive. *)
Theorem analyzeAgreement_classification :
  forall readings : list AQIReading.t,
    let aqiValues := usable_aqi readings in
    let spread := Math_max aqiValues - Math_min aqiValues in
    let stdDev := population_stdDev aqiValues in
    let result := analyzeAgreement readings in
    (2 <= length (usable_readings readings))%nat ->
    (In (Math_max aqiValues) aqiValues /\
     In (Math_min aqiValues) aqiValues /\
     forall x, In x aqiValues ->
       Math_min aqiValues <= x <= Math_max aqiValues) /\
    AgreementAnalysis.spread result = Some spread /\
    (spread <= 20 /\ (stdDev <= 10)%R ->
     AgreementAnalysis.level result = Level.high) /\
    (~ (spread <= 20 /\ (stdDev <= 10)%R) ->
     spread <= 50 /\ (stdDev <= 25)%R ->
     AgreementAnalysis.level result = Level.partial) /\
    (~ (spread <= 20 /\ (stdDev <= 10)%R) ->
     ~ (spread <= 50 /\ (stdDev <= 25)%R) ->
     AgreementAnalysis.level result = Level.outlier).
Proof.
  intros readings aqiValues spread stdDev result H2.
  assert (Hne : aqiValues <> []).
  { subst aqiValues. unfold usable_aqi.
    destruct (usable_readings readings); [simpl in H2; lia | discriminate]. }
  assert (H10 : sqrt_leb (variance aqiValues) 10 = true <-> (stdDev <= 10)%R).
  { subst stdDev. rewrite (sqrt_leb_stdDev aqiValues 10 Hne) by discriminate.
    replace (Q2R 10) with 10%R by (unfold Q2R; simpl; lraR). reflexivity. }
  assert (H25 : sqrt_leb (variance aqiValues) 25 = true <-> (stdDev <= 25)%R).
  { subst stdDev. rewrite (sqrt_leb_stdDev aqiValues 25 Hne) by discriminate.
    replace (Q2R 25) with 25%R by (unfold Q2R; simpl; lraR). reflexivity. }
  assert (Hhigh : (spread <=? 20) && sqrt_leb (variance aqiValues) 10 = true
                  <-> spread <= 20 /\ (stdDev <= 10)%R).
  { rewrite andb_true_iff, Z.leb_le, H10. reflexivity. }
  assert (Hpart : (spread <=? 50) && sqrt_leb (variance aqiValues) 25 = true
                  <-> spread <= 50 /\ (stdDev <= 25)%R).
  { rewrite andb_true_iff, Z.leb_le, H25. reflexivity. }
  split.
  { destruct (Math_max_spec _ Hne) as [Hmi Hmx].
    destruct (Math_min_spec _ Hne) as [Hni Hmn].
    repeat split; auto. }
  subst result. rewrite (analyzeAgreement_many readings H2).
  cbv zeta. fold aqiValues. fold spread.
  destruct ((spread <=? 20) && sqrt_leb (variance aqiValues) 10) eqn:E1.
  - assert (HA : spread <= 20 /\ (stdDev <= 10)%R)
      by (apply Hhigh; reflexivity).
    simpl. repeat split; intros; try reflexivity; contradiction.
  - assert (HnA : ~ (spread <= 20 /\ (stdDev <= 10)%R)).
    { intros HA. apply Hhigh in HA. discriminate HA. }
    destruct ((spread <=? 50) && sqrt_leb (variance aqiValues) 25) eqn:E2.
    + assert (HB : spread <= 50 /\ (stdDev <= 25)%R)
        by (apply Hpart; reflexivity).
      simpl. repeat split; intros; try reflexivity; contradiction.
    + assert (HnB : ~ (spread <= 50 /\ (stdDev <= 25)%R)).
      { intros HB. apply Hpart in HB. discriminate HB. }
      simpl. repeat split; intros; try reflexivity; contradiction.
Qed.

Lemma Q2R_10 : Q2R 10 = 10%R.
Proof. unfold Q2R. simpl. lraR. Qed.

(** The boundary of the specification: two usable readings 20 points apart
    have the spread 20 and the standard deviation 10, and agree [high]. *)
Lemma analyzeAgreement_classification_witness :
  let readings :=
    [ reading GOVERNMENT (Some 100) fresh Confidence.high;
      reading INTERNATIONAL (Some 120) aging Confidence.high;
      reading HISTORICAL None unavailable Confidence.low ] in
  (2 <= length (usable_readings readings))%nat /\
  AgreementAnalysis.spread (analyzeAgreement readings) = Some 20 /\
  (population_stdDev (usable_aqi readings) <= 10)%R /\
  AgreementAnalysis.level (analyzeAgreement readings) = Level.high.
Proof.
  intros readings.
  assert (H : (2 <= length (usable_readings readings))%nat) by (simpl; lia).
  assert (Hsd : (population_stdDev (usable_aqi readings) <= 10)%R).
  { rewrite <- Q2R_10. apply sqrt_leb_stdDev;
      [discriminate | discriminate | reflexivity]. }
  destruct (analyzeAgreement_classification readings H) as [_ [Hs [Hh _]]].
  split; [exact H|]. split; [exact Hs|]. split; [exact Hsd|].
  apply Hh. split; [simpl; lia | exact Hsd].
Defined.

(* ================================================================== *)
(** ** Order independence of analyzeAgreement *)

Lemma usable_readings_Permutation (l l' : list AQIReading.t) :
  Permutation l l' -> Permutation (usable_readings l) (usable_readings l').
Proof.
  unfold usable_readings.
  induction 1 as [|x l l' _ IH|x y l|l l' l'' _ IH1 _ IH2]; simpl.
  - constructor.
  - destruct (usable x); [constructor|]; exact IH.
  - destruct (usable x), (usable y);
      try apply perm_swap; apply Permutation_refl.
  - eapply Permutation_trans; eassumption.
Qed.

Lemma usable_aqi_Permutation (l l' : list AQIReading.t) :
  Permutation l l' -> Permutation (usable_aqi l) (usable_aqi l').
Proof.
  intros H. unfold usable_aqi.
  apply Permutation_map, usable_readings_Permutation, H.
Qed.

Lemma Math_max_Permutation (l l' : list Z) :
  Permutation l l' -> Math_max l = Math_max l'.
Proof.
  intros HP. destruct l as [|x l].
  - apply Permutation_nil in HP. subst. reflexivity.
  - assert (Hl : x :: l <> []) by discriminate.
    assert (Hl' : l' <> []).
    { intros ->. apply Permutation_sym, Permutation_nil in HP.
      discriminate. }
    destruct (Math_max_spec _ Hl) as [Hin Hub].
    destruct (Math_max_spec _ Hl') as [Hin' Hub'].
    apply Z.le_antisymm.
    + apply Hub'. eapply Permutation_in; eassumption.
    + apply Hub. eapply Permutation_in; [apply Permutation_sym|]; eassumption.
Qed.

Lemma Math_min_Permutation (l l' : list Z) :
  Permutation l l' -> Math_min l = Math_min l'.
Proof.
  intros HP. destruct l as [|x l].
  - apply Permutation_nil in HP. subst. reflexivity.
  - assert (Hl : x :: l <> []) by discriminate.
    assert (Hl' : l' <> []).
    { intros ->. apply Permutation_sym, Permutation_nil in HP.
      discriminate. }
    destruct (Math_min_spec _ Hl) as [Hin Hlb].
    destruct (Math_min_spec _ Hl') as [Hin' Hlb'].
    apply Z.le_antisymm.
    + apply Hlb. eapply Permutation_in; [apply Permutation_sym|]; eassumption.
    + apply Hlb'. eapply Permutation_in; eassumption.
Qed.

Lemma fold_left_add_Permutation (l l' : list Z) :
  Permutation l l' ->
  forall a, fold_left Z.add l a = fold_left Z.add l' a.
Proof.
  induction 1 as [|x l l' _ IH|x y l|l l' l'' _ IH1 _ IH2]; intros a; simpl.
  - reflexivity.
  - apply IH.
  - f_equal. lia.
  - rewrite IH1. apply IH2.
Qed.

Lemma mean_Permutation (l l' : list Z) :
  Permutation l l' -> mean l = mean l'.
Proof.
  intros HP. unfold mean.
  rewrite (fold_left_add_Permutation l l' HP 0), (Permutation_length HP).
  reflexivity.
Qed.

Lemma sumQ_Permutation (l l' : list Q) :
  Permutation l l' -> (sumQ l == sumQ l')%Q.
Proof.
  induction 1 as [|x l l' _ IH|x y l|l l' l'' _ IH1 _ IH2]; simpl.
  - reflexivity.
  - rewrite IH. reflexivity.
  - ring.
  - rewrite IH1. exact IH2.
Qed.

Lemma variance_Permutation (l l' : list Z) :
  Permutation l l' -> (variance l == variance l')%Q.
Proof.
  intros HP. unfold variance.
  rewrite <- (mean_Permutation l l' HP), <- (Permutation_length HP).
  rewrite !(fold_left_sumQ (fun val => (inject_Z val - mean l) ^ 2)%Q).
  rewrite (sumQ_Permutation _ _
             (Permutation_map (fun val => (inject_Z val - mean l) ^ 2)%Q HP)).
  reflexivity.
Qed.

Lemma sqrt_leb_comp (v v' c : Q) :
  (v == v')%Q -> sqrt_leb v c = sqrt_leb v' c.
Proof.
  intros E. unfold sqrt_leb. rewrite E. reflexivity.
Qed.

(** C8. [analyzeAgreement] returns the same analysis, level, spread and
    explanation, on every permutation of its input. *)
Theorem analyzeAgreement_Permutation :
  forall readings readings' : list AQIReading.t,
    Permutation readings readings' ->
    analyzeAgreement readings = analyzeAgreement readings'.
Proof.
  intros readings readings' HP.
  pose proof (usable_readings_Permutation _ _ HP) as HU.
  pose proof (Permutation_length HU) as HL.
  destruct (le_lt_dec 2 (length (usable_readings readings))) as [H2|H2].
  - assert (H2' : (2 <= length (usable_readings readings'))%nat) by lia.
    rewrite (analyzeAgreement_many readings H2),
      (analyzeAgreement_many readings' H2').
    pose proof (usable_aqi_Permutation _ _ HP) as HA.
    cbv zeta.
    rewrite <- (Math_max_Permutation _ _ HA), <- (Math_min_Permutation _ _ HA),
      <- !(sqrt_leb_comp _ _ _ (variance_Permutation _ _ HA)).
    reflexivity.
  - unfold analyzeAgreement. unfold usable_readings in *.
    destruct (filter usable readings) as [|r1 [|r2 rest]].
    + apply Permutation_nil in HU. rewrite HU. reflexivity.
    + apply Permutation_length_1_inv in HU. rewrite HU. reflexivity.
    + simpl in H2. lia.
Qed.

(** The three sources of the specification's scenario in two orders. *)
Lemma analyzeAgreement_Permutation_witness :
  let g := reading GOVERNMENT (Some 278) fresh Confidence.high in
  let i := reading INTERNATIONAL (Some 252) aging Confidence.high in
  let h := reading HISTORICAL (Some 285) stale Confidence.medium in
  Permutation [g; i; h] [h; g; i] /\
  analyzeAgreement [g; i; h] = analyzeAgreement [h; g; i] /\
  AgreementAnalysis.level (analyzeAgreement [h; g; i]) = Level.partial /\
  AgreementAnalysis.spread (analyzeAgreement [h; g; i]) = Some 33.
Proof.
  intros g i h.
  assert (HP : Permutation [g; i; h] [h; g; i]).
  { apply Permutation_sym. change [h; g; i] with ([h] ++ [g; i]).
    change [g; i; h] with ([g; i] ++ [h]). apply Permutation_app_comm. }
  split; [exact HP|].
  split; [exact (analyzeAgreement_Permutation _ _ HP)|].
  rewrite <- (analyzeAgreement_Permutation _ _ HP).
  split; reflexivity.
Defined.

(* ================================================================== *)
(** ** The spread alone decides the agreement level *)

Lemma inject_fold_left_add (l : list Z) (a : Z) :
  (inject_Z (fold_left Z.add l a) == inject_Z a + sumQ (map inject_Z l))%Q.
Proof.
  revert a. induction l as [|x l IH]; intros a; simpl.
  - ring.
  - rewrite IH, inject_Z_plus. ring.
Qed.

(** Sum of the squared deviations from any [mu] when every value lies in
    [[m, M]]. *)
Lemma sum_squares_upper (m M mu : Q) (l : list Z) :
  (forall x, In x l -> (m <= inject_Z x /\ inject_Z x <= M)%Q) ->
  (sumQ (map (fun v => (inject_Z v - mu) * (inject_Z v - mu)) l)
   <= (m + M - 2 * mu) * sumQ (map inject_Z l)
      + inject_Z (Z.of_nat (length l)) * (mu * mu - m * M))%Q.
Proof.
  induction l as [|x l IH]; intros H.
  - simpl. change (inject_Z 0) with 0%Q. lraQ.
  - change (length (x :: l)) with (S (length l)).
    rewrite Nat2Z.inj_succ. unfold Z.succ. rewrite inject_Z_plus.
    change (inject_Z 1) with 1%Q. simpl sumQ. simpl map.
    destruct (H x (or_introl eq_refl)) as [Hm HM].
    assert (IH' := IH (fun y Hy => H y (or_intror Hy))).
    simpl sumQ.
    assert (Hx : ((inject_Z x - m) * (M - inject_Z x) >= 0)%Q).
    { apply Qmult_le_0_compat; lraQ. }
    nraQ.
Qed.

(** Popoviciu's inequality on the usable values: four times the variance is
    at most the square of the spread. *)
Lemma variance_le_spread (xs : list Z) :
  xs <> [] ->
  (4 * variance xs
   <= inject_Z (Math_max xs - Math_min xs)
      * inject_Z (Math_max xs - Math_min xs))%Q.
Proof.
  intros Hne.
  destruct (Math_max_spec xs Hne) as [_ Hmax].
  destruct (Math_min_spec xs Hne) as [_ Hmin].
  set (M := Math_max xs) in *. set (m := Math_min xs) in *.
  set (n := inject_Z (Z.of_nat (length xs))).
  assert (Hn : (1 <= n)%Q).
  { subst n. change 1%Q with (inject_Z 1). rewrite <- Zle_Qle.
    destruct xs; [congruence | simpl; lia]. }
  assert (Hmu : (n * mean xs == sumQ (map inject_Z xs))%Q).
  { unfold mean. fold n. rewrite inject_fold_left_add.
    change (inject_Z 0) with 0%Q. field. lraQ. }
  assert (Hb : forall x, In x xs ->
                 (inject_Z m <= inject_Z x /\ inject_Z x <= inject_Z M)%Q).
  { intros x Hx. rewrite <- !Zle_Qle. split; [apply Hmin | apply Hmax]; exact Hx. }
  pose proof (sum_squares_upper (inject_Z m) (inject_Z M) (mean xs) xs Hb) as HS.
  fold n in HS. rewrite <- Hmu in HS.
  assert (HV : (n * variance xs ==
                sumQ (map (fun v => (inject_Z v - mean xs) * (inject_Z v - mean xs)) xs))%Q).
  { unfold variance. fold n.
    rewrite (fold_left_sumQ (fun val => (inject_Z val - mean xs) ^ 2)%Q).
    change (fun val : Z => (inject_Z val - mean xs) ^ 2)%Q
      with (fun val : Z => (inject_Z val - mean xs) * (inject_Z val - mean xs))%Q.
    field. lraQ. }
  rewrite <- HV in HS.
  unfold Z.sub. rewrite inject_Z_plus, inject_Z_opp.
  set (V := variance xs) in *. set (mu := mean xs) in *.
  set (qM := inject_Z M) in *. set (qm := inject_Z m) in *.
  assert (HnV : (n * V <= n * ((qM - mu) * (mu - qm)))%Q) by nraQ.
  assert (HV' : (V <= (qM - mu) * (mu - qm))%Q).
  { apply (Qmult_le_l _ _ n); [lraQ | exact HnV]. }
  assert (Hsq : (0 <= (qM + qm - 2 * mu) * (qM + qm - 2 * mu))%Q).
  { destruct (Qlt_le_dec (qM + qm - 2 * mu) 0) as [Hneg|Hpos].
    - setoid_replace ((qM + qm - 2 * mu) * (qM + qm - 2 * mu))%Q
        with ((- (qM + qm - 2 * mu)) * (- (qM + qm - 2 * mu)))%Q by ring.
      apply Qmult_le_0_compat; lraQ.
    - apply Qmult_le_0_compat; exact Hpos. }
  lraQ.
Qed.

Lemma variance_nonneg (xs : list Z) : xs <> [] -> (0 <= variance xs)%Q.
Proof.
  intros Hne. apply Rle_Qle.
  rewrite RMicromega.Q2R_0, (variance_population xs Hne).
  apply population_variance_nonneg, Hne.
Qed.

(** A spread within twice the bound passes the standard-deviation test. *)
Lemma sqrt_leb_of_spread (xs : list Z) (c : Z) :
  xs <> [] -> 0 <= c ->
  Math_max xs - Math_min xs <= 2 * c ->
  sqrt_leb (variance xs) (inject_Z c) = true.
Proof.
  intros Hne Hc Hs. unfold sqrt_leb.
  pose proof (variance_nonneg xs Hne) as H0.
  pose proof (variance_le_spread xs Hne) as H4.
  destruct (Math_max_spec xs Hne) as [Hin Hmax].
  destruct (Math_min_spec xs Hne) as [Hin' _].
  assert (Hs0 : 0 <= Math_max xs - Math_min xs).
  { specialize (Hmax _ Hin'). lia. }
  apply andb_true_iff. split; apply Qle_bool_iff; [exact H0|].
  rewrite Zle_Qle in Hs, Hs0, Hc.
  rewrite inject_Z_mult in Hs. change (inject_Z 2) with 2%Q in Hs.
  change (inject_Z 0) with 0%Q in Hs0, Hc.
  set (s := inject_Z (Math_max xs - Math_min xs)) in *.
  set (C := inject_Z c) in *.
  nraQ.
Qed.

Lemma level_of_spread (readings : list AQIReading.t) :
  (2 <= length (usable_readings readings))%nat ->
  let spread :=
    Math_max (usable_aqi readings) - Math_min (usable_aqi readings) in
  AgreementAnalysis.level (analyzeAgreement readings) =
    if spread <=? 20 then Level.high
    else if spread <=? 50 then Level.partial
    else Level.outlier.
Proof.
  intros H2 spread.
  assert (Hne : usable_aqi readings <> []).
  { unfold usable_aqi.
    destruct (usable_readings readings); [simpl in H2; lia | discriminate]. }
  rewrite (analyzeAgreement_many readings H2). cbv zeta. fold spread.
  destruct (spread <=? 20) eqn:E20.
  - apply Z.leb_le in E20.
    assert (Hs : sqrt_leb (variance (usable_aqi readings)) 10 = true)
      by (apply (sqrt_leb_of_spread _ 10 Hne); fold spread; lia).
    rewrite Hs. reflexivity.
  - simpl. destruct (spread <=? 50) eqn:E50; [|reflexivity].
    apply Z.leb_le in E50.
    assert (Hs : sqrt_leb (variance (usable_aqi readings)) 25 = true)
      by (apply (sqrt_leb_of_spread _ 25 Hne); fold spread; lia).
    rewrite Hs. reflexivity.
Qed.

(** X1. With at least two usable readings the level is decided by the
    spread alone: [high] up to 20, [partial] up to 50, [outlier] above.  The
    standard deviation is at most half the spread, so its two tests never
    change the outcome. *)
Theorem analyzeAgreement_level_by_spread :
  forall readings : list AQIReading.t,
    (2 <= length (usable_readings readings))%nat ->
    let spread :=
      Math_max (usable_aqi readings) - Math_min (usable_aqi readings) in
    AgreementAnalysis.level (analyzeAgreement readings) =
      if spread <=? 20 then Level.high
      else if spread <=? 50 then Level.partial
      else Level.outlier.
Proof.
  intros readings H2. exact (level_of_spread readings H2).
Qed.

(** Three usable readings 21 points apart are [partial], whatever their
    standard deviation. *)
Lemma analyzeAgreement_level_by_spread_witness :
  let readings :=
    [ reading GOVERNMENT (Some 100) fresh Confidence.high;
      reading INTERNATIONAL (Some 110) aging Confidence.high;
      reading HISTORICAL (Some 121) stale Confidence.medium ] in
  (2 <= length (usable_readings readings))%nat /\
  AgreementAnalysis.level (analyzeAgreement readings) = Level.partial.
Proof.
  intros readings.
  assert (H : (2 <= length (usable_readings readings))%nat) by (simpl; lia).
  split; [exact H|].
  exact (analyzeAgreement_level_by_spread readings H).
Defined.

(* ================================================================== *)
(** ** Further properties of calculateDerivedAQI *)

Lemma sumQ_weights_upper (l : list AQIReading.t) :
  (sumQ (map reading_weight l) <= inject_Z (Z.of_nat (length l)) * 1.2)%Q.
Proof.
  induction l as [|r l IH].
  - simpl. vm_compute. discriminate.
  - change (length (r :: l)) with (S (length l)).
    rewrite Nat2Z.inj_succ. unfold Z.succ. rewrite inject_Z_plus.
    change (inject_Z 1) with 1%Q. simpl sumQ.
    pose proof (reading_weight_bounds r) as [_ Hhi]. lraQ.
Qed.

Lemma confidence_ratio_upper (l : list AQIReading.t) :
  l <> [] ->
  (100 * sumQ (map reading_weight l)
   / (inject_Z (Z.of_nat (length l)) * 1.2) <= 100)%Q.
Proof.
  intros Hne.
  assert (Hn : (1 <= inject_Z (Z.of_nat (length l)))%Q).
  { change 1%Q with (inject_Z 1). rewrite <- Zle_Qle.
    destruct l; [congruence | simpl; lia]. }
  apply Qle_shift_div_r; [lraQ|].
  pose proof (sumQ_weights_upper l). lraQ.
Qed.

Lemma sumQ_weights_best (l : list AQIReading.t) :
  (forall r, In r l -> best_case r) ->
  (sumQ (map reading_weight l) == inject_Z (Z.of_nat (length l)) * 1.2)%Q.
Proof.
  induction l as [|r l IH]; intros H.
  - reflexivity.
  - change (length (r :: l)) with (S (length l)).
    rewrite Nat2Z.inj_succ. unfold Z.succ. rewrite inject_Z_plus.
    change (inject_Z 1) with 1%Q. simpl sumQ.
    rewrite IH by (intros r' Hr'; apply H; now right).
    destruct (H r (or_introl eq_refl)) as [Hs [Hf Hc]].
    unfold reading_weight. rewrite Hs, Hf, Hc. ring.
Qed.

(** X2. The cap of the confidence at 100 never applies: with at least one
    usable reading the confidence is the rounded ratio itself, and it is
    100 when every usable reading is a fresh, high-confidence government
    one. *)
Theorem calculateDerivedAQI_confidence_uncapped :
  forall readings : list AQIReading.t,
    (1 <= length (usable_readings readings))%nat ->
    let validReadings := usable_readings readings in
    let wrs := weightedReadings validReadings in
    DerivedAQI.confidence (calculateDerivedAQI readings) =
      Math_round (totalWeight wrs / maxPossibleWeight validReadings * 100)%Q /\
    ((forall r, In r validReadings -> best_case r) ->
     DerivedAQI.confidence (calculateDerivedAQI readings) = 100).
Proof.
  intros readings HN validReadings wrs.
  apply length_pos_nonnil in HN. fold validReadings in HN.
  rewrite (calculateDerivedAQI_some readings HN).
  cbv zeta. cbn [DerivedAQI.confidence]. fold validReadings. fold wrs.
  subst wrs.
  rewrite (Math_round_comp _ _ (confidence_ratio validReadings HN)).
  split.
  - apply Z.min_r.
    apply (Math_round_between 0 100).
    + pose proof (confidence_ratio_lower validReadings HN).
      change (inject_Z 0) with 0%Q. lraQ.
    + exact (confidence_ratio_upper validReadings HN).
  - intros Hbest.
    assert (E : (100 * sumQ (map reading_weight validReadings)
                 / (inject_Z (Z.of_nat (length validReadings)) * 1.2)
                 == 100)%Q).
    { rewrite (sumQ_weights_best validReadings Hbest). field.
      apply length_nonzero_Q, HN. }
    rewrite (Math_round_comp _ _ E). reflexivity.
Qed.

(** Two fresh high-confidence government readings. *)
Lemma calculateDerivedAQI_confidence_uncapped_witness :
  let readings :=
    [ reading GOVERNMENT (Some 278) fresh Confidence.high;
      reading GOVERNMENT (Some 268) fresh Confidence.high ] in
  (1 <= length (usable_readings readings))%nat /\
  DerivedAQI.confidence (calculateDerivedAQI readings) = 100.
Proof.
  intros readings.
  assert (H : (1 <= length (usable_readings readings))%nat) by (simpl; lia).
  split; [exact H|].
  destruct (calculateDerivedAQI_confidence_uncapped readings H) as [_ Hb].
  apply Hb. intros r [<-|[<-|[]]]; repeat split.
Defined.

(** X3. When every usable reading reports the same value, that value is the
    derived AQI, whatever the weights. *)
Theorem calculateDerivedAQI_unanimous :
  forall (readings : list AQIReading.t) (a : Z),
    (1 <= length (usable_readings readings))%nat ->
    (forall r, In r (usable_readings readings) -> AQIReading.aqi r = Some a) ->
    DerivedAQI.value (calculateDerivedAQI readings) = Some a.
Proof.
  intros readings a HN Hall. apply length_pos_nonnil in HN.
  rewrite (calculateDerivedAQI_some readings HN). simpl. f_equal.
  assert (H : a <= Math_round
                     (weightedSum (weightedReadings (usable_readings readings))
                      / totalWeight (weightedReadings (usable_readings readings)))%Q
              <= a).
  { apply derived_value_between; [exact HN|].
    intros r Hr. unfold aqi_as_number. rewrite (Hall r Hr). lia. }
  lia.
Qed.

Lemma calculateDerivedAQI_unanimous_witness :
  let readings :=
    [ reading GOVERNMENT (Some 150) fresh Confidence.high;
      reading IOT_SENSOR (Some 150) fresh Confidence.uncalibrated;
      reading HISTORICAL None unavailable Confidence.low ] in
  (1 <= length (usable_readings readings))%nat /\
  DerivedAQI.value (calculateDerivedAQI readings) = Some 150.
Proof.
  intros readings.
  assert (H : (1 <= length (usable_readings readings))%nat) by (simpl; lia).
  split; [exact H|].
  apply (calculateDerivedAQI_unanimous readings 150 H).
  intros r [<-|[<-|[]]]; reflexivity.
Defined.

Lemma Binary64_sources_weights (readings : list AQIReading.t) :
  Binary64.sources (Binary64.calculateDerivedAQI readings) =
    map AQIReading.source (usable_readings readings) /\
  Binary64.weights (Binary64.calculateDerivedAQI readings) =
    map (fun r => (AQIReading.source r, Binary64.reading_weight r))
        (usable_readings readings) /\
  (Binary64.value (Binary64.calculateDerivedAQI readings) = None <->
   usable_readings readings = []).
Proof.
  unfold Binary64.calculateDerivedAQI, usable_readings.
  destruct (filter usable readings) as [|r l].
  - repeat split; reflexivity.
  - cbv zeta. cbn [Binary64.sources Binary64.weights Binary64.value].
    unfold Binary64.weightedReadings. rewrite map_map. cbn [fst snd].
    repeat split; discriminate.
Qed.

(** X25. In binary64, with one to four usable readings (every list the
    page builds), the confidence is a whole number between 3 and 100. *)
Theorem Binary64_confidence_range :
  forall readings : list AQIReading.t,
    (1 <= length (usable_readings readings) <= 4)%nat ->
    exists c : Z,
      Binary64.confidence (Binary64.calculateDerivedAQI readings) =
        Binary64.of_Z c /\
      3 <= c <= 100.
Proof.
  intros readings HN.
  destruct (Binary64_confidence_checked readings HN) as [c [Hc [Hr Hd]]].
  exists c. split; [exact Hc|]. split; [|lia].
  assert (Hne : usable_readings readings <> [])
    by (apply length_pos_nonnil; lia).
  pose proof (confidence_ratio_lower (usable_readings readings) Hne) as H3.
  fold (confidence_formula (usable_readings readings)) in H3.
  destruct Hd as [-> | [_ Ht]].
  - assert (3 <= Math_round (confidence_formula (usable_readings readings))).
    { unfold Math_round. rewrite <- (Qfloor_Z 3). apply Qfloor_resp_le.
      change (inject_Z 3) with 3%Q. lraQ. }
    lia.
  - assert (H : (inject_Z 2 < inject_Z c)%Q).
    { change (inject_Z 2) with 2%Q. rewrite Ht in H3. lraQ. }
    rewrite <- Zlt_Qlt in H. lia.
Qed.

(** The least weight there is, a stale uncalibrated IoT reading alone:
    the confidence is 3 in binary64 too. *)
Lemma Binary64_confidence_range_witness :
  let readings :=
    [ reading IOT_SENSOR (Some 180) stale Confidence.uncalibrated;
      reading GOVERNMENT None unavailable Confidence.low ] in
  (1 <= length (usable_readings readings) <= 4)%nat /\
  Binary64.confidence (Binary64.calculateDerivedAQI readings) =
    Binary64.of_Z 3 /\
  exists c : Z,
    Binary64.confidence (Binary64.calculateDerivedAQI readings) =
      Binary64.of_Z c /\
    3 <= c <= 100.
Proof.
  intros readings.
  assert (H : (1 <= length (usable_readings readings) <= 4)%nat)
    by (simpl; lia).
  split; [exact H|].
  split; [vm_compute; reflexivity|].
  exact (Binary64_confidence_range readings H).
Defined.

(** X4. In binary64 the result of [calculateDerivedAQI] depends on the
    order of the readings.  Reordering the input permutes the sources and
    the weights of the result and leaves the value null exactly when it
    was null; but there are inputs whose derived value changes with the
    order, and inputs whose confidence does, the sums being rounded in a
    different order. *)
Theorem calculateDerivedAQI_order_dependent :
  (forall readings readings' : list AQIReading.t,
      Permutation readings readings' ->
      Permutation (Binary64.sources (Binary64.calculateDerivedAQI readings))
                  (Binary64.sources (Binary64.calculateDerivedAQI readings')) /\
      Permutation (Binary64.weights (Binary64.calculateDerivedAQI readings))
                  (Binary64.weights (Binary64.calculateDerivedAQI readings')) /\
      (Binary64.value (Binary64.calculateDerivedAQI readings) = None <->
       Binary64.value (Binary64.calculateDerivedAQI readings') = None)) /\
  (exists readings readings' : list AQIReading.t,
      Permutation readings readings' /\
      Binary64.value (Binary64.calculateDerivedAQI readings) <>
      Binary64.value (Binary64.calculateDerivedAQI readings')) /\
  (exists readings readings' : list AQIReading.t,
      Permutation readings readings' /\
      Binary64.confidence (Binary64.calculateDerivedAQI readings) <>
      Binary64.confidence (Binary64.calculateDerivedAQI readings')).
Proof.
  split; [|split].
  - intros readings readings' HP.
    pose proof (usable_readings_Permutation _ _ HP) as HU.
    destruct (Binary64_sources_weights readings) as [-> [-> Hv]].
    destruct (Binary64_sources_weights readings') as [-> [-> Hv']].
    split; [apply Permutation_map; exact HU|].
    split; [apply Permutation_map; exact HU|].
    rewrite Hv, Hv'. split; intros E; rewrite E in HU.
    + apply Permutation_nil. exact HU.
    + apply Permutation_nil. apply Permutation_sym. exact HU.
  - exists [ reading GOVERNMENT (Some 20) fresh Confidence.high;
             reading INTERNATIONAL (Some 20) fresh Confidence.high;
             reading HISTORICAL (Some 41) fresh Confidence.high ],
           [ reading GOVERNMENT (Some 20) fresh Confidence.high;
             reading HISTORICAL (Some 41) fresh Confidence.high;
             reading INTERNATIONAL (Some 20) fresh Confidence.high ].
    split; [apply perm_skip, perm_swap|].
    vm_compute. discriminate.
  - exists [ reading GOVERNMENT (Some 20) fresh Confidence.low;
             reading INTERNATIONAL (Some 20) fresh Confidence.uncalibrated;
             reading HISTORICAL (Some 41) aging Confidence.uncalibrated ],
           [ reading GOVERNMENT (Some 20) fresh Confidence.low;
             reading HISTORICAL (Some 41) aging Confidence.uncalibrated;
             reading INTERNATIONAL (Some 20) fresh Confidence.uncalibrated ].
    split; [apply perm_skip, perm_swap|].
    vm_compute. discriminate.
Qed.

(** Three fresh high-confidence readings 20, 20 and 41 of weights 1.2, 1.0
    and 0.6: the weighted average is the tie 24.5, and the derived value is
    24 in one order and 25 in the other, the sources and weights permuted.
    Three readings of weights 0.6, 0.3 and 0.126: the confidence ratio is
    the tie 28.5, and the confidence is 28 in one order and 29 in the
    other. *)
Lemma calculateDerivedAQI_order_dependent_witness :
  let g := reading GOVERNMENT (Some 20) fresh Confidence.high in
  let i := reading INTERNATIONAL (Some 20) fresh Confidence.high in
  let h := reading HISTORICAL (Some 41) fresh Confidence.high in
  let g' := reading GOVERNMENT (Some 20) fresh Confidence.low in
  let i' := reading INTERNATIONAL (Some 20) fresh Confidence.uncalibrated in
  let h' := reading HISTORICAL (Some 41) aging Confidence.uncalibrated in
  Permutation [g; i; h] [g; h; i] /\
  Binary64.value (Binary64.calculateDerivedAQI [g; i; h]) =
    Some (Binary64.of_Z 24) /\
  Binary64.value (Binary64.calculateDerivedAQI [g; h; i]) =
    Some (Binary64.of_Z 25) /\
  Binary64.confidence (Binary64.calculateDerivedAQI [g'; i'; h']) =
    Binary64.of_Z 28 /\
  Binary64.confidence (Binary64.calculateDerivedAQI [g'; h'; i']) =
    Binary64.of_Z 29 /\
  Permutation (Binary64.weights (Binary64.calculateDerivedAQI [g; i; h]))
              (Binary64.weights (Binary64.calculateDerivedAQI [g; h; i])).
Proof.
  intros g i h g' i' h'.
  assert (HP : Permutation [g; i; h] [g; h; i]) by apply perm_skip, perm_swap.
  split; [exact HP|].
  split; [vm_compute; reflexivity|].
  split; [vm_compute; reflexivity|].
  split; [vm_compute; reflexivity|].
  split; [vm_compute; reflexivity|].
  destruct calculateDerivedAQI_order_dependent as [H _].
  destruct (H _ _ HP) as [_ [Hw _]]. exact Hw.
Defined.

(* ================================================================== *)
(** ** timeSince and calculateFreshness on the same timestamp *)

Lemma hoursDiff_lt (now t k : Z) :
  Qltb (hoursDiff now t) (inject_Z k) = (now - t <? k * 3600000).
Proof.
  unfold hoursDiff. change (1000 * 60 * 60) with 3600000.
  assert (Hpos : (0 < inject_Z 3600000)%Q) by reflexivity.
  destruct (now - t <? k * 3600000) eqn:E.
  - apply Qltb_lt. apply Z.ltb_lt in E.
    apply Qlt_shift_div_r; [exact Hpos|].
    rewrite <- inject_Z_mult, <- Zlt_Qlt. exact E.
  - apply Qltb_ge. apply Z.ltb_ge in E.
    apply Qle_shift_div_l; [exact Hpos|].
    rewrite <- inject_Z_mult, <- Zle_Qle. exact E.
Qed.

Lemma calculateFreshness_parsed (getTime : string -> option Z) (now : Z)
    (ts : string) (t : Z) :
  ts <> ""%string -> getTime ts = Some t ->
  calculateFreshness getTime now (Some ts) =
    if now - t <? 3600000 then fresh
    else if now - t <? 21600000 then aging else stale.
Proof.
  intros Hne Hts. destruct ts as [|c ts']; [congruence|].
  unfold calculateFreshness. rewrite Hts.
  change 1%Q with (inject_Z 1). change 6%Q with (inject_Z 6).
  rewrite !hoursDiff_lt. reflexivity.
Qed.

Lemma timeSince_parsed (getTime : string -> option Z) (now : Z)
    (ts : string) (t : Z) :
  ts <> ""%string -> getTime ts = Some t ->
  timeSince getTime now (Some ts) =
    if (now - t) / 60000 <? 1 then "Just now"%string
    else if (now - t) / 60000 <? 60
         then (string_of_Z ((now - t) / 60000) ++ "m ago")%string
    else if (now - t) / 3600000 <? 24
         then (string_of_Z ((now - t) / 3600000) ++ "h ago")%string
    else (string_of_Z ((now - t) / 86400000) ++ "d ago")%string.
Proof.
  intros Hne Hts. destruct ts as [|c ts']; [congruence|].
  unfold timeSince. rewrite Hts. reflexivity.
Qed.

(** X5. The age shown next to a reading agrees with its freshness: a
    [fresh] reading shows "Just now" or 1 to 59 minutes, an [aging] one 1
    to 5 hours, a [stale] one 6 to 23 hours or at least one day. *)
Theorem timeSince_matches_freshness :
  forall (getTime : string -> option Z) (now : Z) (ts : string) (t : Z),
    ts <> ""%string -> getTime ts = Some t ->
    let shown := timeSince getTime now (Some ts) in
    match calculateFreshness getTime now (Some ts) with
    | fresh =>
        shown = "Just now"%string \/
        exists m, 1 <= m < 60 /\ shown = (string_of_Z m ++ "m ago")%string
    | aging =>
        exists h, 1 <= h < 6 /\ shown = (string_of_Z h ++ "h ago")%string
    | stale =>
        (exists h, 6 <= h < 24 /\ shown = (string_of_Z h ++ "h ago")%string) \/
        (exists d, 1 <= d /\ shown = (string_of_Z d ++ "d ago")%string)
    | unavailable => False
    end.
Proof.
  intros getTime now ts t Hne Hts shown. subst shown.
  rewrite (calculateFreshness_parsed getTime now ts t Hne Hts),
    (timeSince_parsed getTime now ts t Hne Hts).
  set (d := now - t).
  pose proof (Z.div_mod d 60000 ltac:(lia)) as Hm.
  pose proof (Z.mod_pos_bound d 60000 ltac:(lia)) as Hm'.
  pose proof (Z.div_mod d 3600000 ltac:(lia)) as Hh.
  pose proof (Z.mod_pos_bound d 3600000 ltac:(lia)) as Hh'.
  pose proof (Z.div_mod d 86400000 ltac:(lia)) as Hd.
  pose proof (Z.mod_pos_bound d 86400000 ltac:(lia)) as Hd'.
  destruct (d <? 3600000) eqn:E1; [|destruct (d <? 21600000) eqn:E6];
    destruct (d / 60000 <? 1) eqn:M1;
    try destruct (d / 60000 <? 60) eqn:M60;
    try destruct (d / 3600000 <? 24) eqn:H24;
    repeat match goal with
      | H : (_ <? _) = true |- _ => apply Z.ltb_lt in H
      | H : (_ <? _) = false |- _ => apply Z.ltb_ge in H
      end;
    try lia;
    try (left; reflexivity);
    try (right; eexists; split; [|reflexivity]; lia);
    try (eexists; split; [|reflexivity]; lia);
    try (left; eexists; split; [|reflexivity]; lia).
Qed.

(** A reading 90 minutes old is [aging] and shown as "1h ago". *)
Lemma timeSince_matches_freshness_witness :
  let getTime := fun _ : string => Some 0 in
  let ts := "2025-01-01T09:00:00Z"%string in
  calculateFreshness getTime 5400000 (Some ts) = aging /\
  timeSince getTime 5400000 (Some ts) = "1h ago"%string /\
  exists h, 1 <= h < 6 /\
    timeSince getTime 5400000 (Some ts) = (string_of_Z h ++ "h ago")%string.
Proof.
  intros getTime ts.
  split; [reflexivity|]. split; [reflexivity|].
  assert (Hne : ts <> ""%string) by discriminate.
  exact (timeSince_matches_freshness getTime 5400000 ts 0 Hne eq_refl).
Defined.

(* ================================================================== *)
(** ** calculateAQIFromPM25 *)

(** The interpolated index of a breakpoint row. *)
Lemma interpolation_between (cLow cHigh iLow iHigh p : Q) :
  (cLow < cHigh)%Q -> (iLow <= iHigh)%Q ->
  (cLow <= p)%Q -> (p <= cHigh)%Q ->
  (iLow <= (iHigh - iLow) / (cHigh - cLow) * (p - cLow) + iLow
   /\ (iHigh - iLow) / (cHigh - cLow) * (p - cLow) + iLow <= iHigh)%Q.
Proof.
  intros Hc Hi Hlo Hhi.
  set (s := ((iHigh - iLow) / (cHigh - cLow))%Q).
  assert (Hs : (0 <= s)%Q).
  { unfold s. apply Qle_shift_div_l; lraQ. }
  assert (Hfull : (s * (cHigh - cLow) == iHigh - iLow)%Q).
  { unfold s. field. lraQ. }
  assert (H1 : (0 <= s * (p - cLow))%Q) by (apply Qmult_le_0_compat; lraQ).
  assert (H2 : (0 <= s * (cHigh - p))%Q) by (apply Qmult_le_0_compat; lraQ).
  split; [lraQ|]. nraQ.
Qed.

Lemma interpolation_monotone (cLow cHigh iLow iHigh p q : Q) :
  (cLow < cHigh)%Q -> (iLow <= iHigh)%Q -> (p <= q)%Q ->
  ((iHigh - iLow) / (cHigh - cLow) * (p - cLow) + iLow
   <= (iHigh - iLow) / (cHigh - cLow) * (q - cLow) + iLow)%Q.
Proof.
  intros Hc Hi Hpq.
  set (s := ((iHigh - iLow) / (cHigh - cLow))%Q).
  assert (Hs : (0 <= s)%Q).
  { unfold s. apply Qle_shift_div_l; lraQ. }
  assert (H1 : (0 <= s * (q - p))%Q) by (apply Qmult_le_0_compat; lraQ).
  nraQ.
Qed.

Lemma Math_round_monotone (x y : Q) :
  (x <= y)%Q -> Math_round x <= Math_round y.
Proof.
  intros H. unfold Math_round. apply Qfloor_resp_le. lraQ.
Qed.

Lemma loop_covered (bps : list Breakpoint.t) (pm25 : Q) (bp : Breakpoint.t) :
  In bp bps -> covered_by bp pm25 ->
  (forall b b', In b bps -> In b' bps ->
                covered_by b pm25 -> covered_by b' pm25 -> b = b') ->
  calculateAQIFromPM25_loop bps pm25 = interpolate bp pm25.
Proof.
  induction bps as [|b0 rest IH]; intros Hin Hcov Huniq; [destruct Hin|].
  simpl.
  destruct (Qle_bool (Breakpoint.cLow b0) pm25
            && Qle_bool pm25 (Breakpoint.cHigh b0)) eqn:E.
  - apply andb_true_iff in E. destruct E as [E1 E2].
    apply Qle_bool_iff in E1, E2.
    assert (Hb0 : b0 = bp).
    { apply Huniq; [now left | exact Hin | split; assumption | exact Hcov]. }
    subst b0. reflexivity.
  - destruct Hin as [->|Hin].
    + destruct Hcov as [H1 H2]. apply Qle_bool_iff in H1, H2.
      rewrite H1, H2 in E. discriminate.
    + apply IH; [exact Hin | exact Hcov|].
      intros b b' Hb Hb'. apply Huniq; now right.
Qed.

Lemma loop_uncovered (bps : list Breakpoint.t) (pm25 : Q) :
  (forall b, In b bps -> ~ covered_by b pm25) ->
  calculateAQIFromPM25_loop bps pm25 = 500.
Proof.
  induction bps as [|b0 rest IH]; intros H; [reflexivity|].
  simpl.
  destruct (Qle_bool (Breakpoint.cLow b0) pm25
            && Qle_bool pm25 (Breakpoint.cHigh b0)) eqn:E.
  - apply andb_true_iff in E. destruct E as [E1 E2].
    apply Qle_bool_iff in E1, E2.
    exfalso. apply (H b0); [now left | split; assumption].
  - apply IH. intros b Hb. apply H. now right.
Qed.

Lemma covered_dec (bps : list Breakpoint.t) (pm25 : Q) :
  (exists bp, In bp bps /\ covered_by bp pm25) \/
  (forall b, In b bps -> ~ covered_by b pm25).
Proof.
  induction bps as [|b0 rest IH].
  - right. intros b [].
  - destruct (Qlt_le_dec pm25 (Breakpoint.cLow b0)) as [Hlo|Hlo].
    + destruct IH as [[bp [Hin Hc]]|Hno].
      * left. exists bp. split; [now right | exact Hc].
      * right. intros b [<-|Hb]; [|auto].
        intros [H1 _]. exact (Qlt_not_le _ _ Hlo H1).
    + destruct (Qlt_le_dec (Breakpoint.cHigh b0) pm25) as [Hhi|Hhi].
      * destruct IH as [[bp [Hin Hc]]|Hno].
        -- left. exists bp. split; [now right | exact Hc].
        -- right. intros b [<-|Hb]; [|auto].
           intros [_ H2]. exact (Qlt_not_le _ _ Hhi H2).
      * left. exists b0. split; [now left | split; assumption].
Qed.

(** The rows of the table are well formed and pairwise disjoint. *)
Lemma breakpoints_rows (bp : Breakpoint.t) :
  In bp breakpoints ->
  (Breakpoint.cLow bp < Breakpoint.cHigh bp)%Q /\
  (Breakpoint.iLow bp <= Breakpoint.iHigh bp)%Q /\
  (0 <= Breakpoint.iLow bp)%Q /\ (Breakpoint.iHigh bp <= 500)%Q /\
  Breakpoint.iLow bp = inject_Z (Qfloor (Breakpoint.iLow bp)) /\
  Breakpoint.iHigh bp = inject_Z (Qfloor (Breakpoint.iHigh bp)).
Proof.
  unfold breakpoints. intros H.
  repeat (destruct H as [<-|H];
          [repeat split; try reflexivity; discriminate|]).
  destruct H.
Qed.

Lemma breakpoints_disjoint (pm25 : Q) (b b' : Breakpoint.t) :
  In b breakpoints -> In b' breakpoints ->
  covered_by b pm25 -> covered_by b' pm25 -> b = b'.
Proof.
  unfold breakpoints, covered_by. intros Hb Hb'.
  repeat (destruct Hb as [<-|Hb]; [
    repeat (destruct Hb' as [<-|Hb']; [
      cbn [Breakpoint.cLow Breakpoint.cHigh]; intros [H1 H2] [H3 H4];
      first [reflexivity | exfalso; lraQ] |]);
    destruct Hb' |]).
  destruct Hb.
Qed.

Lemma calculateAQIFromPM25_covered (pm25 : Q) (bp : Breakpoint.t) :
  In bp breakpoints -> covered_by bp pm25 ->
  calculateAQIFromPM25 pm25 = interpolate bp pm25.
Proof.
  intros Hin Hcov. unfold calculateAQIFromPM25.
  apply loop_covered; [exact Hin | exact Hcov|].
  intros b b'. apply breakpoints_disjoint.
Qed.

Lemma interpolate_bounds (pm25 : Q) (bp : Breakpoint.t) :
  In bp breakpoints -> covered_by bp pm25 ->
  Qfloor (Breakpoint.iLow bp) <= interpolate bp pm25
  <= Qfloor (Breakpoint.iHigh bp).
Proof.
  intros Hin [Hlo Hhi].
  destruct (breakpoints_rows bp Hin) as [Hc [Hi [_ [_ [El Eh]]]]].
  unfold interpolate.
  destruct (interpolation_between _ _ _ _ pm25 Hc Hi Hlo Hhi) as [H1 H2].
  apply Math_round_between.
  - rewrite <- El. exact H1.
  - rewrite <- Eh. exact H2.
Qed.

Lemma calculateAQIFromPM25_row (pm25 : Q) (bp : Breakpoint.t) :
  In bp breakpoints -> covered_by bp pm25 ->
  (Breakpoint.iLow bp <= inject_Z (calculateAQIFromPM25 pm25)
   /\ inject_Z (calculateAQIFromPM25 pm25) <= Breakpoint.iHigh bp)%Q.
Proof.
  intros Hin Hcov.
  rewrite (calculateAQIFromPM25_covered pm25 bp Hin Hcov).
  destruct (breakpoints_rows bp Hin) as [_ [_ [_ [_ [El Eh]]]]].
  destruct (interpolate_bounds pm25 bp Hin Hcov) as [H1 H2].
  split; [rewrite El | rewrite Eh]; rewrite <- Zle_Qle; assumption.
Qed.

Lemma calculateAQIFromPM25_bounds (pm25 : Q) :
  0 <= calculateAQIFromPM25 pm25 <= 500.
Proof.
  destruct (covered_dec breakpoints pm25) as [[bp [Hin Hcov]]|Hno].
  - destruct (calculateAQIFromPM25_row pm25 bp Hin Hcov) as [H1 H2].
    destruct (breakpoints_rows bp Hin) as [_ [_ [H0 [H500 _]]]].
    split; rewrite Zle_Qle.
    + change (inject_Z 0) with 0%Q. lraQ.
    + change (inject_Z 500) with 500%Q. lraQ.
  - unfold calculateAQIFromPM25. rewrite (loop_uncovered _ _ Hno). lia.
Qed.

(** X6. [calculateAQIFromPM25] always returns an index between 0 and 500,
    and for a concentration within a row of the table an index within the
    index range of that row. *)
Theorem calculateAQIFromPM25_range :
  forall pm25 : Q,
    0 <= calculateAQIFromPM25 pm25 <= 500 /\
    forall bp, In bp breakpoints -> covered_by bp pm25 ->
      (Breakpoint.iLow bp <= inject_Z (calculateAQIFromPM25 pm25)
       /\ inject_Z (calculateAQIFromPM25 pm25) <= Breakpoint.iHigh bp)%Q.
Proof.
  intros pm25. split.
  - apply calculateAQIFromPM25_bounds.
  - apply calculateAQIFromPM25_row.
Qed.

(** A concentration of 35.4 is the top of the second row and gives 100. *)
Lemma calculateAQIFromPM25_range_witness :
  let bp := Breakpoint.mk 12.1 35.4 51 100 in
  In bp breakpoints /\ covered_by bp 35.4 /\
  calculateAQIFromPM25 35.4 = 100 /\
  (51 <= inject_Z (calculateAQIFromPM25 35.4)
   /\ inject_Z (calculateAQIFromPM25 35.4) <= 100)%Q.
Proof.
  intros bp.
  assert (Hin : In bp breakpoints) by (right; left; reflexivity).
  assert (Hcov : covered_by bp 35.4) by (split; discriminate).
  split; [exact Hin|]. split; [exact Hcov|]. split; [reflexivity|].
  destruct (calculateAQIFromPM25_range 35.4) as [_ H].
  exact (H bp Hin Hcov).
Defined.

(** X7. The table has gaps: a negative concentration, one above 500.4, or
    one strictly between two rows (between 12 and 12.1, say) matches no row
    and is reported as the index 500. *)
Theorem calculateAQIFromPM25_gaps :
  forall pm25 : Q,
    (pm25 < 0 \/ (12 < pm25 /\ pm25 < 12.1) \/ (35.4 < pm25 /\ pm25 < 35.5)
     \/ (55.4 < pm25 /\ pm25 < 55.5) \/ (150.4 < pm25 /\ pm25 < 150.5)
     \/ (250.4 < pm25 /\ pm25 < 250.5) \/ (350.4 < pm25 /\ pm25 < 350.5)
     \/ 500.4 < pm25)%Q ->
    calculateAQIFromPM25 pm25 = 500.
Proof.
  intros pm25 H. unfold calculateAQIFromPM25. apply loop_uncovered.
  unfold breakpoints, covered_by. intros b Hb.
  repeat (destruct Hb as [<-|Hb];
          [cbn [Breakpoint.cLow Breakpoint.cHigh]; intros [H1 H2];
           repeat (destruct H as [H|H]; [lraQ|]); lraQ |]).
  destruct Hb.
Qed.

(** 12.05 lies between the first two rows: the index jumps to 500, while
    12 gives 50 and 12.1 gives 51. *)
Lemma calculateAQIFromPM25_gaps_witness :
  (12 < 12.05 /\ 12.05 < 12.1)%Q /\
  calculateAQIFromPM25 12.05 = 500 /\
  calculateAQIFromPM25 12 = 50 /\
  calculateAQIFromPM25 12.1 = 51.
Proof.
  assert (H : (12 < 12.05 /\ 12.05 < 12.1)%Q) by (split; reflexivity).
  split; [exact H|]. split; [|split; reflexivity].
  apply calculateAQIFromPM25_gaps. right. left. exact H.
Defined.

(** X8. On the concentrations the table covers the index is monotone: if
    [p <= q] and [p] lies within a row, the index of [p] is at most that of
    [q]. *)
Theorem calculateAQIFromPM25_monotone :
  forall p q : Q,
    (p <= q)%Q ->
    (exists bp, In bp breakpoints /\ covered_by bp p) ->
    calculateAQIFromPM25 p <= calculateAQIFromPM25 q.
Proof.
  intros p q Hpq [bp [Hin Hcov]].
  destruct (covered_dec breakpoints q) as [[bq [Hinq Hcovq]]|Hno].
  - rewrite (calculateAQIFromPM25_covered p bp Hin Hcov),
      (calculateAQIFromPM25_covered q bq Hinq Hcovq).
    pose proof (interpolate_bounds p bp Hin Hcov) as Bp.
    pose proof (interpolate_bounds q bq Hinq Hcovq) as Bq.
    destruct (breakpoints_rows bp Hin) as [Hc [Hi _]].
    assert (Hsame : bp = bq ->
              interpolate bp p <= interpolate bq q).
    { intros <-. unfold interpolate. apply Math_round_monotone.
      apply interpolation_monotone; assumption. }
    revert Hcov Hcovq Bp Bq Hsame. clear Hc Hi.
    unfold breakpoints in Hin, Hinq. unfold covered_by.
    repeat (destruct Hin as [<-|Hin]; [
      repeat (destruct Hinq as [<-|Hinq]; [
        cbn [Breakpoint.cLow Breakpoint.cHigh Breakpoint.iLow Breakpoint.iHigh];
        intros [H1 H2] [H3 H4] Bp Bq Hsame;
        first [ apply Hsame; reflexivity
              | exfalso; lraQ
              | vm_compute Qfloor in Bp, Bq; lia ] |]);
      destruct Hinq |]).
    destruct Hin.
  - unfold calculateAQIFromPM25 at 2. rewrite (loop_uncovered _ _ Hno).
    apply (calculateAQIFromPM25_bounds p).
Qed.

Lemma calculateAQIFromPM25_monotone_witness :
  (12 <= 35.5)%Q /\
  (exists bp, In bp breakpoints /\ covered_by bp 12) /\
  calculateAQIFromPM25 12 <= calculateAQIFromPM25 35.5.
Proof.
  assert (Hpq : (12 <= 35.5)%Q) by discriminate.
  assert (Hcov : exists bp, In bp breakpoints /\ covered_by bp 12).
  { exists (Breakpoint.mk 0 12 0 50). split; [left; reflexivity|].
    split; discriminate. }
  split; [exact Hpq|]. split; [exact Hcov|].
  exact (calculateAQIFromPM25_monotone 12 35.5 Hpq Hcov).
Defined.

(* ================================================================== *)
(** ** The source adapters *)

Lemma normalizeAQI_international_range (c : Z) :
  0 <= c <= 500 ->
  0 <= Qfloor (normalizeAQI (inject_Z c) INTERNATIONAL) <= 475.
Proof.
  intros Hc. unfold normalizeAQI. rewrite Qfloor_Z.
  rewrite !Zle_Qle in Hc. change (inject_Z 0) with 0%Q in Hc.
  change (inject_Z 500) with 500%Q in Hc.
  apply Math_round_between.
  - change (inject_Z 0) with 0%Q. lraQ.
  - change (inject_Z 475) with 475%Q. lraQ.
Qed.

Lemma calculateFreshness_unavailable (getTime : string -> option Z) (now : Z)
    (timestamp : option string) :
  calculateFreshness getTime now timestamp = unavailable <->
  string_or_null timestamp = None.
Proof.
  unfold calculateFreshness, string_or_null.
  destruct timestamp as [[|c ts]|]; split; intros H;
    try reflexivity; try discriminate.
  destruct (getTime (String c ts)); [|discriminate].
  destruct (Qltb _ 1); [discriminate|].
  destruct (Qltb _ 6); discriminate.
Qed.

(** X9. Whatever the network call produced, the OpenAQ adapter returns an
    INTERNATIONAL reading whose confidence is [high] exactly when it carries
    a value, whose value is an integer between 0 and 475, and which is
    unusable, without a value and [unavailable], when the call threw,
    failed or delivered no result. *)
Theorem fetchOpenAQData_reading :
  forall (getTime : string -> option Z) (now : Z)
         (toUpperCase : string -> string)
         (city : City.t) (outcome : InvokeOutcome),
    let r := fetchOpenAQData getTime now toUpperCase city outcome in
    AQIReading.source r = INTERNATIONAL /\
    (AQIReading.confidence r = Confidence.high <-> AQIReading.aqi r <> None) /\
    (AQIReading.confidence r = Confidence.low <-> AQIReading.aqi r = None) /\
    (forall a, AQIReading.aqi r = Some a -> 0 <= a <= 475) /\
    (delivers_data outcome = false ->
     AQIReading.aqi r = None /\ AQIReading.freshness r = unavailable /\
     usable r = false).
Proof.
  intros getTime now toUpperCase city outcome r. subst r.
  destruct outcome as [[m|]|m|[[|result rest]|]];
    unfold fetchOpenAQData, openAQ_failure, delivers_data, usable;
    cbv zeta.
  5: { destruct (find _ _) as [m|];
         cbn [AQIReading.source AQIReading.aqi AQIReading.confidence
              AQIReading.freshness].
       - split; [reflexivity|]. split; [split; [discriminate | reflexivity]|].
         split; [split; discriminate|]. split; [|discriminate].
         intros a Ha. injection Ha as <-.
         apply normalizeAQI_international_range, calculateAQIFromPM25_bounds.
       - split; [reflexivity|]. split; [split; [discriminate | congruence]|].
         split; [split; reflexivity|]. split; discriminate. }
  all: cbn [AQIReading.source AQIReading.aqi AQIReading.confidence
            AQIReading.freshness];
    (split; [reflexivity|]); (split; [split; [discriminate | congruence]|]);
    (split; [split; reflexivity|]); (split; [discriminate|]);
    intros _; repeat split.
Qed.

(** A response with a PM2.5 value of 35.4: index 100, normalised to 95. *)
Lemma fetchOpenAQData_reading_witness :
  let getTime := fun _ : string => Some 0 in
  let city := (City.mk "delhi" "Delhi" "Delhi" metro (Some "Delhi"))%string in
  let m :=
    Measurement.mk "pm25"%string 35.4 "ug/m3"%string
      (Some "2025-01-01T09:00:00Z"%string) in
  let ok := Resolved (Some [OpenAQResult.mk (Some [m])]) in
  let ko := Failed None in
  AQIReading.aqi (fetchOpenAQData getTime 0 (fun s => s) city ok) = Some 95 /\
  0 <= 95 <= 475 /\
  delivers_data ko = false /\
  usable (fetchOpenAQData getTime 0 (fun s => s) city ko) = false.
Proof.
  intros getTime city m ok ko.
  assert (Hv : AQIReading.aqi (fetchOpenAQData getTime 0 (fun s => s) city ok)
               = Some 95) by reflexivity.
  split; [exact Hv|].
  destruct (fetchOpenAQData_reading getTime 0 (fun s => s) city ok)
    as [_ [_ [_ [Hr _]]]].
  split; [exact (Hr 95 Hv)|].
  split; [reflexivity|].
  destruct (fetchOpenAQData_reading getTime 0 (fun s => s) city ko)
    as [_ [_ [_ [_ Hf]]]].
  apply Hf. reflexivity.
Defined.

Lemma fetchOpenAQData_failure_unusable (getTime : string -> option Z) (now : Z)
    (toUpperCase : string -> string) (city : City.t) (outcome : InvokeOutcome) :
  delivers_data outcome = false ->
  usable (fetchOpenAQData getTime now toUpperCase city outcome) = false.
Proof.
  destruct outcome as [[m|]|m|[[|result rest]|]]; intros H;
    try reflexivity; discriminate H.
Qed.

Lemma usable_readings_drop (l1 l2 : list AQIReading.t) (r : AQIReading.t) :
  usable r = false ->
  usable_readings (l1 ++ r :: l2) = usable_readings (l1 ++ l2).
Proof.
  intros H. unfold usable_readings.
  rewrite !filter_app. simpl. rewrite H. reflexivity.
Qed.

Lemma analyzeAgreement_usable (l l' : list AQIReading.t) :
  usable_readings l = usable_readings l' ->
  analyzeAgreement l = analyzeAgreement l'.
Proof.
  unfold usable_readings, analyzeAgreement. intros ->. reflexivity.
Qed.

Lemma calculateDerivedAQI_usable (l l' : list AQIReading.t) :
  usable_readings l = usable_readings l' ->
  calculateDerivedAQI l = calculateDerivedAQI l'.
Proof.
  unfold usable_readings, calculateDerivedAQI. intros ->. reflexivity.
Qed.

(** X10. A failed OpenAQ call does not disturb the reconciliation: the
    reading the adapter returns when the call threw, failed or delivered no
    result leaves the agreement analysis and the derived AQI of the other
    readings unchanged, wherever it stands among them. *)
Theorem fetchOpenAQData_failure_ignored :
  forall (getTime : string -> option Z) (now : Z)
         (toUpperCase : string -> string)
         (city : City.t) (outcome : InvokeOutcome)
         (before after : list AQIReading.t),
    delivers_data outcome = false ->
    let r := fetchOpenAQData getTime now toUpperCase city outcome in
    analyzeAgreement (before ++ r :: after) = analyzeAgreement (before ++ after) /\
    calculateDerivedAQI (before ++ r :: after)
      = calculateDerivedAQI (before ++ after).
Proof.
  intros getTime now toUpperCase city outcome before after H r.
  pose proof (fetchOpenAQData_failure_unusable getTime now toUpperCase city
                outcome H) as Hu.
  fold r in Hu.
  split.
  - apply analyzeAgreement_usable, usable_readings_drop, Hu.
  - apply calculateDerivedAQI_usable, usable_readings_drop, Hu.
Qed.

Lemma fetchOpenAQData_failure_ignored_witness :
  let getTime := fun _ : string => Some 0 in
  let city := (City.mk "delhi" "Delhi" "Delhi" metro (Some "Delhi"))%string in
  let g := reading GOVERNMENT (Some 278) fresh Confidence.high in
  let h := reading HISTORICAL (Some 285) stale Confidence.medium in
  let r := fetchOpenAQData getTime 0 (fun s => s) city
             (Rejected (Some "Failed to fetch"%string)) in
  delivers_data (Rejected (Some "Failed to fetch"%string)) = false /\
  analyzeAgreement [g; r; h] = analyzeAgreement [g; h] /\
  calculateDerivedAQI [g; r; h] = calculateDerivedAQI [g; h].
Proof.
  intros getTime city g h r.
  split; [reflexivity|].
  exact (fetchOpenAQData_failure_ignored getTime 0 (fun s => s) city
           (Rejected (Some "Failed to fetch"%string)) [g] [h] eq_refl).
Defined.

(** X11. The OpenAQ reading enters the reconciliation exactly when the
    first result has a [pm25] measurement and its first measurement, which
    need not be the [pm25] one, carries a non-empty [lastUpdated]. *)
Theorem fetchOpenAQData_usable :
  forall (getTime : string -> option Z) (now : Z)
         (toUpperCase : string -> string)
         (city : City.t) (outcome : InvokeOutcome),
    usable (fetchOpenAQData getTime now toUpperCase city outcome) = true <->
    (exists m,
        find (fun m => String.eqb (Measurement.parameter m) "pm25")
             (first_measurements outcome) = Some m) /\
    (exists m0 rest c s,
        first_measurements outcome = m0 :: rest /\
        Measurement.lastUpdated m0 = Some (String c s)).
Proof.
  intros getTime now toUpperCase city outcome.
  destruct outcome as [[m|]|m|[[|result rest]|]];
    try (split; [discriminate | intros [[m' Hm] _]; discriminate Hm]).
  unfold fetchOpenAQData, first_measurements, usable. cbv zeta.
  cbn [AQIReading.aqi AQIReading.freshness].
  set (ms := match OpenAQResult.measurements result with
             | Some ms => ms
             | None => []
             end).
  destruct (find _ ms) as [m|] eqn:Ef.
  - set (ts := match ms with
               | [] => None
               | m0 :: _ => string_or_null (Measurement.lastUpdated m0)
               end).
    pose proof (calculateFreshness_unavailable getTime now ts) as Hu.
    split.
    + intros H. split; [exists m; reflexivity|].
      destruct (calculateFreshness getTime now ts) eqn:Ec; try discriminate;
        (destruct ms as [|m0 tl]; subst ts;
         [ cbn in Ec; discriminate
         | destruct (Measurement.lastUpdated m0) as [[|c s]|] eqn:El;
           [ cbn in Ec; discriminate
           | exists m0, tl, c, s; split; [reflexivity | exact El]
           | cbn in Ec; discriminate ] ]).
    + intros [_ [m0 [tl [c [s [Hms Hl]]]]]].
      destruct (calculateFreshness getTime now ts) eqn:Ec; try reflexivity.
      exfalso. assert (Hn : string_or_null ts = None) by (apply Hu; reflexivity).
      subst ts. rewrite Hms, Hl in Hn. discriminate Hn.
  - split; [discriminate | intros [[m' Hm] _]; discriminate Hm].
Qed.

(** The [pm25] measurement is dated but stands second, after an undated
    one: the reading has the value 95 and the confidence [high] and is not
    usable. *)
Lemma fetchOpenAQData_usable_witness :
  let getTime := fun _ : string => Some 0 in
  let city := (City.mk "delhi" "Delhi" "Delhi" metro (Some "Delhi"))%string in
  let m1 := Measurement.mk "pm10"%string 80 "ug/m3"%string None in
  let m2 :=
    Measurement.mk "pm25"%string 35.4 "ug/m3"%string
      (Some "2025-01-01T09:00:00Z"%string) in
  let r := fetchOpenAQData getTime 0 (fun s => s) city
             (Resolved (Some [OpenAQResult.mk (Some [m1; m2])])) in
  AQIReading.aqi r = Some 95 /\
  AQIReading.confidence r = Confidence.high /\
  usable r <> true.
Proof.
  intros getTime city m1 m2 r.
  split; [reflexivity|]. split; [reflexivity|].
  intros Hu.
  apply (fetchOpenAQData_usable getTime 0 (fun s => s) city) in Hu.
  destruct Hu as [_ [m0 [tl [c [s [Hms Hl]]]]]].
  cbn in Hms. injection Hms as <- <-. discriminate Hl.
Defined.

(* ================================================================== *)
(** ** The cached sources of the listed cities *)

Lemma calculateFreshness_nonempty (getTime : string -> option Z) (now : Z)
    (c : Ascii.ascii) (s : string) :
  calculateFreshness getTime now (Some (String c s)) <> unavailable.
Proof.
  intros H. apply calculateFreshness_unavailable in H. discriminate H.
Qed.

(** X12. For every listed city and every clock the government and the
    historical readings are both usable; and when OpenAQ delivers nothing
    and the page holds no IoT reading (its fourth slot is [null]), the
    page's readings agree [high], the two caches being at most 10 points
    apart. *)
Theorem listed_city_caches_agree :
  forall (getTime : string -> option Z) (now : Z)
         (toUpperCase : string -> string)
         (city : City.t) (outcome : InvokeOutcome),
    In city INDIAN_CITIES ->
    delivers_data outcome = false ->
    let g := fetchGovernmentData getTime now city in
    let i := fetchOpenAQData getTime now toUpperCase city outcome in
    let h := fetchHistoricalData city in
    let agreement := analyzeAgreement (allReadings (Some g) (Some i) (Some h) None) in
    usable g = true /\ usable h = true /\
    AgreementAnalysis.level agreement = Level.high /\
    exists spread, AgreementAnalysis.spread agreement = Some spread /\
                   0 <= spread <= 10.
Proof.
  intros getTime now toUpperCase city outcome Hin Hout g i h agreement.
  assert (Hi : usable i = false)
    by (apply fetchOpenAQData_failure_unusable; exact Hout).
  assert (Ea : agreement = analyzeAgreement [g; h]).
  { subst agreement. unfold allReadings. cbn [flat_map app].
    apply analyzeAgreement_usable.
    exact (usable_readings_drop [g] [h] i Hi). }
  rewrite Ea. clear Ea agreement Hi i Hout outcome.
  subst g h. unfold INDIAN_CITIES in Hin.
  repeat (destruct Hin as [<-|Hin]; [
    unfold fetchGovernmentData, fetchHistoricalData;
    cbn [record_lookup City.id GOVERNMENT_DATA HISTORICAL_DATA String.eqb
         Ascii.eqb Bool.eqb GovernmentRow.aqi GovernmentRow.timestamp
         HistoricalRow.aqi HistoricalRow.timestamp];
    match goal with
    | |- context [calculateFreshness getTime now (Some (String ?c ?s))] =>
        pose proof (calculateFreshness_nonempty getTime now c s) as Hf;
        destruct (calculateFreshness getTime now (Some (String c s)));
        [ | | | congruence ];
        (split; [reflexivity|]); (split; [reflexivity|]);
        (split; [reflexivity|]); eexists; (split; [reflexivity|]);
        vm_compute; split; discriminate
    end |]).
  destruct Hin.
Qed.

Lemma listed_city_caches_agree_witness :
  let getTime := fun _ : string => Some 0 in
  let city :=
    (City.mk "patna" "Patna" "Bihar" tier2 (Some "Patna"))%string in
  let g := fetchGovernmentData getTime 0 city in
  let i := fetchOpenAQData getTime 0 (fun s => s) city (Resolved None) in
  let h := fetchHistoricalData city in
  In city INDIAN_CITIES /\
  AgreementAnalysis.spread
    (analyzeAgreement (allReadings (Some g) (Some i) (Some h) None)) = Some 10 /\
  AgreementAnalysis.level
    (analyzeAgreement (allReadings (Some g) (Some i) (Some h) None)) = Level.high.
Proof.
  intros getTime city g i h.
  assert (Hin : In city INDIAN_CITIES) by (do 6 right; left; reflexivity).
  split; [exact Hin|]. split; [reflexivity|].
  apply (listed_city_caches_agree getTime 0 (fun s => s) city (Resolved None)
           Hin eq_refl).
Defined.

(* ================================================================== *)
(** ** Categories and bar colours *)

Lemma Qle_bool_Z (a b : Z) : Qle_bool (a # 1) (b # 1) = (a <=? b).
Proof. unfold Qle_bool. simpl. rewrite !Z.mul_1_r. reflexivity. Qed.

(** [getAQICategory] on an integer, as a chain of integer comparisons. *)
Lemma getAQICategory_Z (z : Z) :
  getAQICategory (inject_Z z) =
    nth (if (0 <=? z) && (z <=? 50) then 0%nat
         else if (51 <=? z) && (z <=? 100) then 1%nat
         else if (101 <=? z) && (z <=? 200) then 2%nat
         else if (201 <=? z) && (z <=? 300) then 3%nat
         else if (301 <=? z) && (z <=? 400) then 4%nat
         else 5%nat)
        AQI_CATEGORIES (AQICategory.mk (0, 0)%Q "" "" "").
Proof.
  unfold getAQICategory, AQI_CATEGORIES, inject_Z.
  cbn [find AQICategory.range fst snd].
  rewrite !Qle_bool_Z.
  repeat match goal with
    | |- context [(?a <=? ?b) && (?c <=? ?d)] =>
        destruct ((a <=? b) && (c <=? d)) eqn:?; [reflexivity|]
    end.
  reflexivity.
Qed.

Lemma getBarColor_Z (z : Z) :
  getBarColor (inject_Z z) =
    if z <=? 50 then "bg-aqi-good"%string
    else if z <=? 100 then "bg-aqi-satisfactory"%string
    else if z <=? 200 then "bg-aqi-moderate"%string
    else if z <=? 300 then "bg-aqi-poor"%string
    else if z <=? 400 then "bg-aqi-verypoor"%string
    else "bg-aqi-severe"%string.
Proof.
  unfold getBarColor, inject_Z. rewrite !Qle_bool_Z. reflexivity.
Qed.

Ltac leb_cases :=
  repeat match goal with
    | |- context [?a <=? ?b] => destruct (Z.leb_spec a b)
    end.

(** X13. For an integer AQI between 0 and 500 [getAQICategory] returns the
    row of the table whose range contains it. *)
Theorem getAQICategory_contains :
  forall z : Z,
    0 <= z <= 500 ->
    let cat := getAQICategory (inject_Z z) in
    In cat AQI_CATEGORIES /\
    (fst (AQICategory.range cat) <= inject_Z z
     /\ inject_Z z <= snd (AQICategory.range cat))%Q.
Proof.
  intros z Hz cat. subst cat. rewrite getAQICategory_Z.
  unfold AQI_CATEGORIES.
  leb_cases; try lia;
    cbn [andb nth AQICategory.range fst snd];
    (split; [cbn; tauto|]);
    (split;
     [ change 0%Q with (inject_Z 0); change 51%Q with (inject_Z 51);
       change 101%Q with (inject_Z 101); change 201%Q with (inject_Z 201);
       change 301%Q with (inject_Z 301); change 401%Q with (inject_Z 401)
     | change 50%Q with (inject_Z 50); change 100%Q with (inject_Z 100);
       change 200%Q with (inject_Z 200); change 300%Q with (inject_Z 300);
       change 400%Q with (inject_Z 400); change 500%Q with (inject_Z 500) ]);
    rewrite <- Zle_Qle; lia.
Qed.

Lemma getAQICategory_contains_witness :
  0 <= 278 <= 500 /\
  AQICategory.label (getAQICategory (inject_Z 278)) = "Poor"%string /\
  (fst (AQICategory.range (getAQICategory (inject_Z 278))) <= inject_Z 278
   /\ inject_Z 278 <= snd (AQICategory.range (getAQICategory (inject_Z 278))))%Q.
Proof.
  assert (H : 0 <= 278 <= 500) by lia.
  split; [exact H|]. split; [reflexivity|].
  apply (getAQICategory_contains 278 H).
Defined.

(** X14. A value that no row of the table contains falls back to the last
    row: a negative AQI, one above 500, or one strictly between two rows
    (50.5, say) is labelled "Severe", like every value above 400. *)
Theorem getAQICategory_fallback :
  forall aqi : Q,
    (aqi < 0 \/ 400 < aqi \/ (50 < aqi /\ aqi < 51) \/ (100 < aqi /\ aqi < 101)
     \/ (200 < aqi /\ aqi < 201) \/ (300 < aqi /\ aqi < 301))%Q ->
    AQICategory.label (getAQICategory aqi) = "Severe"%string.
Proof.
  intros aqi H. unfold getAQICategory, AQI_CATEGORIES.
  cbn [find AQICategory.range fst snd].
  assert (F : forall lo hi : Q,
            (lo <= aqi /\ aqi <= hi)%Q \/ Qle_bool lo aqi && Qle_bool aqi hi = false).
  { intros lo hi.
    destruct (Qle_bool lo aqi) eqn:E1; [|now right].
    destruct (Qle_bool aqi hi) eqn:E2; [|now right].
    left. split; apply Qle_bool_iff; assumption. }
  destruct (F 0 50)%Q as [[H1 H2]| ->];
    [exfalso; repeat (destruct H as [H|H]; [lraQ|]); lraQ|].
  destruct (F 51 100)%Q as [[H1 H2]| ->];
    [exfalso; repeat (destruct H as [H|H]; [lraQ|]); lraQ|].
  destruct (F 101 200)%Q as [[H1 H2]| ->];
    [exfalso; repeat (destruct H as [H|H]; [lraQ|]); lraQ|].
  destruct (F 201 300)%Q as [[H1 H2]| ->];
    [exfalso; repeat (destruct H as [H|H]; [lraQ|]); lraQ|].
  destruct (F 301 400)%Q as [[H1 H2]| ->];
    [exfalso; repeat (destruct H as [H|H]; [lraQ|]); lraQ|].
  destruct (Qle_bool 401 aqi && Qle_bool aqi 500); reflexivity.
Qed.

(** A reading of -1 is shown as "Severe". *)
Lemma getAQICategory_fallback_witness :
  (-1 < 0)%Q /\
  AQICategory.label (getAQICategory (-1)) = "Severe"%string.
Proof.
  assert (H : (-1 < 0)%Q) by reflexivity.
  split; [exact H|].
  apply getAQICategory_fallback. left. exact H.
Defined.

(** X15. For every integer AQI that is not negative the colour of a trend
    bar is the colour of the category of that value. *)
Theorem getBarColor_matches_category :
  forall z : Z,
    0 <= z ->
    getBarColor (inject_Z z) =
      ("bg-" ++ AQICategory.color (getAQICategory (inject_Z z)))%string.
Proof.
  intros z Hz. rewrite getBarColor_Z, getAQICategory_Z.
  unfold AQI_CATEGORIES.
  leb_cases; try lia; reflexivity.
Qed.

(** Below zero the two disagree: the bar is drawn "good" and the category is
    "Severe". *)
Lemma getBarColor_matches_category_witness :
  0 <= 120 /\
  getBarColor (inject_Z 120) = "bg-aqi-moderate"%string /\
  AQICategory.color (getAQICategory (inject_Z 120)) = "aqi-moderate"%string /\
  getBarColor (inject_Z (-1)) = "bg-aqi-good"%string /\
  AQICategory.color (getAQICategory (inject_Z (-1))) = "aqi-severe"%string.
Proof.
  assert (H : 0 <= 120) by lia.
  split; [exact H|].
  pose proof (getBarColor_matches_category 120 H) as E.
  split; [rewrite E; reflexivity|].
  repeat split; reflexivity.
Defined.

(* ================================================================== *)
(** ** The IoT section *)

(** X16. A manual IoT value is accepted exactly when it parses to an integer
    between 0 and 500; the reading created carries that value, is fresh and
    uncalibrated, hence usable, and weighs 0.09 in the derived AQI. *)
Theorem handleSubmit_validated :
  forall (parseInt : string -> option Z) (nowISO : string)
         (cityType : CityType) (manualAQI : string),
    (handleSubmit parseInt nowISO cityType manualAQI <> None <->
     exists a, parseInt manualAQI = Some a /\ 0 <= a <= 500) /\
    (forall r, handleSubmit parseInt nowISO cityType manualAQI = Some r ->
       exists a, parseInt manualAQI = Some a /\ 0 <= a <= 500 /\
                 AQIReading.aqi r = Some a /\
                 AQIReading.source r = IOT_SENSOR /\
                 usable r = true /\
                 (reading_weight r == 0.09)%Q).
Proof.
  intros parseInt nowISO cityType manualAQI. unfold handleSubmit.
  destruct (parseInt manualAQI) as [a|].
  - destruct ((a <? 0) || (a >? 500)) eqn:E.
    + apply orb_true_iff in E. split.
      * split; [congruence|]. intros [a' [Ha' Hr]]. inversion Ha'; subst a'.
        destruct E as [E|E]; [apply Z.ltb_lt in E | apply Z.gtb_lt in E]; lia.
      * discriminate.
    + apply orb_false_iff in E. destruct E as [E1 E2].
      apply Z.ltb_ge in E1.
      assert (E2' : a <= 500).
      { rewrite Z.gtb_ltb in E2. apply Z.ltb_ge in E2. exact E2. }
      split.
      * split; [|discriminate]. intros _. exists a. split; [reflexivity | lia].
      * intros r Hr. inversion Hr; subst r. exists a.
        repeat split; try reflexivity; lia.
  - split.
    + split; [congruence|]. intros [a [Ha _]]. discriminate.
    + discriminate.
Qed.

Lemma handleSubmit_validated_witness :
  let parseInt := fun _ : string => Some 180 in
  exists r,
    handleSubmit parseInt "2025-01-01T09:00:00.000Z" metro "180" = Some r /\
    AQIReading.aqi r = Some 180 /\ usable r = true.
Proof.
  intros parseInt.
  destruct (handleSubmit_validated parseInt "2025-01-01T09:00:00.000Z" metro "180")
    as [_ H].
  eexists. split; [reflexivity|].
  destruct (H _ eq_refl) as [a [Ha [_ [Hr [_ [Hu _]]]]]].
  inversion Ha; subst a. split; [exact Hr | exact Hu].
Defined.

(** X17. A simulated IoT value always lies in the band of its city type,
    150 to 250 for [metro], 100 to 180 for [tier2], 200 to 350 for
    [industrial], and therefore within the range the manual input accepts;
    the input field shows the same value. *)
Theorem handleSimulate_range :
  forall (nowISO : string) (cityType : CityType) (rnd : Q),
    (0 <= rnd)%Q -> (rnd < 1)%Q ->
    exists a,
      AQIReading.aqi (fst (handleSimulate nowISO cityType rnd)) = Some a /\
      snd (handleSimulate nowISO cityType rnd) = string_of_Z a /\
      match cityType with
      | metro => 150 <= a <= 250
      | tier2 => 100 <= a <= 180
      | industrial => 200 <= a <= 350
      end /\
      0 <= a <= 500.
Proof.
  intros nowISO cityType rnd H0 H1. unfold handleSimulate.
  eexists. split; [reflexivity|]. split; [reflexivity|].
  destruct cityType.
  - assert (H : 150 <= Math_round (150 + rnd * 100) <= 250).
    { apply Math_round_between.
      - change (inject_Z 150) with 150%Q. lraQ.
      - change (inject_Z 250) with 250%Q. lraQ. }
    split; lia.
  - assert (H : 100 <= Math_round (100 + rnd * 80) <= 180).
    { apply Math_round_between.
      - change (inject_Z 100) with 100%Q. lraQ.
      - change (inject_Z 180) with 180%Q. lraQ. }
    split; lia.
  - assert (H : 200 <= Math_round (200 + rnd * 150) <= 350).
    { apply Math_round_between.
      - change (inject_Z 200) with 200%Q. lraQ.
      - change (inject_Z 350) with 350%Q. lraQ. }
    split; lia.
Qed.

Lemma handleSimulate_range_witness :
  (0 <= 0.5)%Q /\ (0.5 < 1)%Q /\
  AQIReading.aqi (fst (handleSimulate "2025-01-01T09:00:00.000Z" industrial 0.5))
    = Some 275 /\
  exists a,
    AQIReading.aqi (fst (handleSimulate "2025-01-01T09:00:00.000Z" industrial 0.5))
      = Some a /\ 200 <= a <= 350.
Proof.
  assert (H0 : (0 <= 0.5)%Q) by discriminate.
  assert (H1 : (0.5 < 1)%Q) by reflexivity.
  split; [exact H0|]. split; [exact H1|]. split; [reflexivity|].
  destruct (handleSimulate_range "2025-01-01T09:00:00.000Z" industrial 0.5 H0 H1)
    as [a [Ha [_ [Hr _]]]].
  exists a. split; [exact Ha | exact Hr].
Defined.

(* ================================================================== *)
(** ** Trend data and its chart *)

Lemma trend_baseAQI_bounds (cityId : string) :
  92 <= trend_baseAQI cityId <= 312.
Proof.
  unfold trend_baseAQI, HISTORICAL_DATA. cbn [record_lookup].
  repeat match goal with
    | |- context [String.eqb ?k cityId] =>
        destruct (String.eqb k cityId); [cbn; lia|]
    end.
  lia.
Qed.

(** X18. [generateTrendData] returns one point per hour from [hours] hours
    ago to now, oldest first, each with an AQI between 0 and 500; when
    [Math.random] stays in [[0, 1)] every point is within 15 percent of the
    base value of the city, up to the rounding, 150 being the base of an
    unknown city. *)
Theorem generateTrendData_shape :
  forall (random : nat -> Q) (isoHoursAgo : Z -> string)
         (cityId : string) (hours : Z),
    let data := generateTrendData random isoHoursAgo cityId hours in
    length data = Z.to_nat (hours + 1) /\
    (forall k, (k < length data)%nat ->
       TrendDataPoint.time (nth k data (TrendDataPoint.mk "" 0))
         = isoHoursAgo (hours - Z.of_nat k)) /\
    (forall p, In p data -> 0 <= TrendDataPoint.aqi p <= 500) /\
    ((forall k, (0 <= random k)%Q /\ (random k < 1)%Q) ->
     forall p, In p data ->
       (0.85 * inject_Z (trend_baseAQI cityId) - (1 # 2)
          <= inject_Z (TrendDataPoint.aqi p)
        /\ inject_Z (TrendDataPoint.aqi p)
          <= 1.15 * inject_Z (trend_baseAQI cityId) + (1 # 2))%Q).
Proof.
  intros random isoHoursAgo cityId hours data. subst data.
  unfold generateTrendData. cbv zeta.
  set (n := Z.to_nat (hours + 1)).
  split; [rewrite length_map, length_seq; reflexivity|].
  split.
  { intros k Hk. rewrite length_map, length_seq in Hk.
    set (f := fun k0 : nat => _).
    rewrite (nth_indep _ _ (f 0%nat))
      by (rewrite length_map, length_seq; exact Hk).
    rewrite map_nth, seq_nth by exact Hk. reflexivity. }
  split.
  { intros p Hp. apply in_map_iff in Hp. destruct Hp as [k [<- _]].
    cbn [TrendDataPoint.aqi]. lia. }
  intros Hr p Hp. apply in_map_iff in Hp. destruct Hp as [k [<- _]].
  cbn [TrendDataPoint.aqi].
  destruct (Hr k) as [H0 H1].
  pose proof (trend_baseAQI_bounds cityId) as Hb.
  rewrite !Zle_Qle in Hb.
  change (inject_Z 92) with 92%Q in Hb. change (inject_Z 312) with 312%Q in Hb.
  set (b := inject_Z (trend_baseAQI cityId)) in *.
  set (x := (b + (random k - 0.5) * 0.3 * b)%Q).
  pose proof (Math_round_nearest x) as [Hlo Hhi].
  assert (Hx : (0.85 * b <= x /\ x <= 1.15 * b)%Q).
  { unfold x. split; nraQ. }
  assert (Hm : 0 <= Math_round x <= 500).
  { apply Math_round_between.
    - change (inject_Z 0) with 0%Q. lraQ.
    - change (inject_Z 500) with 500%Q. lraQ. }
  rewrite Z.min_r by lia. rewrite Z.max_r by lia.
  split; lraQ.
Qed.

Lemma generateTrendData_shape_witness :
  let random := fun _ : nat => 0.5%Q in
  let iso := fun i : Z => string_of_Z i in
  let data := generateTrendData random iso "kanpur" 24 in
  length data = 25%nat /\
  (forall k, (0 <= random k)%Q /\ (random k < 1)%Q) /\
  forall p, In p data -> TrendDataPoint.aqi p = 312.
Proof.
  intros random iso data.
  destruct (generateTrendData_shape random iso "kanpur" 24) as [Hlen [_ [_ Hb]]].
  split; [exact Hlen|].
  assert (Hr : forall k, (0 <= random k)%Q /\ (random k < 1)%Q).
  { intros k. split; [discriminate | reflexivity]. }
  split; [exact Hr|].
  intros p Hp. pose proof (Hb Hr p Hp) as _.
  apply in_map_iff in Hp. destruct Hp as [k [<- _]]. reflexivity.
Defined.

(** X19. In the trend chart no bar divides by zero: the range is at least
    1, every bar has a height between 0 and 100 percent, the drawn height is
    between 5 and 100, and a flat series draws every bar at 5. *)
Theorem bar_height_range :
  forall (data : list TrendDataPoint.t) (d : TrendDataPoint.t),
    In d data ->
    1 <= chart_range data /\
    (0 <= bar_height data d /\ bar_height data d <= 100)%Q /\
    (5 <= displayed_height (bar_height data d)
     /\ displayed_height (bar_height data d) <= 100)%Q /\
    (Math_max (map TrendDataPoint.aqi data) = Math_min (map TrendDataPoint.aqi data) ->
     (displayed_height (bar_height data d) == 5)%Q).
Proof.
  intros data d Hd.
  set (values := map TrendDataPoint.aqi data).
  assert (Hv : In (TrendDataPoint.aqi d) values) by (apply in_map; exact Hd).
  assert (Hne : values <> []) by (intros E; rewrite E in Hv; destruct Hv).
  destruct (Math_max_spec values Hne) as [_ Hmax].
  destruct (Math_min_spec values Hne) as [_ Hmin].
  specialize (Hmax _ Hv). specialize (Hmin _ Hv).
  assert (Hr : 1 <= chart_range data /\
               Math_max values - Math_min values <= chart_range data).
  { unfold chart_range. cbv zeta. fold values.
    destruct (Z.eqb_spec (Math_max values - Math_min values) 0); lia. }
  destruct Hr as [Hr1 Hr2].
  assert (Hh : (0 <= bar_height data d /\ bar_height data d <= 100)%Q).
  { unfold bar_height. fold values.
    set (a := TrendDataPoint.aqi d - Math_min values).
    assert (Ha : 0 <= a <= chart_range data) by (unfold a; lia).
    rewrite !Zle_Qle in Ha. rewrite Zle_Qle in Hr1.
    change (inject_Z 0) with 0%Q in Ha. change (inject_Z 1) with 1%Q in Hr1.
    set (qa := inject_Z a) in *. set (qr := inject_Z (chart_range data)) in *.
    assert (H0 : (0 <= qa / qr)%Q) by (apply Qle_shift_div_l; lraQ).
    assert (H1 : (qa / qr <= 1)%Q) by (apply Qle_shift_div_r; lraQ).
    split; lraQ. }
  split; [exact Hr1|]. split; [exact Hh|].
  unfold displayed_height. split.
  - destruct (Qle_bool 5 (bar_height data d)) eqn:E.
    + apply Qle_bool_iff in E. split; [exact E | apply Hh].
    + split; discriminate.
  - intros Heq.
    assert (Hz : (bar_height data d == 0)%Q).
    { unfold bar_height. fold values.
      replace (TrendDataPoint.aqi d - Math_min values) with 0 by lia.
      unfold Qdiv. change (inject_Z 0) with 0%Q. ring. }
    destruct (Qle_bool 5 (bar_height data d)) eqn:E; [|reflexivity].
    apply Qle_bool_iff in E. rewrite Hz in E. exfalso. lraQ.
Qed.

Lemma bar_height_range_witness :
  let data := [ TrendDataPoint.mk "t0" 100; TrendDataPoint.mk "t1" 150;
                TrendDataPoint.mk "t2" 200 ] in
  let d := TrendDataPoint.mk "t1" 150 in
  In d data /\ (bar_height data d == 50)%Q /\
  (5 <= displayed_height (bar_height data d)
   /\ displayed_height (bar_height data d) <= 100)%Q.
Proof.
  intros data d.
  assert (Hd : In d data) by (right; left; reflexivity).
  split; [exact Hd|]. split; [reflexivity|].
  apply (bar_height_range data d Hd).
Defined.

Lemma filter_even_index_length {A : Type} (l : list A) (s : nat) :
  length (filter (fun ip : nat * A => Nat.even (fst ip))
                 (combine (seq s (length l)) l))
  = if Nat.even s then Nat.div2 (length l + 1) else Nat.div2 (length l).
Proof.
  revert s. induction l as [|x l IH]; intros s.
  - simpl. destruct (Nat.even s); reflexivity.
  - cbn [length seq combine filter fst].
    specialize (IH (S s)). rewrite Nat.even_succ, <- Nat.negb_even in IH.
    destruct (Nat.even s); cbn [negb] in IH; cbn [length]; rewrite IH.
    + replace (S (length l) + 1)%nat with (S (S (length l))) by lia.
      reflexivity.
    + replace (length l + 1)%nat with (S (length l)) by lia. reflexivity.
Qed.

Lemma map_snd_combine_seq {A : Type} (l : list A) (s : nat) :
  map snd (combine (seq s (length l)) l) = l.
Proof.
  revert s. induction l as [|x l IH]; intros s; [reflexivity|].
  cbn [length seq combine map snd]. rewrite IH. reflexivity.
Qed.

(** X20. The chart draws every point of a series of at most 12 points, and
    of a longer series the points at the even positions, half of them
    rounded up: 13 bars for the 25 points of a 24-hour trend. *)
Theorem displayData_length :
  forall data : list TrendDataPoint.t,
    ((length data <= 12)%nat -> displayData data = normalized data) /\
    ((12 < length data)%nat ->
     length (displayData data) = Nat.div2 (length data + 1)) /\
    (length data = 25%nat -> length (displayData data) = 13%nat).
Proof.
  intros data.
  assert (Hn : length (normalized data) = length data)
    by (unfold normalized; apply length_map).
  assert (Hbig : (12 < length data)%nat ->
                 length (displayData data) = Nat.div2 (length data + 1)).
  { intros H. unfold displayData.
    assert (E : (length data <=? 12)%nat = false) by (apply Nat.leb_gt; exact H).
    rewrite E, length_map.
    rewrite (filter_ext _ (fun ip => Nat.even (fst ip)))
      by (intros ip; apply orb_false_r).
    rewrite <- Hn at 1. rewrite filter_even_index_length, Hn. reflexivity. }
  split; [|split].
  - intros H. unfold displayData.
    assert (E : (length data <=? 12)%nat = true) by (apply Nat.leb_le; exact H).
    rewrite E.
    rewrite (filter_ext _ (fun _ => true)) by (intros ip; apply orb_true_r).
    assert (Hall : forall (B : Type) (l : list B), filter (fun _ => true) l = l).
    { intros B l. induction l as [|y l IH]; [reflexivity|].
      simpl. rewrite IH. reflexivity. }
    rewrite Hall. rewrite <- Hn. apply map_snd_combine_seq.
  - exact Hbig.
  - intros H. rewrite Hbig by lia. rewrite H. reflexivity.
Qed.

Lemma displayData_length_witness :
  let random := fun _ : nat => 0.5%Q in
  let data := generateTrendData random string_of_Z "delhi" 24 in
  length data = 25%nat /\ length (displayData data) = 13%nat.
Proof.
  intros random data.
  assert (H : length data = 25%nat) by reflexivity.
  split; [exact H|].
  destruct (displayData_length data) as [_ [_ H25]]. exact (H25 H).
Defined.

(* ================================================================== *)
(** ** City lookup *)

(** X21. City identifiers are unique: looking a listed city up by its
    identifier returns that city, and a lookup that succeeds returns a
    listed city with the identifier asked for. *)
Theorem getCityById_roundtrip :
  (forall city, In city INDIAN_CITIES -> getCityById (City.id city) = Some city) /\
  (forall id city, getCityById id = Some city ->
     In city INDIAN_CITIES /\ City.id city = id).
Proof.
  split.
  - intros city H. unfold INDIAN_CITIES in H.
    repeat (destruct H as [<-|H]; [reflexivity|]). destruct H.
  - intros id city H. unfold getCityById in H.
    apply find_some in H. destruct H as [Hin Heq].
    split; [exact Hin | apply String.eqb_eq; exact Heq].
Qed.

Lemma getCityById_roundtrip_witness :
  let city :=
    (City.mk "kanpur" "Kanpur" "Uttar Pradesh" industrial (Some "Kanpur"))%string in
  In city INDIAN_CITIES /\ getCityById "kanpur" = Some city /\
  getCityById "pune" = None.
Proof.
  intros city.
  assert (Hin : In city INDIAN_CITIES) by (do 7 right; left; reflexivity).
  split; [exact Hin|].
  destruct getCityById_roundtrip as [H _].
  split; [exact (H city Hin) | reflexivity].
Defined.

(* ================================================================== *)
(** ** The warning banner *)

Lemma analyzeAgreement_outlier (readings : list AQIReading.t) :
  AgreementAnalysis.level (analyzeAgreement readings) = Level.outlier ->
  (2 <= length (usable_readings readings))%nat /\
  AgreementAnalysis.spread (analyzeAgreement readings)
    = Some (Math_max (usable_aqi readings) - Math_min (usable_aqi readings)) /\
  50 < Math_max (usable_aqi readings) - Math_min (usable_aqi readings).
Proof.
  intros H.
  destruct (le_lt_dec 2 (length (usable_readings readings))) as [H2|H2].
  - split; [exact H2|].
    pose proof (level_of_spread readings H2) as Hl. cbv zeta in Hl.
    rewrite H in Hl.
    rewrite (analyzeAgreement_many readings H2). cbv zeta.
    destruct (_ <=? 20) eqn:E20; [discriminate|].
    destruct (_ <=? 50) eqn:E50; [discriminate|].
    apply Z.leb_gt in E50. simpl. split; [reflexivity | exact E50].
  - exfalso. revert H. unfold analyzeAgreement. unfold usable_readings in H2.
    destruct (filter usable readings) as [|r1 [|r2 rest]];
      [discriminate | discriminate | simpl in H2; lia].
Qed.

(** X22. The banner shows a disagreement warning exactly when the analysis
    of the same readings is [outlier], and the spread it prints is the
    spread of the usable values, which then exceeds 50. *)
Theorem WarningBanner_disagreement :
  forall readings : list AQIReading.t,
    let agreement := analyzeAgreement readings in
    let spread :=
      Math_max (usable_aqi readings) - Math_min (usable_aqi readings) in
    ((exists s, In (disagreement_warning s) (WarningBanner readings agreement))
     <-> AgreementAnalysis.level agreement = Level.outlier) /\
    (AgreementAnalysis.level agreement = Level.outlier ->
     50 < spread /\
     In (disagreement_warning spread) (WarningBanner readings agreement)).
Proof.
  intros readings agreement spread.
  assert (Hout : AgreementAnalysis.level agreement = Level.outlier ->
                 50 < spread /\
                 In (disagreement_warning spread) (WarningBanner readings agreement)).
  { intros H. destruct (analyzeAgreement_outlier readings H) as [_ [Hs H50]].
    split; [exact H50|].
    unfold WarningBanner. rewrite !in_app_iff. right. right. right. left.
    unfold disagreement_check. fold agreement in Hs. rewrite H, Hs.
    left. reflexivity. }
  split; [|exact Hout]. split.
  - intros [s Hin]. unfold WarningBanner in Hin. rewrite !in_app_iff in Hin.
    destruct Hin as [Hin|[Hin|[Hin|[Hin|Hin]]]].
    + unfold missing_check in Hin.
      destruct (filter is_unavailable readings); [destruct Hin|].
      destruct Hin as [Hin|[]]. discriminate Hin.
    + unfold stale_check in Hin.
      destruct (filter is_stale readings); [destruct Hin|].
      destruct Hin as [Hin|[]]. discriminate Hin.
    + unfold single_source_check in Hin.
      destruct (filter usable readings) as [|r [|r' l]]; try destruct Hin.
      * discriminate H.
      * destruct H.
    + unfold disagreement_check in Hin.
      destruct (AgreementAnalysis.level agreement); try destruct Hin.
      reflexivity.
    + unfold iot_check in Hin.
      destruct (find is_IOT readings) as [iot|]; [|destruct Hin].
      destruct (AQIReading.aqi iot); [|destruct Hin].
      destruct (filter _ readings); [destruct Hin|].
      destruct (Qltb 50 _); [|destruct Hin].
      destruct Hin as [Hin|[]]. discriminate Hin.
  - intros H. exists spread. apply Hout, H.
Qed.

(** Government 100 against historical 160: outlier, with a warning that
    prints the spread 60. *)
Lemma WarningBanner_disagreement_witness :
  let readings :=
    [ reading GOVERNMENT (Some 100) fresh Confidence.high;
      reading HISTORICAL (Some 160) stale Confidence.medium ] in
  AgreementAnalysis.level (analyzeAgreement readings) = Level.outlier /\
  In (disagreement_warning 60) (WarningBanner readings (analyzeAgreement readings)).
Proof.
  intros readings.
  assert (H : AgreementAnalysis.level (analyzeAgreement readings) = Level.outlier)
    by reflexivity.
  split; [exact H|].
  destruct (WarningBanner_disagreement readings) as [_ Hout].
  exact (proj2 (Hout H)).
Defined.

(** X23. The historical reading of a listed city is stale by construction,
    so whenever it is among the readings of the page the banner shows the
    stale-data warning, whatever the other readings and the analysis. *)
Theorem WarningBanner_historical_stale :
  forall (city : City.t) (readings : list AQIReading.t)
         (agreement : AgreementAnalysis.t),
    In city INDIAN_CITIES ->
    In (fetchHistoricalData city) readings ->
    In (fetchHistoricalData city) (filter is_stale readings) /\
    In (stale_warning (filter is_stale readings))
       (WarningBanner readings agreement).
Proof.
  intros city readings agreement Hc Hin.
  assert (Hs : is_stale (fetchHistoricalData city) = true).
  { unfold INDIAN_CITIES in Hc.
    repeat (destruct Hc as [<-|Hc]; [reflexivity|]). destruct Hc. }
  assert (Hf : In (fetchHistoricalData city) (filter is_stale readings))
    by (apply filter_In; split; assumption).
  split; [exact Hf|].
  unfold WarningBanner. rewrite !in_app_iff. right. left.
  unfold stale_check.
  destruct (filter is_stale readings) as [|r l]; [destruct Hf|].
  left. reflexivity.
Qed.

Lemma WarningBanner_historical_stale_witness :
  let city := (City.mk "delhi" "Delhi" "Delhi" metro (Some "Delhi"))%string in
  let g := fetchGovernmentData (fun _ => Some 0) 0 city in
  let h := fetchHistoricalData city in
  In city INDIAN_CITIES /\ In h [g; h] /\
  In ("Stale data from: HISTORICAL. Values may not reflect current conditions."%string)
     (WarningBanner [g; h] (analyzeAgreement [g; h])).
Proof.
  intros city g h.
  assert (Hc : In city INDIAN_CITIES) by (left; reflexivity).
  assert (Hin : In h [g; h]) by (right; left; reflexivity).
  split; [exact Hc|]. split; [exact Hin|].
  exact (proj2 (WarningBanner_historical_stale city [g; h]
                  (analyzeAgreement [g; h]) Hc Hin)).
Defined.

(* ================================================================== *)
(** ** The IoT comparison and the banner *)

Lemma filter_filter_and {A : Type} (f g : A -> bool) (l : list A) :
  filter g (filter f l) = filter (fun x => f x && g x) l.
Proof.
  induction l as [|x l IH]; [reflexivity|].
  simpl. destruct (f x); simpl; [destruct (g x)|]; rewrite IH; reflexivity.
Qed.

(** X24. The IoT section in its submitted state and the banner.  While
    the page holds the IoT reading made from the text of the field, the
    comparison is at level [error] exactly when the banner shows the IoT
    deviation warning, both measuring the distance of the value from the
    average of the other readings that carry a value against 50.  When the
    page holds no IoT reading (it drops the reading on a change of city,
    the section keeping its text and its submitted state), the banner has
    no IoT warning, also where the comparison is at level [error]. *)
Theorem iot_deviation_consistent :
  forall (parseInt : string -> option Z) (manualAQI : string)
         (readings : list AQIReading.t) (a : Z),
    manualAQI <> ""%string ->
    parseInt manualAQI = Some a ->
    (forall iot : AQIReading.t,
        find is_IOT readings = Some iot ->
        AQIReading.aqi iot = Some a ->
        ((exists message,
             iotComparison parseInt true manualAQI (page_otherReadings readings)
             = Some (message, Comparison.error))
         <-> iot_check readings <> [])) /\
    (find is_IOT readings = None ->
     iot_check readings = [] /\
     (filter has_aqi (page_otherReadings readings) <> [] ->
      (50 < Qabs (inject_Z a
                  - avgOther (filter has_aqi (page_otherReadings readings))))%Q ->
      exists message,
        iotComparison parseInt true manualAQI (page_otherReadings readings)
        = Some (message, Comparison.error))).
Proof.
  intros parseInt manualAQI readings a Hne Hp.
  assert (E : String.eqb manualAQI "" = false)
    by (apply String.eqb_neq; exact Hne).
  split.
  - intros iot Hf Ha.
    unfold iotComparison, iot_check, page_otherReadings.
    rewrite Hp, Hf, Ha, E. cbn [negb orb]. cbv zeta.
    rewrite filter_filter_and.
    destruct (filter (fun x => negb (is_IOT x) && has_aqi x) readings)
      as [|o others] eqn:Eo.
    + split; [intros [m Hm]; discriminate Hm | congruence].
    + set (absDiff := Qabs (inject_Z a - avgOther (o :: others))).
      destruct (Qle_bool absDiff 20) eqn:E20.
      * apply Qle_bool_iff in E20.
        assert (E50 : Qltb 50 absDiff = false) by (apply Qltb_ge; lraQ).
        rewrite E50. split; [intros [m Hm]; discriminate Hm | congruence].
      * destruct (Qle_bool absDiff 50) eqn:E50.
        -- assert (E50' : Qltb 50 absDiff = false)
             by (apply Qltb_ge, Qle_bool_iff; exact E50).
           rewrite E50'.
           split; [intros [m Hm]; discriminate Hm | congruence].
        -- assert (E50' : Qltb 50 absDiff = true).
           { unfold Qltb. rewrite E50. reflexivity. }
           rewrite E50'.
           split; [discriminate | intros _; eexists; reflexivity].
  - intros Hf. split.
    + unfold iot_check. rewrite Hf. reflexivity.
    + intros Ho H50. unfold iotComparison. rewrite Hp, E.
      cbn [negb orb]. cbv zeta.
      destruct (filter has_aqi (page_otherReadings readings))
        as [|o others]; [congruence|].
      set (absDiff := Qabs (inject_Z a - avgOther (o :: others))) in *.
      assert (E20 : Qle_bool absDiff 20 = false).
      { destruct (Qle_bool absDiff 20) eqn:E20; [|reflexivity].
        apply Qle_bool_iff in E20. exfalso. lraQ. }
      assert (E50 : Qle_bool absDiff 50 = false).
      { destruct (Qle_bool absDiff 50) eqn:E50; [|reflexivity].
        apply Qle_bool_iff in E50. exfalso. lraQ. }
      rewrite E20, E50. eexists. reflexivity.
Qed.

(** A submitted value of 400 next to a government reading of 278: with the
    IoT reading on the page both report the deviation; once the page has
    dropped the reading the comparison still does and the banner does not. *)
Lemma iot_deviation_consistent_witness :
  let parseInt := fun _ : string => Some 400 in
  let g := reading GOVERNMENT (Some 278) fresh Confidence.high in
  let iot := reading IOT_SENSOR (Some 400) fresh Confidence.uncalibrated in
  ((exists message,
       iotComparison parseInt true "400" (page_otherReadings [g; iot])
       = Some (message, Comparison.error)) /\
   iot_check [g; iot] <> []) /\
  ((exists message,
       iotComparison parseInt true "400" (page_otherReadings [g])
       = Some (message, Comparison.error)) /\
   iot_check [g] = []).
Proof.
  intros parseInt g iot.
  assert (Hne : "400"%string <> ""%string) by discriminate.
  split.
  - destruct (iot_deviation_consistent parseInt "400" [g; iot] 400
                Hne eq_refl) as [H _].
    assert (Hc : iot_check [g; iot] <> []) by discriminate.
    split; [apply (H iot eq_refl eq_refl); exact Hc | exact Hc].
  - destruct (iot_deviation_consistent parseInt "400" [g] 400
                Hne eq_refl) as [_ H].
    destruct (H eq_refl) as [Hb Hc].
    split; [|exact Hb].
    apply Hc; [discriminate | reflexivity].
Defined.
